(** * MrTidy: date resolution (collect.py) and archive planning (tidy.py)

    A shallow embedding of the two scripts of the repository and the
    properties of their natural-language specification.

    Python values are modelled as follows.
    - [str] is a list of Unicode code points ([pystr]);
    - [int] is [Z];
    - a function that may raise returns [result A], with the exception
      class that escapes;
    - the regular expressions of the scripts are written in a small
      backtracking engine that returns the matches in the order in which
      Python's [re] tries them, so that the first element is the match
      [re] reports;
    - the file system is an explicit state ([Fs.t]) threaded through the
      functions of tidy.py;
    - [os.path] is the POSIX flavour (separator [/]). *)

From Stdlib Require Import NArith ZArith String Ascii Bool Lia List.
Import ListNotations.

Set Implicit Arguments.

(* ================================================================= *)
(** ** Python runtime *)

Module Py.

Definition pystr := list N.

(** A literal of the scripts (ASCII text) as a Python [str]. *)
Definition lit (s : string) : pystr :=
  map N_of_ascii (list_ascii_of_string s).

Fixpoint str_eqb (a b : pystr) : bool :=
  match a, b with
  | [], [] => true
  | x :: a', y :: b' => (x =? y)%N && str_eqb a' b'
  | _, _ => false
  end.

(** Exception classes that the modelled code can raise. *)
Inductive exn : Type :=
| AttributeError
| ValueError
| TypeError
| KeyError
| UnboundLocalError
| FileNotFoundError
| NotADirectoryError
| FileExistsError
| OSError
| EOFError
| SystemExit.

Inductive result (A : Type) : Type :=
| Ret (a : A)
| Raise (e : exn).

Arguments Ret {A} a.
Arguments Raise {A} e.

Definition bind {A B : Type} (m : result A) (k : A -> result B) : result B :=
  match m with
  | Ret a => k a
  | Raise e => Raise e
  end.

(** Truth value of a [str] and of [None]-or-[str]. *)
Definition truthy (s : pystr) : bool :=
  match s with [] => false | _ :: _ => true end.

Definition otruthy (o : option pystr) : bool :=
  match o with Some s => truthy s | None => false end.

(** *** Unicode properties used by [re] and [int]

    [\d] and [int()] use the Unicode decimal property; every run of decimal
    digits is ten consecutive code points valued 0..9, so the table lists
    the first code point of each run (Unicode 14, the database of the
    CPython 3.11 runtime).  [\s] is [str.isspace]. *)

Definition decimal_runs : list N :=
  [48; 1632; 1776; 1984; 2406; 2534; 2662; 2790; 2918; 3046; 3174; 3302;
   3430; 3558; 3664; 3792; 3872; 4160; 4240; 6112; 6160; 6470; 6608; 6784;
   6800; 6992; 7088; 7232; 7248; 42528; 43216; 43264; 43472; 43504; 43600;
   44016; 65296; 66720; 68912; 69734; 69872; 69942; 70096; 70384; 70736;
   70864; 71248; 71360; 71472; 71904; 72016; 72784; 73040; 73120; 92768;
   92864; 93008; 120782; 120792; 120802; 120812; 120822; 123200; 123632;
   125264; 130032]%N.

Fixpoint decimal_in (runs : list N) (c : N) : option N :=
  match runs with
  | [] => None
  | r :: runs' =>
      if ((r <=? c) && (c <? r + 10))%N then Some (c - r)%N
      else decimal_in runs' c
  end.

Definition decimal_value (c : N) : option N := decimal_in decimal_runs c.

Definition is_decimal (c : N) : bool :=
  match decimal_value c with Some _ => true | None => false end.

Definition space_points : list N :=
  [9; 10; 11; 12; 13; 28; 29; 30; 31; 32; 133; 160; 5760; 8192; 8193; 8194;
   8195; 8196; 8197; 8198; 8199; 8200; 8201; 8202; 8232; 8233; 8239; 8287;
   12288]%N.

Definition is_space (c : N) : bool := existsb (N.eqb c) space_points.

(** *** [int(s)]

    Blanks around the digits are ignored; a sign or underscores, which
    CPython also accepts, never reach [int] in the scripts and are reported
    as [ValueError] here. *)

Fixpoint lstrip (s : pystr) : pystr :=
  match s with
  | [] => []
  | c :: s' => if is_space c then lstrip s' else s
  end.

Definition strip (s : pystr) : pystr := rev (lstrip (rev (lstrip s))).

Fixpoint int_digits (acc : Z) (s : pystr) : option Z :=
  match s with
  | [] => Some acc
  | c :: s' =>
      match decimal_value c with
      | Some d => int_digits (10 * acc + Z.of_N d) s'
      | None => None
      end
  end.

Definition int (s : pystr) : result Z :=
  match strip s with
  | [] => Raise ValueError
  | d :: ds =>
      match int_digits 0 (d :: ds) with
      | Some z => Ret z
      | None => Raise ValueError
      end
  end.

(** *** [str(n)] and the format specs [{n}], [{n:02}], [{n:05}] *)

Fixpoint digits_fuel (fuel : nat) (n : N) (acc : pystr) : pystr :=
  match fuel with
  | O => acc
  | S fuel' =>
      let acc' := (48 + n mod 10)%N :: acc in
      if (n / 10 =? 0)%N then acc' else digits_fuel fuel' (n / 10)%N acc'
  end.

Definition str_of_N (n : N) : pystr :=
  digits_fuel (S (N.to_nat (N.log2 n))) n [].

Definition str_of_Z (z : Z) : pystr :=
  if (z <? 0)%Z then 45%N :: str_of_N (Z.to_N (- z)) else str_of_N (Z.to_N z).

(** [format(z, '0w')]: zeros are inserted after the sign up to width [w]. *)
Definition zfill (w : nat) (z : Z) : pystr :=
  if (z <? 0)%Z then
    let d := str_of_N (Z.to_N (- z)) in
    45%N :: repeat 48%N (w - 1 - length d) ++ d
  else
    let d := str_of_N (Z.to_N z) in
    repeat 48%N (w - length d) ++ d.

(** *** [str] methods *)

Fixpoint startswith (p s : pystr) : bool :=
  match p, s with
  | [], _ => true
  | _ :: _, [] => false
  | a :: p', b :: s' => (a =? b)%N && startswith p' s'
  end.

(** [s.replace(old, new)], left to right without overlap; [skip] counts
    the characters of a replaced occurrence still to be dropped. *)
Fixpoint replace_from (old new : pystr) (skip : nat) (s : pystr) : pystr :=
  match s with
  | [] => []
  | c :: s' =>
      match skip with
      | S k => replace_from old new k s'
      | O =>
          if startswith old s
          then new ++ replace_from old new (length old - 1) s'
          else c :: replace_from old new 0 s'
      end
  end.

Definition replace (old new s : pystr) : pystr :=
  match old with
  | [] => new ++ flat_map (fun c => c :: new) s
  | _ :: _ => replace_from old new 0 s
  end.

(** [s.split(sep)] for a one-character separator. *)
Fixpoint split (sep : N) (s : pystr) : list pystr :=
  match s with
  | [] => [[]]
  | c :: s' =>
      if (c =? sep)%N then [] :: split sep s'
      else match split sep s' with
           | [] => [[c]]
           | w :: ws => (c :: w) :: ws
           end
  end.

Definition endswith_char (c : N) (s : pystr) : bool :=
  match rev s with
  | [] => false
  | d :: _ => (d =? c)%N
  end.

End Py.

Export Py.

Declare Scope py_scope.
Delimit Scope py_scope with py.
Notation "x <- m ;; k" := (bind m (fun x => k))
  (at level 61, m at next level, right associativity) : py_scope.
Open Scope py_scope.

(* ================================================================= *)
(** ** The [re] module *)

Module Re.

(** Patterns.  Repetition is needed on one-character classes only
    ([.*], [\s+], [_+], [__*]); [Opt] is the greedy [r?], so that
    [\d{1,2}] is [\d\d?]. *)
Inductive regex : Type :=
| Eps
| Chr (p : N -> bool)
| Cat (r1 r2 : regex)
| Alt (r1 r2 : regex)
| Star (p : N -> bool)
| Opt (r : regex)
| Grp (name : string) (r : regex)
| Bol
| Eol.

Definition captures := list (string * pystr).

(** A way a pattern matches: the groups captured, the text matched and
    the input that remains. *)
Record found : Type := {
  groups : captures;
  text : pystr;
  rest : pystr
}.

Definition push (c : N) (m : found) : found :=
  {| groups := groups m; text := c :: text m; rest := rest m |}.

(** The ways a greedy [p*] matches, longest first. *)
Fixpoint stars (p : N -> bool) (s : pystr) : list found :=
  let none := {| groups := []; text := []; rest := s |} in
  match s with
  | [] => [none]
  | c :: s' => if p c then map (push c) (stars p s') ++ [none] else [none]
  end.

Definition then_ (m1 m2 : found) : found :=
  {| groups := groups m2 ++ groups m1; text := text m1 ++ text m2;
     rest := rest m2 |}.

(** All the ways [r] matches a prefix of [s], in backtracking order; [bos]
    tells whether [s] starts at the beginning of the subject (for [^]). *)
Fixpoint rmatch (bos : bool) (r : regex) (s : pystr) : list found :=
  let empty := {| groups := []; text := []; rest := s |} in
  match r with
  | Eps => [empty]
  | Chr p =>
      match s with
      | [] => []
      | c :: s' =>
          if p c then [{| groups := []; text := [c]; rest := s' |}] else []
      end
  | Cat r1 r2 =>
      flat_map
        (fun m1 =>
           map (then_ m1)
               (rmatch (bos && negb (truthy (text m1))) r2 (rest m1)))
        (rmatch bos r1 s)
  | Alt r1 r2 => rmatch bos r1 s ++ rmatch bos r2 s
  | Star p => stars p s
  | Opt r' => rmatch bos r' s ++ [empty]
  | Grp g r' =>
      map (fun m => {| groups := (g, text m) :: groups m; text := text m;
                       rest := rest m |})
          (rmatch bos r' s)
  | Bol => if bos then [empty] else []
  | Eol =>
      match s with
      | [] => [empty]
      | [c] => if (c =? 10)%N then [empty] else []
      | _ => []
      end
  end.

(** [m.group(name)] *)
Fixpoint group (name : string) (c : captures) : pystr :=
  match c with
  | [] => []
  | (g, v) :: c' => if String.eqb g name then v else group name c'
  end.

(** [re.match]: the first way the pattern matches at the start. *)
Definition re_match (r : regex) (s : pystr) : option found :=
  hd_error (rmatch true r s).

(** [re.search]: the first start position that has a match. *)
Fixpoint search_from (bos : bool) (r : regex) (s : pystr) : option found :=
  match rmatch bos r s with
  | m :: _ => Some m
  | [] =>
      match s with
      | [] => None
      | _ :: s' => search_from false r s'
      end
  end.

Definition search (r : regex) (s : pystr) : option found :=
  search_from true r s.

(** [re.sub(r, repl, s)] for a pattern that cannot match the empty string
    (true of every pattern of the scripts) and a literal replacement;
    [skip] counts the characters of a replaced match still to be dropped. *)
Fixpoint sub_from (bos : bool) (r : regex) (repl : pystr) (skip : nat)
  (s : pystr) : pystr :=
  match s with
  | [] => []
  | c :: s' =>
      match skip with
      | S k => sub_from false r repl k s'
      | O =>
          match rmatch bos r s with
          | m :: _ =>
              match length (text m) with
              | O => c :: sub_from false r repl 0 s'
              | S k => repl ++ sub_from false r repl k s'
              end
          | [] => c :: sub_from false r repl 0 s'
          end
      end
  end.

Definition sub (r : regex) (repl s : pystr) : pystr :=
  sub_from true r repl 0 s.

(** Building blocks. *)
Definition chr (c : N) : regex := Chr (N.eqb c).
Definition range (lo hi : N) (c : N) : bool := ((lo <=? c) && (c <=? hi))%N.
Definition dot : N -> bool := fun c => negb (c =? 10)%N.
Definition digit : regex := Chr is_decimal.
Definition plus (p : N -> bool) : regex := Cat (Chr p) (Star p).
Fixpoint cats (rs : list regex) : regex :=
  match rs with
  | [] => Eps
  | [r] => r
  | r :: rs' => Cat r (cats rs')
  end.
Fixpoint alts (rs : list regex) : regex :=
  match rs with
  | [] => Chr (fun _ => false)
  | [r] => r
  | r :: rs' => Alt r (alts rs')
  end.

End Re.

Export Re.

(* ================================================================= *)
(** ** The [time] module: [strptime] and [strftime] *)

Module PyTime.

Record struct_time : Type := {
  tm_year : Z; tm_mon : Z; tm_mday : Z;
  tm_hour : Z; tm_min : Z; tm_sec : Z
}.

Definition is_leap (y : Z) : bool :=
  ((y mod 4 =? 0) && (negb (y mod 100 =? 0) || (y mod 400 =? 0)))%Z.

Definition days_in_month (y m : Z) : Z :=
  (if m =? 2 then (if is_leap y then 29 else 28)
   else if (m =? 4) || (m =? 6) || (m =? 9) || (m =? 11) then 30
   else 31)%Z.

(** The constructor of [datetime.date] accepts the fields or raises
    [ValueError]. *)
Definition date_ok (y m d : Z) : bool :=
  ((1 <=? y) && (y <=? 9999) && (1 <=? m) && (m <=? 12) &&
   (1 <=? d) && (d <=? days_in_month y m))%Z.

(** The pattern [_strptime] compiles for [%Y:%m:%d %H:%M:%S]; the blank of
    the format becomes [\s+]. *)
Definition c0 : N := 48%N.
Definition cls (lo hi : N) : regex := Chr (range (c0 + lo) (c0 + hi)).
Definition dig (d : N) : regex := chr (c0 + d).

Definition strptime_re : regex :=
  cats
    [ Grp "Y" (cats [digit; digit; digit; digit]);
      chr 58;
      Grp "m" (alts [Cat (dig 1) (cls 0 2); Cat (dig 0) (cls 1 9); cls 1 9]);
      chr 58;
      Grp "d" (alts [Cat (dig 3) (cls 0 1); Cat (cls 1 2) digit;
                     Cat (dig 0) (cls 1 9); cls 1 9; Cat (chr 32) (cls 1 9)]);
      plus is_space;
      Grp "H" (alts [Cat (dig 2) (cls 0 3); Cat (cls 0 1) digit; digit]);
      chr 58;
      Grp "M" (alts [Cat (cls 0 5) digit; digit]);
      chr 58;
      Grp "S" (alts [Cat (dig 6) (cls 0 1); Cat (cls 0 5) digit; digit]) ].

(** [time.strptime(s, '%Y:%m:%d %H:%M:%S')]. *)
Definition strptime (s : pystr) : result struct_time :=
  match re_match strptime_re s with
  | None => Raise ValueError
  | Some found =>
      match rest found with
      | _ :: _ => Raise ValueError
      | [] =>
          year <- int (group "Y" (groups found)) ;;
          month <- int (group "m" (groups found)) ;;
          day <- int (group "d" (groups found)) ;;
          hour <- int (group "H" (groups found)) ;;
          minute <- int (group "M" (groups found)) ;;
          second <- int (group "S" (groups found)) ;;
          if date_ok year month day
          then Ret {| tm_year := year; tm_mon := month; tm_mday := day;
                      tm_hour := hour; tm_min := minute; tm_sec := second |}
          else Raise ValueError
      end
  end.

(** [time.strftime('%Y/%m', t)] and [time.strftime('%Y%m%d_%H%M%S', t)]
    ([%Y] as the C library prints it: the year in decimal). *)
Definition strftime_short (t : struct_time) : pystr :=
  str_of_Z (tm_year t) ++ lit "/" ++ zfill 2 (tm_mon t).

Definition strftime_long (t : struct_time) : pystr :=
  str_of_Z (tm_year t) ++ zfill 2 (tm_mon t) ++ zfill 2 (tm_mday t) ++
  lit "_" ++ zfill 2 (tm_hour t) ++ zfill 2 (tm_min t) ++ zfill 2 (tm_sec t).

End PyTime.

(* ================================================================= *)
(** ** collect.py *)

Module Collect.

Import PyTime.

Definition _EXIF_KEYS : list pystr :=
  [lit "EXIF DateTimeOriginal"; lit "EXIF DateTimeDigitized";
   lit "Image DateTime"].

Definition _META_KEYS : list pystr :=
  [lit "Date-time original"; lit "Date-time digitized"; lit "Creation date"].

(** [[一-龥A-Za-z]] *)
Definition han_or_latin (c : N) : bool :=
  range 19968 40869 c || range 65 90 c || range 97 122 c.

Definition d12 : regex := Cat digit (Opt digit).

(** [.*(?P<year>\d{4}):(?P<month>\d{1,2}):(?P<day>\d{1,2})\s+
     (?P<hour>\d{1,2}):(?P<minute>\d{1,2}):(?P<second>\d{1,2}).*] *)
Definition datetime_re : regex :=
  cats
    [ Star dot;
      Grp "year" (cats [digit; digit; digit; digit]); chr 58;
      Grp "month" d12; chr 58;
      Grp "day" d12;
      plus is_space;
      Grp "hour" d12; chr 58;
      Grp "minute" d12; chr 58;
      Grp "second" d12;
      Star dot ].

(** The f-string that renders the corrected fields. *)
Definition render (year month day hour minute second : Z) : pystr :=
  str_of_Z year ++ lit ":" ++ zfill 2 month ++ lit ":" ++ zfill 2 day ++
  lit " " ++ zfill 2 hour ++ lit ":" ++ zfill 2 minute ++ lit ":" ++
  zfill 2 second.

(** [process_datetime(raw_datetime)].  [re.search] does not raise on a
    [str], so the [except] branch is dead; when nothing matches,
    [datetime] is [None] and [datetime.group] raises [AttributeError]. *)
Definition process_datetime (raw_datetime : pystr) : result (option pystr) :=
  let datetime := Re.sub (Chr han_or_latin) [] raw_datetime in
  let datetime := replace (lit "-") (lit ":") datetime in
  let datetime := replace (lit "/") (lit ":") datetime in
  match Re.search datetime_re datetime with
  | None => Raise AttributeError
  | Some m =>
      year <- int (group "year" (groups m)) ;;
      month <- int (group "month" (groups m)) ;;
      day <- int (group "day" (groups m)) ;;
      hour <- int (group "hour" (groups m)) ;;
      minute <- int (group "minute" (groups m)) ;;
      second <- int (group "second" (groups m)) ;;
      if ((year <? 1900) || (year >? 2050))%Z then Ret None
      else if ((month <? 1) || (month >? 12))%Z then Ret None
      else if ((day <? 1) || (day >? 31))%Z then Ret None
      else
        let hour := if ((hour <? 0) || (hour >? 23))%Z
                    then (hour mod 24)%Z else hour in
        let minute := if ((minute <? 0) || (minute >? 59))%Z
                      then (minute mod 60)%Z else minute in
        let second := if ((second <? 0) || (second >? 59))%Z
                      then (second mod 60)%Z else second in
        Ret (Some (render year month day hour minute second))
  end.

(** Extraction status: the strings ['0'] .. ['4'] of [msg['stat']]. *)
Inductive ext_stat : Type :=
| OK              (* '0' *)
| UNREADABLE      (* '1' *)
| NO_TAGS         (* '2' *)
| NO_DATE_FIELD   (* '3' *)
| INVALID_DATE.   (* '4' *)

Inductive source : Type := SrcEXIF | SrcMETA.

(** The dictionary an extractor returns. *)
Record dt_msg : Type := {
  stat : ext_stat;
  type : source;
  key : option pystr;
  raw : option pystr;
  short : option pystr;
  long : option pystr
}.

Definition init_msg (ty : source) : dt_msg :=
  {| stat := UNREADABLE; type := ty; key := None; raw := None;
     short := None; long := None |}.

Definition set_stat (s : ext_stat) (m : dt_msg) : dt_msg :=
  {| stat := s; type := type m; key := key m; raw := raw m;
     short := short m; long := long m |}.

(** The part the two extractors share, from [process_datetime] on. *)
Definition fill_msg (msg : dt_msg) (datetime_key raw_datetime : pystr)
  : result dt_msg :=
  pro_datetime <- process_datetime raw_datetime ;;
  if otruthy pro_datetime then
    match pro_datetime with
    | Some p =>
        datetime <- strptime p ;;
        Ret {| stat := OK; type := type msg;
               key := Some datetime_key; raw := Some raw_datetime;
               short := Some (strftime_short datetime);
               long := Some (strftime_long datetime) |}
    | None => Ret (set_stat INVALID_DATE msg)
    end
  else Ret (set_stat INVALID_DATE msg).

(** What [exifread.process_file] decoded: a dictionary from tag name to
    the tag's [values]. *)
Definition exif_dict := list (pystr * pystr).

Fixpoint dict_get (k : pystr) (d : exif_dict) : option pystr :=
  match d with
  | [] => None
  | (k', v) :: d' => if str_eqb k' k then Some v else dict_get k d'
  end.

Definition dict_in (k : pystr) (d : exif_dict) : bool :=
  match dict_get k d with Some _ => true | None => false end.

(** [get_exif_datetime(file, tag_keys)]; [exif_tags] is the outcome of the
    [try] block: [None] when opening or decoding raised. *)
Definition get_exif_datetime (exif_tags : option exif_dict)
  (tag_keys : list pystr) : result dt_msg :=
  let msg := init_msg SrcEXIF in
  match exif_tags with
  | None => Ret msg
  | Some exif_tags =>
      match exif_tags with
      | _ :: _ =>
          match find (fun k => dict_in k exif_tags) tag_keys with
          | Some datetime_key =>
              if truthy datetime_key then
                match dict_get datetime_key exif_tags with
                | Some raw_datetime => fill_msg msg datetime_key raw_datetime
                | None => Raise AttributeError
                end
              else Ret (set_stat NO_DATE_FIELD msg)
          | None => Ret (set_stat NO_DATE_FIELD msg)
          end
      | [] => Ret (set_stat NO_TAGS msg)
      end
  end.

(** The nested loops of [get_meta_datetime]: the first key, in the order
    of [tag_keys], that some tag starts with, and the first such tag. *)
Fixpoint find_meta (tag_keys : list pystr) (meta_tags : list pystr)
  : option (pystr * pystr) :=
  match tag_keys with
  | [] => None
  | k :: ks =>
      match find (startswith k) meta_tags with
      | Some tag => Some (k, tag)
      | None => find_meta ks meta_tags
      end
  end.

(** [get_meta_datetime(file, tag_keys)]; [meta_tags] is the outcome of the
    [try] block: [None] when parsing or exporting raised. *)
Definition get_meta_datetime (meta_tags : option (list pystr))
  (tag_keys : list pystr) : result dt_msg :=
  let msg := init_msg SrcMETA in
  match meta_tags with
  | None => Ret msg
  | Some meta_tags =>
      match meta_tags with
      | _ :: _ =>
          match find_meta tag_keys meta_tags with
          | Some (datetime_key, key_tag) =>
              if truthy datetime_key && truthy key_tag then
                let raw_datetime :=
                  replace (datetime_key ++ lit ": ") [] key_tag in
                fill_msg msg datetime_key raw_datetime
              else Ret (set_stat NO_DATE_FIELD msg)
          | None => Ret (set_stat NO_DATE_FIELD msg)
          end
      | [] => Ret (set_stat NO_TAGS msg)
      end
  end.

(** [msg['check']]; [None] is the Python [None] of an undated file. *)
Inductive chk : Type := BOTH | EXIF | META | D_ERR | Y_ERR.

Definition chk_eqb (a b : chk) : bool :=
  match a, b with
  | BOTH, BOTH | EXIF, EXIF | META, META | D_ERR, D_ERR | Y_ERR, Y_ERR => true
  | _, _ => false
  end.

(** The dictionary [get_datetime] returns; [dated] is [stat == '0']. *)
Record file_msg : Type := {
  dated : bool;
  check : option chk;
  EXIF_K : option pystr; EXIF_R : option pystr;
  EXIF_S : option pystr; EXIF_L : option pystr;
  META_K : option pystr; META_R : option pystr;
  META_S : option pystr; META_L : option pystr
}.

Definition init_file_msg : file_msg :=
  {| dated := false; check := None;
     EXIF_K := None; EXIF_R := None; EXIF_S := None; EXIF_L := None;
     META_K := None; META_R := None; META_S := None; META_L := None |}.

Definition set_check (c : option chk) (m : file_msg) : file_msg :=
  {| dated := dated m; check := c;
     EXIF_K := EXIF_K m; EXIF_R := EXIF_R m;
     EXIF_S := EXIF_S m; EXIF_L := EXIF_L m;
     META_K := META_K m; META_R := META_R m;
     META_S := META_S m; META_L := META_L m |}.

(** [int(s.split('/')[0])] on a short date ([None.split] raises). *)
Definition year_of (s : option pystr) : result Z :=
  match s with
  | None => Raise AttributeError
  | Some s => int (hd [] (split 47 s))
  end.

(** Lines 263-278: the fields of the sources that succeeded are copied;
    [the_year] is bound by the last source that did. *)
Definition merge (exif_dt meta_dt : dt_msg)
  : result (file_msg * option Z) :=
  let msg := init_file_msg in
  st <- match stat exif_dt with
        | OK =>
            the_year <- year_of (short exif_dt) ;;
            Ret ({| dated := true; check := check msg;
                    EXIF_K := key exif_dt; EXIF_R := raw exif_dt;
                    EXIF_S := short exif_dt; EXIF_L := long exif_dt;
                    META_K := META_K msg; META_R := META_R msg;
                    META_S := META_S msg; META_L := META_L msg |},
                 Some the_year)
        | _ => Ret (msg, None)
        end ;;
  let msg := fst st in
  match stat meta_dt with
  | OK =>
      the_year <- year_of (short meta_dt) ;;
      Ret ({| dated := true; check := check msg;
              EXIF_K := EXIF_K msg; EXIF_R := EXIF_R msg;
              EXIF_S := EXIF_S msg; EXIF_L := EXIF_L msg;
              META_K := key meta_dt; META_R := raw meta_dt;
              META_S := short meta_dt; META_L := long meta_dt |},
           Some the_year)
  | _ => Ret st
  end.

(** Lines 280-289: the classification of a dated file. *)
Definition classify (msg : file_msg) : chk :=
  if otruthy (EXIF_L msg) && otruthy (META_L msg) then
    match EXIF_L msg, META_L msg with
    | Some e, Some m => if str_eqb e m then BOTH else D_ERR
    | _, _ => D_ERR
    end
  else if otruthy (EXIF_L msg) then EXIF else META.

(** Lines 290-292: the year gate. *)
Definition year_gate (begin_year this_year : Z) (c : chk)
  (the_year : option Z) : result chk :=
  if chk_eqb c BOTH || chk_eqb c EXIF || chk_eqb c META then
    match the_year with
    | None => Raise UnboundLocalError
    | Some y =>
        if ((y <? begin_year) || (y >? this_year))%Z then Ret Y_ERR
        else Ret c
    end
  else Ret c.

(** Lines 279-296 of [get_datetime], on the outputs of the extractors. *)
Definition resolve (exif_dt meta_dt : dt_msg) (begin_year this_year : Z)
  : result file_msg :=
  st <- merge exif_dt meta_dt ;;
  let msg := fst st in
  if dated msg then
    c <- year_gate begin_year this_year (classify msg) (snd st) ;;
    Ret (set_check (Some c) msg)
  else Ret msg.

(** [get_datetime(file, begin_year)]: [exif_tags] and [meta_tags] are what
    the decoders give for [file], [this_year] is
    [time.localtime().tm_year]. *)
Definition get_datetime (exif_tags : option exif_dict)
  (meta_tags : option (list pystr)) (begin_year this_year : Z)
  : result file_msg :=
  exif_dt <- get_exif_datetime exif_tags _EXIF_KEYS ;;
  meta_dt <- get_meta_datetime meta_tags _META_KEYS ;;
  resolve exif_dt meta_dt begin_year this_year.

End Collect.

(* ================================================================= *)
(** ** [os.path] (POSIX) *)

Module OsPath.

Definition slash : N := 47%N.
Definition period : N := 46%N.

Definition join2 (path b : pystr) : pystr :=
  if startswith [slash] b then b
  else if negb (truthy path) || endswith_char slash path then path ++ b
  else path ++ slash :: b.

(** [os.path.join(a, *p)] on the list [a :: p]. *)
Definition join (parts : list pystr) : pystr :=
  match parts with
  | [] => []
  | a :: p => fold_left join2 p a
  end.

Fixpoint drop_while (p : N -> bool) (s : pystr) : pystr :=
  match s with
  | [] => []
  | c :: s' => if p c then drop_while p s' else s
  end.

Fixpoint take_while (p : N -> bool) (s : pystr) : pystr :=
  match s with
  | [] => []
  | c :: s' => if p c then c :: take_while p s' else []
  end.

Definition is_slash (c : N) : bool := (c =? slash)%N.
Definition not_slash (c : N) : bool := negb (c =? slash)%N.

(** [os.path.split(p)]: the head loses its trailing slashes unless it is
    made of slashes only. *)
Definition split (p : pystr) : pystr * pystr :=
  let r := rev p in
  let tail := rev (take_while not_slash r) in
  let head := rev (drop_while not_slash r) in
  let stripped := rev (drop_while is_slash (rev head)) in
  (if truthy stripped then stripped else head, tail).

Definition dirname (p : pystr) : pystr := fst (split p).
Definition basename (p : pystr) : pystr := snd (split p).

(** [os.path.splitext(p)[0]] for a [p] without a slash: the last period
    splits, unless only periods come before it. *)
Definition splitext_root (p : pystr) : pystr :=
  match drop_while (fun c => negb (c =? period)%N) (rev p) with
  | [] => p
  | _ :: before =>
      if existsb (fun c => negb (c =? period)%N) before
      then rev before else p
  end.

End OsPath.

(* ================================================================= *)
(** ** The file system seen by [os] and [shutil] *)

Module Fs.

Import OsPath.

(** Directories and regular files by absolute path, and the working
    directory.  There are no links, and a path is taken as it is written:
    [.], [..], doubled and trailing slashes are not resolved. *)
Record t : Type := {
  cwd : pystr;
  dirs : list pystr;
  files : list (pystr * pystr)
}.

Definition abspath (fs : t) (p : pystr) : pystr := join2 (cwd fs) p.

Definition mem (p : pystr) (l : list pystr) : bool := existsb (str_eqb p) l.

Definition isdir (fs : t) (p : pystr) : bool := mem (abspath fs p) (dirs fs).

Definition isfile (fs : t) (p : pystr) : bool :=
  mem (abspath fs p) (map fst (files fs)).

Definition exists_ (fs : t) (p : pystr) : bool := isdir fs p || isfile fs p.

(** A regular file stands at [a] or at one of its ancestors, so that [a]
    cannot be walked as a directory. *)
Definition blocked (fs : t) (a : pystr) : bool :=
  existsb (fun q => str_eqb q a || startswith (q ++ [slash]) a)
          (map fst (files fs)).

(** The error of a system call that does not find [a]: [ENOTDIR] when a
    regular file is in the way, [ENOENT] otherwise. *)
Definition absent (fs : t) (a : pystr) : exn :=
  if blocked fs a then NotADirectoryError else FileNotFoundError.

Definition children (fs : t) (d : pystr) : list pystr :=
  filter (fun e => str_eqb (dirname e) d && truthy (basename e))
         (dirs fs ++ map fst (files fs)).

(** [os.listdir(p)] *)
Definition listdir (fs : t) (p : pystr) : result (list pystr) :=
  if isdir fs p then Ret (map basename (children fs (abspath fs p)))
  else Raise (absent fs (abspath fs p)).

(** [os.mkdir(p)] *)
Definition mkdir (fs : t) (p : pystr) : result t :=
  if exists_ fs p then Raise FileExistsError
  else if mem (dirname (abspath fs p)) (dirs fs)
  then Ret {| cwd := cwd fs; dirs := dirs fs ++ [abspath fs p];
              files := files fs |}
  else Raise (absent fs (dirname (abspath fs p))).

(** [os.rmdir(p)] *)
Definition rmdir (fs : t) (p : pystr) : result t :=
  match listdir fs p with
  | Ret [] =>
      Ret {| cwd := cwd fs;
             dirs := filter (fun d => negb (str_eqb d (abspath fs p))) (dirs fs);
             files := files fs |}
  | Ret (_ :: _) => Raise OSError
  | Raise e => Raise e
  end.

(** [os.chdir(p)] *)
Definition chdir (fs : t) (p : pystr) : result t :=
  if isdir fs p
  then Ret {| cwd := abspath fs p; dirs := dirs fs; files := files fs |}
  else Raise (absent fs (abspath fs p)).

Fixpoint content (p : pystr) (l : list (pystr * pystr)) : option pystr :=
  match l with
  | [] => None
  | (q, c) :: l' => if str_eqb q p then Some c else content p l'
  end.

Definition remove_file (p : pystr) (l : list (pystr * pystr))
  : list (pystr * pystr) :=
  filter (fun e => negb (str_eqb (fst e) p)) l.

(** Writing a regular file (as [open(p, 'wb')] does): the directory must
    exist and [p] must not be a directory, nor end with a slash; an
    existing file is replaced. *)
Definition write (fs : t) (p : pystr) (c : pystr) : result t :=
  let a := abspath fs p in
  if mem a (dirs fs) || negb (truthy (basename a)) then Raise OSError
  else if mem (dirname a) (dirs fs)
  then Ret {| cwd := cwd fs; dirs := dirs fs;
              files := remove_file a (files fs) ++ [(a, c)] |}
  else Raise (absent fs (dirname a)).

(** [shutil.copyfile(src, dst)] *)
Definition copyfile (fs : t) (src dst : pystr) : result t :=
  if str_eqb (abspath fs src) (abspath fs dst) && exists_ fs src
  then Raise OSError
  else
    match content (abspath fs src) (files fs) with
    | None =>
        if isdir fs src then Raise OSError
        else Raise (absent fs (abspath fs src))
    | Some c => write fs dst c
    end.

(** The path [q] once the tree at [a] is renamed [b]. *)
Definition rename_path (a b q : pystr) : pystr :=
  if str_eqb q a then b
  else if startswith (a ++ [slash]) q then b ++ skipn (length a) q
  else q.

(** [os.rename(a, b)] of a directory and what it holds; [here] is the
    working directory afterwards. *)
Definition rename_tree (a b here : pystr) (fs : t) : t :=
  {| cwd := here;
     dirs := map (rename_path a b) (dirs fs);
     files := map (fun e => (rename_path a b (fst e), snd e)) (files fs) |}.

(** [shutil._destinsrc(src, dst)] on absolute paths. *)
Definition destinsrc (a b : pystr) : bool :=
  let slashed := fun x => if endswith_char slash x then x else x ++ [slash] in
  startswith (slashed a) (slashed b).

(** The ancestors of [a] that are not directories yet, which
    [os.makedirs] creates. *)
Fixpoint missing_parents (fuel : nat) (fs : t) (a : pystr) : list pystr :=
  match fuel with
  | O => []
  | S fuel' =>
      let d := dirname a in
      if mem d (dirs fs) || str_eqb d a then []
      else missing_parents fuel' fs d ++ [d]
  end.

(** [shutil.move(src, dst)] of a directory [a] to [real_dst]: renamed
    with its tree when the parent of the target is a directory; copied to
    a target whose parents [copytree] makes, and removed, when the parent
    is missing. *)
Definition move_dir (fs : t) (a : pystr) (dst real_dst : pystr) : result t :=
  let b := abspath fs real_dst in
  if destinsrc a (abspath fs dst) then Raise OSError
  else if isfile fs real_dst then Raise FileExistsError
  else if mem (dirname b) (dirs fs)
  then Ret (rename_tree a b (rename_path a b (cwd fs)) fs)
  else if blocked fs (dirname b) then Raise NotADirectoryError
  else
    Ret (rename_tree a b (cwd fs)
           {| cwd := cwd fs;
              dirs := dirs fs ++ missing_parents (length b) fs b;
              files := files fs |}).

(** [shutil.move(src, dst)]: the source goes into [dst] when [dst] is a
    directory, where nothing may have its name; a regular file replaces
    the file at the target, and the source is gone afterwards. *)
Definition move (fs : t) (src dst : pystr) : result t :=
  let a := abspath fs src in
  if isdir fs dst && isdir fs src && str_eqb a (abspath fs dst) then Ret fs
  else
    let real_dst := if isdir fs dst then join2 dst (basename src) else dst in
    if isdir fs dst && exists_ fs real_dst then Raise OSError
    else
      match content a (files fs) with
      | None =>
          if isdir fs src then move_dir fs a dst real_dst
          else Raise (absent fs a)
      | Some c =>
          fs' <- write fs real_dst c ;;
          Ret {| cwd := cwd fs'; dirs := dirs fs';
                 files := if str_eqb a (abspath fs real_dst) then files fs'
                          else remove_file a (files fs') |}
      end.

End Fs.

(* ================================================================= *)
(** ** tidy.py *)

Module Tidy.

Import OsPath.

Definition _EXIF_KEYS : list pystr :=
  [lit "EXIF DateTimeOriginal"; lit "EXIF DateTimeDigitized";
   lit "Image DateTime"].

Definition _META_KEYS : list pystr :=
  [lit "Date-time original"; lit "Date-time digitized"; lit "Creation date"].

Definition _XLSX_PATH : pystr := lit "result_df.xlsx".
Definition _D_XLSX_PATH : pystr := lit "duplicated_df.xlsx".
Definition _Y_XLSX_PATH : pystr := lit "year_err_df.xlsx".
Definition _F_XLSX_PATH : pystr := lit "failed_files_df.xlsx".

(** The column heads of the ledger, by their code points: 文件路径, 文件类型,
    扩展名, 文件大小, MD5值, 日期校验, then EXIF日期项, EXIF原日期, EXIF短日期,
    EXIF长日期 and the same four for META. *)
Definition _COLS_SET : list pystr :=
  [ [25991; 20214; 36335; 24452];
    [25991; 20214; 31867; 22411];
    [25193; 23637; 21517];
    [25991; 20214; 22823; 23567];
    lit "MD5" ++ [20540];
    [26085; 26399; 26657; 39564];
    lit "EXIF" ++ [26085; 26399; 39033];
    lit "EXIF" ++ [21407; 26085; 26399];
    lit "EXIF" ++ [30701; 26085; 26399];
    lit "EXIF" ++ [38271; 26085; 26399];
    lit "META" ++ [26085; 26399; 39033];
    lit "META" ++ [21407; 26085; 26399];
    lit "META" ++ [30701; 26085; 26399];
    lit "META" ++ [38271; 26085; 26399] ]%N.

(** The category dictionary, in insertion order. *)
Definition _FILE_CATEGORY : list (pystr * pystr) :=
  [ (lit "image_with_datetime", lit "Photos_bydt");
    (lit "image_without_datetime", lit "Photos_nodt");
    (lit "video_with_datetime", lit "Photos_bydt");
    (lit "video_without_datetime", lit "Videos_nodt");
    (lit "year_err", lit "Year_err");
    (lit "other", lit "Other_files") ].

Definition endswith (suffix s : pystr) : bool :=
  startswith (rev suffix) (rev s).

Definition _DATE_DIRS : list pystr :=
  fold_left
    (fun acc kv =>
       if endswith (lit "with_datetime") (fst kv)
       then if Fs.mem (snd kv) acc then acc else acc ++ [snd kv]
       else acc)
    _FILE_CATEGORY [].

(** [d[k]] *)
Fixpoint getitem (k : pystr) (d : list (pystr * pystr)) : result pystr :=
  match d with
  | [] => Raise KeyError
  | (k', v) :: d' => if str_eqb k' k then Ret v else getitem k d'
  end.

(** A text cell of the ledger as pandas reads it back: a [str], or the
    float [nan] of an empty cell ([None]). *)
Definition cell := option pystr.

(** A row of the ledger (the tuple [itertuples] yields). *)
Record row : Type := {
  c_path : cell;        (* 文件路径 *)
  c_type : cell;        (* 文件类型 *)
  c_ext : cell;         (* 扩展名 *)
  c_size : option Z;    (* 文件大小, in hundredths of a KB *)
  c_md5 : cell;         (* MD5值 *)
  c_check : cell;       (* 日期校验 *)
  c_exif_key : cell;    (* EXIF日期项 *)
  c_exif_raw : cell;    (* EXIF原日期 *)
  c_exif_short : cell;  (* EXIF短日期 *)
  c_exif_long : cell;   (* EXIF长日期 *)
  c_meta_key : cell;    (* META日期项 *)
  c_meta_raw : cell;    (* META原日期 *)
  c_meta_short : cell;  (* META短日期 *)
  c_meta_long : cell    (* META长日期 *)
}.

(** The ledger as [read_excel] returns it: the column heads, the index
    column first, and the rows. *)
Record dataframe : Type := {
  columns : list pystr;
  rows : list row
}.

(** [cell == 'text'] *)
Definition is_ (c : cell) (s : pystr) : bool :=
  match c with Some v => str_eqb v s | None => false end.

(** [f'{cell}'] and [f'{confi}'] *)
Definition fmt (c : cell) : pystr :=
  match c with Some v => v | None => lit "nan" end.

Definition fmt_confi (c : option pystr) : pystr :=
  match c with Some v => v | None => lit "None" end.

(** [cell + 'text'] *)
Definition concat (c : cell) (s : pystr) : result pystr :=
  match c with Some v => Ret (v ++ s) | None => Raise TypeError end.

(** [cell.split('/')] *)
Definition split_cell (c : cell) : result (list pystr) :=
  match c with
  | Some v => Ret (Py.split slash v)
  | None => Raise AttributeError
  end.

Fixpoint list_eqb (a b : list pystr) : bool :=
  match a, b with
  | [], [] => true
  | x :: a', y :: b' => str_eqb x y && list_eqb a' b'
  | _, _ => false
  end.

(** [list(file_dataframe.columns)[1:] == cols_set] *)
Definition chk_cols (file_dataframe : dataframe) (cols_set : list pystr)
  : bool :=
  list_eqb (tl (columns file_dataframe)) cols_set.

(** *** Duplicates *)

Definition cell_eqb (a b : cell) : bool :=
  match a, b with
  | Some x, Some y => str_eqb x y
  | None, None => true
  | _, _ => false
  end.

Definition size_eqb (a b : option Z) : bool :=
  match a, b with
  | Some x, Some y => (x =? y)%Z
  | None, None => true
  | _, _ => false
  end.

(** Equality on the columns of [_D_COLS_SET] (pandas takes two empty
    cells as equal). *)
Definition same_key (a b : row) : bool :=
  cell_eqb (c_ext a) (c_ext b) && size_eqb (c_size a) (c_size b) &&
  cell_eqb (c_md5 a) (c_md5 b).

(** [df.duplicated(keys, keep=False)]: one flag per row. *)
Fixpoint duplicated_from (before after : list row) : list bool :=
  match after with
  | [] => []
  | r :: after' =>
      (existsb (same_key r) before || existsb (same_key r) after')
      :: duplicated_from (before ++ [r]) after'
  end.

Definition duplicated (df : list row) : list bool := duplicated_from [] df.

Definition select (df : list row) (flags : list bool) : list row :=
  map fst (filter snd (combine df flags)).

(** [df.drop_duplicates(keys)]: the first row of each key stays. *)
Fixpoint drop_duplicates_from (seen : list row) (df : list row) : list row :=
  match df with
  | [] => []
  | r :: df' =>
      if existsb (same_key r) seen then drop_duplicates_from seen df'
      else r :: drop_duplicates_from (seen ++ [r]) df'
  end.

Definition drop_duplicates (df : list row) : list row :=
  drop_duplicates_from [] df.

Definition valid_sel (sel : pystr) : bool :=
  str_eqb sel (lit "YES") || str_eqb sel (lit "NO") || str_eqb sel (lit "EXIT").

(** The prompt and its [while] loop on the lines the operator types;
    [input] raises [EOFError] when they run out. *)
Fixpoint ask (answers : list pystr) : result pystr :=
  match answers with
  | [] => Raise EOFError
  | sel :: answers' => if valid_sel sel then Ret sel else ask answers'
  end.

(** [chk_duplicate(file_dataframe)]: the table of candidates is written,
    then the operator decides.  The result carries the file system, the
    candidates and the table that goes on. *)
Definition chk_duplicate (fs : Fs.t) (file_dataframe : list row)
  (answers : list pystr) : result (Fs.t * list row * list row) :=
  let d_df := select file_dataframe (duplicated file_dataframe) in
  fs <- Fs.write fs _D_XLSX_PATH [] ;;
  sel <- ask answers ;;
  if str_eqb sel (lit "YES") then Ret (fs, d_df, drop_duplicates file_dataframe)
  else if str_eqb sel (lit "NO") then Ret (fs, d_df, file_dataframe)
  else Raise SystemExit.

(** *** Names *)

Definition underscore : N -> bool := N.eqb 95.

(** [pick_num(fname)]; its first pattern is the one of
    [process_datetime]. *)
Definition pick_num (fname : pystr) : pystr :=
  let result := Re.sub (Chr Collect.han_or_latin) [] fname in
  let result := Re.sub (Cat Bol (plus underscore)) [] result in
  let result := Re.sub (Cat (plus underscore) Eol) [] result in
  let result :=
    Re.sub (cats [Chr underscore; Chr underscore; Star underscore])
           (lit "_") result in
  result.

(** *** Placement *)

Inductive reason : Type :=
| NoInputPath
| NoOutputDir (output_dir : pystr)
| MoveError (e : exn)
| CopyError (e : exn).

(** [move_file(input_path, output_path, remove)]: the file system
    afterwards and the failure reason, [None] on success. *)
Definition move_file (fs : Fs.t) (input_path output_path : pystr)
  (remove : bool) : Fs.t * option reason :=
  if negb (truthy input_path) then (fs, Some NoInputPath)
  else
    let output_dir := dirname output_path in
    if negb (Fs.exists_ fs output_dir) && truthy output_dir
    then (fs, Some (NoOutputDir output_dir))
    else if remove then
      match Fs.move fs input_path output_path with
      | Ret fs' => (fs', None)
      | Raise e => (fs, Some (MoveError e))
      end
    else
      match Fs.copyfile fs input_path output_path with
      | Ret fs' => (fs', None)
      | Raise e => (fs, Some (CopyError e))
      end.

(** [f'{len(os.listdir(target_dir))+1:05}'] *)
Definition seq5 (fs : Fs.t) (target_dir : pystr) : result pystr :=
  entries <- Fs.listdir fs target_dir ;;
  Ret (zfill 5 (Z.of_nat (length entries) + 1)).

Definition nth_key (keys : list pystr) (i : nat) : pystr := nth i keys [].

(** The tier letter of a single source, [confi] unchanged when the key is
    none of the three. *)
Definition tier_confi (prefix : pystr) (k : cell) (keys : list pystr)
  (confi : option pystr) : option pystr :=
  if is_ k (nth_key keys 0) then Some (prefix ++ lit "_U")
  else if is_ k (nth_key keys 1) then Some (prefix ++ lit "_H")
  else if is_ k (nth_key keys 2) then Some (prefix ++ lit "_N")
  else confi.

(** The side and the tier letter chosen for a [D_ERR] row. *)
Definition d_err_choice (file : row) (confi : option pystr)
  : option pystr * option pystr :=
  let e := c_exif_key file in
  let m := c_meta_key file in
  if is_ e (nth_key _EXIF_KEYS 0) || is_ m (nth_key _META_KEYS 0) then
    (Some (if is_ e (nth_key _EXIF_KEYS 0) then lit "EXIF" else lit "META"),
     Some (lit "U"))
  else if is_ e (nth_key _EXIF_KEYS 1) || is_ m (nth_key _META_KEYS 1) then
    (Some (if is_ e (nth_key _EXIF_KEYS 1) then lit "EXIF" else lit "META"),
     Some (lit "H"))
  else if is_ e (nth_key _EXIF_KEYS 2) || is_ m (nth_key _META_KEYS 2) then
    (Some (if is_ e (nth_key _EXIF_KEYS 2) then lit "EXIF" else lit "META"),
     Some (lit "N"))
  else (None, confi).

(** [os.path.join] of the parts of [_FILE_CATEGORY[target_key]] and of the
    short date, both split at [/]. *)
Definition dated_dir (target_key : pystr) (short : cell) : result pystr :=
  category <- getitem target_key _FILE_CATEGORY ;;
  parts <- split_cell short ;;
  Ret (join (Py.split slash category ++ parts)).

Definition plain_dir (target_key : pystr) : result pystr :=
  category <- getitem target_key _FILE_CATEGORY ;;
  Ret (join (Py.split slash category)).

(** [f'IMG_{long}_{confi}_{seq5}.{ext}'] under [target_dir]. *)
Definition img_path (fs : Fs.t) (target_dir : pystr) (long : cell)
  (confi : option pystr) (ext : cell) : result pystr :=
  n <- seq5 fs target_dir ;;
  Ret (join2 target_dir
         (lit "IMG_" ++ fmt long ++ lit "_" ++ fmt_confi confi ++ lit "_" ++
          n ++ lit "." ++ fmt ext)).

(** [f'{file_name}_{seq5}.{ext}'] under [target_dir]. *)
Definition stem_path (fs : Fs.t) (target_dir file_name : pystr) (ext : cell)
  : result pystr :=
  n <- seq5 fs target_dir ;;
  Ret (join2 target_dir (file_name ++ lit "_" ++ n ++ lit "." ++ fmt ext)).

(** A line of the year-error table and of the failure table. *)
Record yerr_file : Type := {
  y_source : pystr; y_target : pystr; y_size : option Z;
  y_exif_key : cell; y_exif_long : cell;
  y_meta_key : cell; y_meta_long : cell
}.

Record failed_file : Type := {
  x_source : pystr; x_target : pystr; x_remove : bool;
  x_size : option Z; x_reason : reason
}.

(** What the body of the loop computes for a row before the file is
    placed: the new [confi], the target directory and path and, for a
    [Y_ERR] row, its line of the year-error table. *)
Record target : Type := {
  t_confi : option pystr;
  t_dir : pystr;
  t_path : pystr;
  t_yerr : bool
}.

Definition plan (fs : Fs.t) (confi : option pystr) (file : row)
  (file_name : pystr) : result target :=
  let check := c_check file in
  if is_ check (lit "BOTH") || is_ check (lit "D_ERR") ||
     is_ check (lit "META") || is_ check (lit "EXIF") then
    target_key <- concat (c_type file) (lit "_with_datetime") ;;
    if is_ check (lit "EXIF") then
      let confi := tier_confi (lit "EXIF") (c_exif_key file) _EXIF_KEYS confi in
      target_dir <- dated_dir target_key (c_exif_short file) ;;
      target_path <- img_path fs target_dir (c_exif_long file) confi (c_ext file) ;;
      Ret {| t_confi := confi; t_dir := target_dir; t_path := target_path;
             t_yerr := false |}
    else if is_ check (lit "META") then
      let confi := tier_confi (lit "META") (c_meta_key file) _META_KEYS confi in
      target_dir <- dated_dir target_key (c_meta_short file) ;;
      target_path <- img_path fs target_dir (c_meta_long file) confi (c_ext file) ;;
      Ret {| t_confi := confi; t_dir := target_dir; t_path := target_path;
             t_yerr := false |}
    else if is_ check (lit "BOTH") then
      let e := c_exif_key file in
      let m := c_meta_key file in
      let confi :=
        if is_ e (nth_key _EXIF_KEYS 0) || is_ m (nth_key _META_KEYS 0)
        then Some (lit "BOTH_U")
        else if is_ e (nth_key _EXIF_KEYS 1) || is_ m (nth_key _META_KEYS 1)
        then Some (lit "BOTH_H")
        else if is_ e (nth_key _EXIF_KEYS 2) || is_ m (nth_key _META_KEYS 2)
        then Some (lit "BOTH_N")
        else confi in
      target_dir <- dated_dir target_key (c_exif_short file) ;;
      target_path <- img_path fs target_dir (c_exif_long file) confi (c_ext file) ;;
      Ret {| t_confi := confi; t_dir := target_dir; t_path := target_path;
             t_yerr := false |}
    else
      let (chose, confi) := d_err_choice file confi in
      match chose, confi with
      | Some chose, Some letter =>
          let confi := Some (lit "D_" ++ chose ++ lit "_" ++ letter) in
          if str_eqb chose (lit "EXIF") then
            target_dir <- dated_dir target_key (c_exif_short file) ;;
            target_path <-
              img_path fs target_dir (c_exif_long file) confi (c_ext file) ;;
            Ret {| t_confi := confi; t_dir := target_dir;
                   t_path := target_path; t_yerr := false |}
          else
            target_dir <- dated_dir target_key (c_meta_short file) ;;
            target_path <-
              img_path fs target_dir (c_meta_long file) confi (c_ext file) ;;
            Ret {| t_confi := confi; t_dir := target_dir;
                   t_path := target_path; t_yerr := false |}
      | _, _ => Raise TypeError
      end
  else if is_ check (lit "Y_ERR") then
    target_dir <- plain_dir (lit "year_err") ;;
    target_path <- stem_path fs target_dir file_name (c_ext file) ;;
    Ret {| t_confi := confi; t_dir := target_dir; t_path := target_path;
           t_yerr := true |}
  else if negb (is_ (c_type file) (lit "other")) then
    target_key <- concat (c_type file) (lit "_without_datetime") ;;
    target_dir <- plain_dir target_key ;;
    let file_num := pick_num file_name in
    n <- seq5 fs target_dir ;;
    Ret {| t_confi := confi; t_dir := target_dir;
           t_path := join2 target_dir
                       (lit "IMG_" ++ file_num ++ lit "_NODT_" ++ n ++
                        lit "." ++ fmt (c_ext file));
           t_yerr := false |}
  else
    target_dir <- plain_dir (lit "other") ;;
    target_path <- stem_path fs target_dir file_name (c_ext file) ;;
    Ret {| t_confi := confi; t_dir := target_dir; t_path := target_path;
           t_yerr := false |}.

(** The variables of [reorgnize_file] that the loop updates. *)
Record state : Type := {
  fs : Fs.t;
  success : nat;
  fail : nat;
  confi : option pystr;
  yerr_files : list yerr_file;
  failed_files : list failed_file
}.

(** One iteration of the loop of [reorgnize_file]. *)
Definition place (remove : bool) (st : state) (file : row) : result state :=
  match c_path file with
  | None => Raise TypeError
  | Some source_path =>
      let file_basename := basename source_path in
      let file_name := splitext_root file_basename in
      t <- plan (fs st) (confi st) file file_name ;;
      let yerr :=
        if t_yerr t then
          [ {| y_source := source_path; y_target := t_path t;
               y_size := c_size file;
               y_exif_key := c_exif_key file; y_exif_long := c_exif_long file;
               y_meta_key := c_meta_key file; y_meta_long := c_meta_long file |} ]
        else [] in
      let (fs', failed_reason) := move_file (fs st) source_path (t_path t) remove in
      match failed_reason with
      | None =>
          Ret {| fs := fs'; success := S (success st); fail := fail st;
                 confi := t_confi t;
                 yerr_files := yerr_files st ++ yerr;
                 failed_files := failed_files st |}
      | Some r =>
          Ret {| fs := fs'; success := success st; fail := S (fail st);
                 confi := t_confi t;
                 yerr_files := yerr_files st ++ yerr;
                 failed_files :=
                   failed_files st ++
                   [ {| x_source := source_path; x_target := t_path t;
                        x_remove := remove; x_size := c_size file;
                        x_reason := r |} ] |}
      end
  end.

Fixpoint for_each {S A : Type} (body : S -> A -> result S) (l : list A)
  (s : S) : result S :=
  match l with
  | [] => Ret s
  | a :: l' => s' <- body s a ;; for_each body l' s'
  end.

Definition set_fs (f : Fs.t) (st : state) : state :=
  {| fs := f; success := success st; fail := fail st; confi := confi st;
     yerr_files := yerr_files st; failed_files := failed_files st |}.

(** [reorgnize_file(file_dataframe, remove)]: the loop, then the two side
    tables are written when they are not empty.  The final variables are
    returned for inspection. *)
Definition reorgnize_file (fs0 : Fs.t) (file_dataframe : list row)
  (remove : bool) : result state :=
  let st := {| fs := fs0; success := 0; fail := 0; confi := None;
               yerr_files := []; failed_files := [] |} in
  st <- for_each (place remove) file_dataframe st ;;
  st <- match failed_files st with
        | _ :: _ => f <- Fs.write (fs st) _F_XLSX_PATH [] ;; Ret (set_fs f st)
        | [] => Ret st
        end ;;
  match yerr_files st with
  | _ :: _ =>
      y_dir <- plain_dir (lit "year_err") ;;
      f <- Fs.write (fs st) (join2 y_dir _Y_XLSX_PATH) [] ;;
      Ret (set_fs f st)
  | [] => Ret st
  end.

(** *** Directories *)

Definition mk_category_dirs (fs : Fs.t) (file_category : list (pystr * pystr))
  : result Fs.t :=
  for_each
    (fun fs category =>
       let directory := join (Py.split slash category) in
       if negb (Fs.exists_ fs directory) then Fs.mkdir fs directory else Ret fs)
    (map snd file_category) fs.

(** [range(a, b)] *)
Definition zrange (a b : Z) : list Z :=
  map (fun i => (a + Z.of_nat i)%Z) (seq 0 (Z.to_nat (b - a))).

Definition make (fs : Fs.t) (directory : pystr) : result Fs.t :=
  if negb (Fs.exists_ fs directory) then Fs.mkdir fs directory else Ret fs.

(** [mk_date_dirs(date_dirs, begin_year)]; [this_year] is
    [time.localtime().tm_year]. *)
Definition mk_date_dirs (fs : Fs.t) (date_dirs : list pystr)
  (begin_year this_year : Z) : result Fs.t :=
  for_each
    (fun fs date_dir =>
       let date_directory := join (Py.split slash date_dir) in
       for_each
         (fun fs i =>
            fs <- make fs (join [date_directory; str_of_Z i]) ;;
            for_each
              (fun fs j => make fs (join [date_directory; str_of_Z i; zfill 2 j]))
              (zrange 1 13) fs)
         (zrange begin_year (this_year + 1)) fs)
    date_dirs fs.

Definition remove_if_empty (fs : Fs.t) (directory : pystr) : result Fs.t :=
  entries <- Fs.listdir fs directory ;;
  match entries with
  | [] => Fs.rmdir fs directory
  | _ :: _ => Ret fs
  end.

(** [rm_date_dirs(date_dirs, begin_year)] *)
Definition rm_date_dirs (fs : Fs.t) (date_dirs : list pystr)
  (begin_year this_year : Z) : result Fs.t :=
  for_each
    (fun fs date_dir =>
       fs <- for_each
               (fun fs i =>
                  for_each
                    (fun fs j =>
                       remove_if_empty fs (join [date_dir; str_of_Z i; zfill 2 j]))
                    (zrange 1 13) fs)
               (zrange begin_year (this_year + 1)) fs ;;
       for_each
         (fun fs i => remove_if_empty fs (join [date_dir; str_of_Z i]))
         (zrange begin_year (this_year + 1)) fs)
    date_dirs fs.

(** [main(target_dir, remove)].  [ledger] is what [read_excel] gives for
    [result_df.xlsx], [None] when the file does not exist; [answers] are
    the lines typed at the prompt and [this_year] the current year.
    [count_nums] only prints and is left out.  The call of line 431 is
    [reorgnize_file(chked_dataframe, remove=False)]. *)
Definition main (fs : Fs.t) (ledger : option dataframe) (answers : list pystr)
  (this_year : Z) (target_dir : pystr) (remove : bool) : result state :=
  fs <- (if negb (Fs.exists_ fs target_dir) then Fs.mkdir fs target_dir
         else Ret fs) ;;
  match ledger with
  | None => Raise SystemExit
  | Some file_dataframe =>
      if negb (chk_cols file_dataframe _COLS_SET) then Raise SystemExit
      else
        r <- chk_duplicate fs (rows file_dataframe) answers ;;
        let '(fs, _, chked_dataframe) := r in
        let curdir := Fs.cwd fs in
        fs <- Fs.chdir fs target_dir ;;
        fs <- mk_category_dirs fs _FILE_CATEGORY ;;
        fs <- mk_date_dirs fs _DATE_DIRS 2000 this_year ;;
        st <- reorgnize_file fs chked_dataframe false ;;
        fs <- rm_date_dirs (Tidy.fs st) _DATE_DIRS 2000 this_year ;;
        fs <- Fs.chdir fs curdir ;;
        Ret (set_fs fs st)
  end.

End Tidy.

Import Collect PyTime Tidy.

(* ================================================================= *)
(** ** The side of the specification

    The definitions below follow the words of the specification; the
    theorems compare them with the code. *)

(** A source is valid when its status is OK. *)
Definition is_ok (s : ext_stat) : bool :=
  match s with OK => true | _ => false end.

(** Equality of the long forms of two sources. *)
Definition same_long (a b : dt_msg) : bool :=
  match long a, long b with
  | Some x, Some y => str_eqb x y
  | _, _ => false
  end.

(** The classification rule: both valid and equal long forms, BOTH; both
    valid and different long forms, DATE_MISMATCH; one valid, its source;
    none valid, NONE. *)
Definition spec_classification (exif meta : ext_stat) (same : bool)
  : option chk :=
  match is_ok exif, is_ok meta with
  | true, true => Some (if same then BOTH else D_ERR)
  | true, false => Some EXIF
  | false, true => Some META
  | false, false => None
  end.

(** The three values that make two rows duplicate candidates. *)
Definition dup_key (r : row) : cell * option Z * cell :=
  (c_ext r, c_size r, c_md5 r).

(** On acceptance only the first occurrence goes on: a row is dropped when
    an earlier row of the ledger has its three values. *)
Fixpoint first_occurrences (earlier df : list row) : list row :=
  match df with
  | [] => []
  | r :: df' =>
      (if existsb (same_key r) earlier then [] else [r]) ++
      first_occurrences (earlier ++ [r]) df'
  end.

(** The priority slot (tier) of a tag name in its ordered list, and the
    letter that stands for the slot in a confidence code. *)
Fixpoint tier (keys : list pystr) (k : pystr) : nat :=
  match keys with
  | [] => 0
  | k' :: keys' => if str_eqb k' k then 0 else S (tier keys' k)
  end.

Definition tier_letter (t : nat) : pystr :=
  match t with
  | 0 => lit "U"
  | 1 => lit "H"
  | _ => lit "N"
  end.

(* ================================================================= *)
(** ** Notions used by the proofs *)

(** A renaming of the characters, applied to a match. *)
Definition found_map (f : N -> N) (m : found) : found :=
  {| groups := map (fun gv => (fst gv, map f (snd gv))) (groups m);
     text := map f (text m);
     rest := map f (rest m) |}.

(** No class of the pattern tells a character from its image. *)
Fixpoint stable (f : N -> N) (r : regex) : Prop :=
  match r with
  | Chr p => forall c, p (f c) = p c
  | Star p => forall c, p (f c) = p c
  | Cat r1 r2 => stable f r1 /\ stable f r2
  | Alt r1 r2 => stable f r1 /\ stable f r2
  | Opt r' => stable f r'
  | Grp _ r' => stable f r'
  | Eol => forall c, (f c =? 10)%N = (c =? 10)%N
  | Eps => True
  | Bol => True
  end.

(** The renaming that a table gives. *)
Fixpoint rename (tbl : list (N * N)) (c : N) : N :=
  match tbl with
  | [] => c
  | (k, v) :: tbl' => if (c =? k)%N then v else rename tbl' c
  end.

Definition ascii_digit (c : N) : bool := range 48 57 c.

(** The character of a digit. *)
Definition dg (k : Z) : N := (48 + Z.to_N k)%N.

(** The shape of a canonical date: fourteen digits around the separators. *)
Definition canon (y1 y2 y3 y4 m1 m2 d1 d2 h1 h2 n1 n2 s1 s2 : N) : pystr :=
  [y1; y2; y3; y4; 58; m1; m2; 58; d1; d2; 32; h1; h2; 58; n1; n2; 58; s1; s2]%N.

(** A date of that shape whose fourteen digits are different characters. *)
Definition template : pystr :=
  canon 48 49 50 51 52 53 54 55 56 57 1632 1633 1634 1635.

(** A property checked on [n] consecutive integers from [lo]. *)
Fixpoint all_from (P : Z -> bool) (lo : Z) (n : nat) : bool :=
  match n with
  | O => true
  | S n' => if P lo then all_from P (lo + 1) n' else false
  end.

(** A dictionary returned by an extractor either carries one of the tag
    names asked for and a date that the calendar accepts, in both forms,
    or no date at all. *)
Definition well_formed (keys : list pystr) (m : dt_msg) : Prop :=
  match stat m with
  | OK =>
      (exists k, key m = Some k /\ In k keys) /\
      exists t, date_ok (tm_year t) (tm_mon t) (tm_mday t) = true /\
                short m = Some (strftime_short t) /\
                long m = Some (strftime_long t)
  | _ => short m = None /\ long m = None
  end.

(* ================================================================= *)
(** ** Sample inputs *)

(** The date of a camera whose clock was never set. *)
Definition blank_date : pystr := lit "    :  :     :  :  ".

Definition april_31 : pystr := lit "2022:04:31 10:00:00".

(** The tags of a file whose only date is [raw], for each decoder. *)
Definition exif_of (raw : pystr) : option exif_dict :=
  Some [(lit "EXIF DateTimeOriginal", raw)].

Definition meta_of (raw : pystr) : option (list pystr) :=
  Some [lit "Metadata:"; lit "Creation date: " ++ raw].

(** What the extractors return for 2021-01-01 and 2021-01-02, noon. *)
Definition exif_jan_1 : dt_msg :=
  {| stat := OK; type := SrcEXIF;
     key := Some (lit "EXIF DateTimeOriginal");
     raw := Some (lit "2021:01:01 12:00:00");
     short := Some (lit "2021/01"); long := Some (lit "20210101_120000") |}.

Definition meta_jan_2 : dt_msg :=
  {| stat := OK; type := SrcMETA;
     key := Some (lit "Creation date");
     raw := Some (lit "2021-01-02 12:00:00");
     short := Some (lit "2021/01"); long := Some (lit "20210102_120000") |}.

(** What the resolver returns for a photo that EXIF alone dates 1950. *)
Definition out_of_range_final : file_msg :=
  {| dated := true; check := Some Y_ERR;
     EXIF_K := Some (lit "EXIF DateTimeOriginal");
     EXIF_R := Some (lit "1950:04:01 15:25:38");
     EXIF_S := Some (lit "1950/04"); EXIF_L := Some (lit "19500401_152538");
     META_K := None; META_R := None; META_S := None; META_L := None |}.

(** The row of an undated image of 20 KB; [md5] stands for its hash. *)
Definition copy_row (path md5 : pystr) : row :=
  {| c_path := Some path; c_type := Some (lit "image");
     c_ext := Some (lit "jpg"); c_size := Some 20480%Z; c_md5 := Some md5;
     c_check := None;
     c_exif_key := None; c_exif_raw := None; c_exif_short := None;
     c_exif_long := None;
     c_meta_key := None; c_meta_raw := None; c_meta_short := None;
     c_meta_long := None |}.

Definition blank_row (path : pystr) : row := copy_row path path.

(** The row of a photo taken on 2022-04-01 15:25:38 according to its EXIF
    tags only. *)
Definition exif_row (path : pystr) : row :=
  {| c_path := Some path; c_type := Some (lit "image");
     c_ext := Some (lit "jpg"); c_size := Some 20480%Z; c_md5 := Some path;
     c_check := Some (lit "EXIF");
     c_exif_key := Some (lit "EXIF DateTimeOriginal");
     c_exif_raw := Some (lit "2022:04:01 15:25:38");
     c_exif_short := Some (lit "2022/04");
     c_exif_long := Some (lit "20220401_152538");
     c_meta_key := None; c_meta_raw := None; c_meta_short := None;
     c_meta_long := None |}.

(** The row of a photo that the two sources date differently; the tag of
    the container is the more authoritative one. *)
Definition mismatch_row : row :=
  {| c_path := Some (lit "/in/c.jpg"); c_type := Some (lit "image");
     c_ext := Some (lit "jpg"); c_size := Some 20480%Z;
     c_md5 := Some (lit "c");
     c_check := Some (lit "D_ERR");
     c_exif_key := Some (lit "Image DateTime");
     c_exif_raw := Some (lit "2021:03:01 00:00:00");
     c_exif_short := Some (lit "2021/03");
     c_exif_long := Some (lit "20210301_000000");
     c_meta_key := Some (lit "Date-time original");
     c_meta_raw := Some (lit "2022-04-01 15:25:38");
     c_meta_short := Some (lit "2022/04");
     c_meta_long := Some (lit "20220401_152538") |}.

(** Two copies of one file and a third file that differs in its hash
    only. *)
Definition three_rows : list row :=
  [copy_row (lit "/in/a.jpg") (lit "0cc175b9");
   copy_row (lit "/in/a (1).jpg") (lit "0cc175b9");
   copy_row (lit "/in/b.jpg") (lit "92eb5ffe")].

(** The target tree with an empty month, and three photos to place. *)
Definition three_photos : Fs.t :=
  {| Fs.cwd := lit "/out";
     Fs.dirs := [lit "/"; lit "/in"; lit "/out"; lit "/out/Photos_bydt";
                 lit "/out/Photos_bydt/2022"; lit "/out/Photos_bydt/2022/04"];
     Fs.files := [(lit "/in/a.jpg", lit "A"); (lit "/in/b.jpg", lit "B");
                  (lit "/in/c.jpg", lit "C")] |}.

(** The target tree of the undated images, empty. *)
Definition empty_nodt : Fs.t :=
  {| Fs.cwd := lit "/out";
     Fs.dirs := [lit "/"; lit "/out"; lit "/out/Photos_nodt"];
     Fs.files := [] |}.

(** The same tree and a photo to place in it. *)
Definition nodt_and_photo : Fs.t :=
  {| Fs.cwd := lit "/out";
     Fs.dirs := [lit "/"; lit "/in"; lit "/out"; lit "/out/Photos_nodt"];
     Fs.files := [(lit "/in/my-photo.jpg", lit "A")] |}.

(** A source directory with one undated photo whose name has no digit,
    and a ledger that also lists a file that is gone. *)
Definition one_photo : Fs.t :=
  {| Fs.cwd := lit "/home";
     Fs.dirs := [lit "/"; lit "/home"; lit "/home/in"];
     Fs.files := [(lit "/home/in/my-photo.jpg", lit "A")] |}.

Definition one_photo_ledger : dataframe :=
  {| columns := lit "Unnamed: 0" :: _COLS_SET;
     rows := [blank_row (lit "/home/in/my-photo.jpg");
              blank_row (lit "/home/in/lost.jpg")] |}.

(** [one_photo] once the table of duplicate candidates is written. *)
Definition after_prompt : Fs.t :=
  {| Fs.cwd := lit "/home";
     Fs.dirs := [lit "/"; lit "/home"; lit "/home/in"];
     Fs.files := [(lit "/home/in/my-photo.jpg", lit "A");
                  (lit "/home/duplicated_df.xlsx", [])] |}.

(* ================================================================= *)
(** ** collect.py: sizes, hashes and the ledger *)

Module Ledger.

Import OsPath Collect.

Definition _FILE_TYPE : list pystr := [lit "image"; lit "video"; lit "other"].

Definition _EXT_TYPE_SET : list (pystr * pystr) :=
  [ (lit "jpg", lit "image"); (lit "jpeg", lit "image");
    (lit "png", lit "image"); (lit "bmp", lit "image");
    (lit "gif", lit "image"); (lit "heic", lit "image");
    (lit "mp4", lit "video"); (lit "mov", lit "video") ].

Definition _XLSX_PATH : pystr := lit "result_df.xlsx".

(** [round(x / float(d), 2)] for a size [x] and [d] a power of two, as the
    number of hundredths.  The quotient is exact in binary floating point
    (sizes are below 2^53), and [round] takes the exact value to the
    nearest hundredth, a tie to the even one. *)
Definition round2 (x d : Z) : Z :=
  let q := (100 * x / d)%Z in
  let r := (100 * x mod d)%Z in
  if (2 * r <? d)%Z then q
  else if (2 * r >? d)%Z then (q + 1)%Z
  else if Z.even q then q else (q + 1)%Z.

(** [get_file_size(file, unit)]; the content of a file is its bytes. *)
Definition get_file_size (fs : Fs.t) (file unit : pystr) : option Z :=
  if negb (Fs.isfile fs file) then None
  else
    match Fs.content (Fs.abspath fs file) (Fs.files fs) with
    | None => None
    | Some bytes =>
        let f_size := Z.of_nat (length bytes) in
        let f_KB := round2 f_size 1024 in
        let f_MB := round2 f_size (1024 ^ 2) in
        if str_eqb unit (lit "MB") then Some f_MB else Some f_KB
    end.

(** [os.path.splitext(p)[1]]: the last period of the last component and
    what follows, unless only periods come before it in the component. *)
Definition splitext_ext (p : pystr) : pystr :=
  let not_period := fun c => negb (c =? period)%N in
  let r := rev p in
  let after := take_while not_period r in
  match drop_while not_period r with
  | [] => []
  | _ :: before =>
      if existsb is_slash after then []
      else if existsb not_period (take_while not_slash before)
      then period :: rev after
      else []
  end.

Definition read_size : nat := Z.to_nat 8096.

(** The [while] loop of [get_file_md5]: [f.read(8096)] until it returns
    nothing; [fed] is what the hash object has been given. *)
Fixpoint read_loop (fuel : nat) (unread fed : list N) : list N :=
  match fuel with
  | O => fed
  | S fuel' =>
      match firstn read_size unread with
      | [] => fed
      | b => read_loop fuel' (skipn read_size unread) (fed ++ b)
      end
  end.

(** A line of the ledger: the list [file_datalist]. *)
Record datalist : Type := {
  d_path : pystr;
  d_type : pystr;
  d_ext : pystr;
  d_size : option Z;
  d_md5 : option pystr;
  d_check : option chk;
  d_exif_key : option pystr;
  d_exif_raw : option pystr;
  d_exif_short : option pystr;
  d_exif_long : option pystr;
  d_meta_key : option pystr;
  d_meta_raw : option pystr;
  d_meta_short : option pystr;
  d_meta_long : option pystr
}.

(** What the loop of [process_files] reads and updates: the global
    dictionary [ext_type_set] (from an extension to the name of its type),
    the lines still to be typed, the two local
    variables that the loop does not reset ([None] while they are not
    bound) and the list [result]. *)
Record vars : Type := {
  ext_type_set : list (pystr * pystr);
  answers : list pystr;
  dt_exif_key : option (option pystr);
  dt_meta_key : option (option pystr);
  result_ : list datalist
}.

(** The prompt for the type of an unknown extension and its [while]
    loop; the lines that are left are returned. *)
Fixpoint ask_type (answers : list pystr) : result (pystr * list pystr) :=
  match answers with
  | [] => Raise EOFError
  | file_type :: answers' =>
      if Fs.mem file_type _FILE_TYPE then Ret (file_type, answers')
      else ask_type answers'
  end.

(** Reading a local variable. *)
Definition load {A : Type} (v : option A) : result A :=
  match v with
  | Some a => Ret a
  | None => Raise UnboundLocalError
  end.

(** How [main] ends: it returns, an exception of the functions above
    escapes, or the completion rate divides by zero. *)
Inductive outcome (A : Type) : Type :=
| Done (a : A)
| Escaped (e : exn)
| ZeroDivisionError.

Arguments Done {A} a.
Arguments Escaped {A} e.
Arguments ZeroDivisionError {A}.

Section Libraries.

(** The libraries the script calls on the content of a file:
    [hashlib.md5(...).hexdigest()], [str.lower], [exifread.process_file]
    and hachoir's [exportPlaintext] ([None] when they raise), and the
    year of [time.localtime()]. *)
Variable hexdigest : list N -> pystr.
Variable lower : pystr -> pystr.
Variable exifread : list N -> option exif_dict.
Variable hachoir : pystr -> list N -> option (list pystr).
Variable this_year : Z.

(** [get_file_md5(file)] *)
Definition get_file_md5 (fs : Fs.t) (file : pystr) : option pystr :=
  if negb (Fs.isfile fs file) then None
  else
    match Fs.content (Fs.abspath fs file) (Fs.files fs) with
    | None => Some (hexdigest [])
    | Some bytes => Some (hexdigest (read_loop (S (length bytes)) bytes []))
    end.

(** The [try] blocks of the two extractors on a file of the disk. *)
Definition exif_tags (fs : Fs.t) (file : pystr) : option exif_dict :=
  match Fs.content (Fs.abspath fs file) (Fs.files fs) with
  | None => None
  | Some bytes => exifread bytes
  end.

Definition meta_tags (fs : Fs.t) (file : pystr) : option (list pystr) :=
  match Fs.content (Fs.abspath fs file) (Fs.files fs) with
  | None => None
  | Some bytes => hachoir file bytes
  end.

(** The body of the loop of [process_files]. *)
Definition process_file (fs : Fs.t) (root : pystr) (v : vars) (file : pystr)
  : result vars :=
  let file_path := join2 root file in
  let file_ext := lower (tl (splitext_ext file_path)) in
  asked <- (if negb (dict_in file_ext (ext_type_set v)) then
              a <- ask_type (answers v) ;;
              Ret (ext_type_set v ++ [(file_ext, fst a)], snd a)
            else Ret (ext_type_set v, answers v)) ;;
  file_type <- Tidy.getitem file_ext (fst asked) ;;
  let file_size := get_file_size fs file_path (lit "KB") in
  let file_md5 := get_file_md5 fs file_path in
  file_dtl <- (if str_eqb file_type (lit "image") ||
                  str_eqb file_type (lit "video")
               then
                 m <- get_datetime (exif_tags fs file_path)
                                   (meta_tags fs file_path) 2000 this_year ;;
                 Ret (Some m)
               else Ret None) ;;
  let exif_key_var :=
    match file_dtl with Some m => Some (EXIF_K m) | None => dt_exif_key v end in
  let meta_key_var :=
    match file_dtl with Some m => Some (META_K m) | None => dt_meta_key v end in
  let field (f : file_msg -> option pystr) :=
    match file_dtl with Some m => f m | None => None end in
  exif_key <- load exif_key_var ;;
  meta_key <- load meta_key_var ;;
  Ret {| ext_type_set := fst asked;
         answers := snd asked;
         dt_exif_key := exif_key_var;
         dt_meta_key := meta_key_var;
         result_ :=
           result_ v ++
           [ {| d_path := file_path; d_type := file_type; d_ext := file_ext;
                d_size := file_size; d_md5 := file_md5;
                d_check := match file_dtl with
                           | Some m => check m
                           | None => None
                           end;
                d_exif_key := exif_key; d_exif_raw := field EXIF_R;
                d_exif_short := field EXIF_S; d_exif_long := field EXIF_L;
                d_meta_key := meta_key; d_meta_raw := field META_R;
                d_meta_short := field META_S; d_meta_long := field META_L |} ] |}.

(** [process_files(root, files)]: the rows, and the dictionary and the
    lines that are left for the next directory. *)
Definition process_files (fs : Fs.t) (root : pystr) (files : list pystr)
  (types : list (pystr * pystr)) (lines : list pystr)
  : result (list datalist * list (pystr * pystr) * list pystr) :=
  v <- Tidy.for_each (process_file fs root) files
         {| ext_type_set := types; answers := lines;
            dt_exif_key := None; dt_meta_key := None; result_ := [] |} ;;
  Ret (result_ v, ext_type_set v, answers v).

(** The second loop of [main] on what [os.walk] yields. *)
Fixpoint walk_loop (fs : Fs.t) (files_total : nat)
  (walk : list (pystr * list pystr * list pystr))
  (files_datalist : list datalist) (types : list (pystr * pystr))
  (lines : list pystr)
  : outcome (list datalist * list (pystr * pystr) * list pystr) :=
  match walk with
  | [] => Done (files_datalist, types, lines)
  | (root, _, files) :: walk' =>
      match process_files fs root files types lines with
      | Raise e => Escaped e
      | Ret (files_updatelist, types', lines') =>
          let files_datalist := files_datalist ++ files_updatelist in
          match files_total with
          | O => ZeroDivisionError
          | S _ => walk_loop fs files_total walk' files_datalist types' lines'
          end
      end
  end.

(** [main(process_directory)]; [walk] is what [os.walk(process_directory)]
    yields, both times.  The ledger is written in the working directory;
    [count_nums] only prints.  The result carries the file system, the
    rows of the ledger and the dictionary of the types. *)
Definition main (fs : Fs.t) (walk : list (pystr * list pystr * list pystr))
  (types : list (pystr * pystr)) (lines : list pystr)
  : outcome (Fs.t * list datalist * list (pystr * pystr)) :=
  let files_total :=
    fold_left (fun n entry => (n + length (snd entry))%nat) walk 0%nat in
  match walk_loop fs files_total walk [] types lines with
  | Escaped e => Escaped e
  | ZeroDivisionError => ZeroDivisionError
  | Done (files_datalist, types', _) =>
      match Fs.chdir fs (Fs.cwd fs) with
      | Raise e => Escaped e
      | Ret fs =>
          match Fs.write fs _XLSX_PATH [] with
          | Raise e => Escaped e
          | Ret fs => Done (fs, files_datalist, types')
          end
      end
  end.

End Libraries.

End Ledger.

(* ================================================================= *)
(** ** Notions and samples of the further properties *)

(** A raw date without its letters and with its hyphens and slashes
    written as colons. *)
Definition plain (raw : pystr) : pystr :=
  map (fun c => if (c =? 45)%N || (c =? 47)%N then 58%N else c)
      (filter (fun c => negb (han_or_latin c)) raw).

(** The way a field of two digits matches: its group, its text and what
    follows. *)
Definition two (name : string) (v : Z) (t : pystr) : found :=
  {| groups := [(name, [dg (v / 10); dg (v mod 10)])];
     text := [dg (v / 10); dg (v mod 10)];
     rest := t |}.

(** The dictionary that an extractor returns for the date
    [year]-[month]-[day] [hour]:[minute]:[second] read from [raw_datetime]
    under [datetime_key]. *)
Definition recorded (ty : source) (datetime_key raw_datetime : pystr)
  (year month day hour minute second : Z) : dt_msg :=
  {| stat := OK; type := ty;
     key := Some datetime_key; raw := Some raw_datetime;
     short := Some (str_of_Z year ++ lit "/" ++ zfill 2 month);
     long := Some (str_of_Z year ++ zfill 2 month ++ zfill 2 day ++ lit "_" ++
                   zfill 2 hour ++ zfill 2 minute ++ zfill 2 second) |}.

(** Tags in which the less authoritative key comes first. *)
Definition two_exif_tags : exif_dict :=
  [ (lit "Image DateTime", lit "2021:03:01 00:00:00");
    (lit "EXIF DateTimeOriginal", lit "2022/04/01 15:25:38") ].

Definition two_meta_tags : list pystr :=
  [ lit "Metadata:"; lit "Creation date: 2021-03-01 00:00:00";
    lit "Date-time digitized: 2022-04-01 15:25:38" ].

(** A dictionary of an extractor holds a whole date or none: with the
    status ['0'] it is [recorded] for one of the keys and a date of the
    calendar, with any other status its four fields are [None]. *)
Definition all_or_nothing (keys : list pystr) (m : dt_msg) : Prop :=
  match stat m with
  | OK =>
      exists k r year month day hour minute second,
        In k keys /\
        (1900 <= year <= 2050)%Z /\ (1 <= month <= 12)%Z /\
        (1 <= day <= days_in_month year month)%Z /\
        (0 <= hour <= 23)%Z /\ (0 <= minute <= 59)%Z /\
        (0 <= second <= 59)%Z /\
        m = recorded (type m) k r year month day hour minute second
  | _ => key m = None /\ raw m = None /\ short m = None /\ long m = None
  end.

(** The short date that [reorgnize_file] files a dated row under: the one
    of EXIF for [EXIF] and [BOTH], of META for [META], of the side chosen
    for [D_ERR]. *)
Definition filing_short (file : row) : cell :=
  let check := c_check file in
  if is_ check (lit "EXIF") then c_exif_short file
  else if is_ check (lit "META") then c_meta_short file
  else if is_ check (lit "BOTH") then c_exif_short file
  else if is_ check (lit "D_ERR") then
    match fst (d_err_choice file None) with
    | Some chose =>
        if str_eqb chose (lit "EXIF") then c_exif_short file
        else c_meta_short file
    | None => None
    end
  else None.

(** The second file system is the first one with more directories. *)
Definition grows (fs fs' : Fs.t) : Prop :=
  Fs.cwd fs' = Fs.cwd fs /\ Fs.files fs' = Fs.files fs /\
  incl (Fs.dirs fs) (Fs.dirs fs').

(** A directory that holds a regular file. *)
Definition holds_file (fs : Fs.t) (d : pystr) : Prop :=
  exists q c, In (q, c) (Fs.files fs) /\ OsPath.dirname q = d /\
              truthy (OsPath.basename q) = true.

(** The second file system is the first one without some directories,
    none of which held a file. *)
Definition shrinks (fs fs' : Fs.t) : Prop :=
  Fs.cwd fs' = Fs.cwd fs /\ Fs.files fs' = Fs.files fs /\
  incl (Fs.dirs fs') (Fs.dirs fs) /\
  forall d, In d (Fs.dirs fs) -> holds_file fs d -> In d (Fs.dirs fs').

(** An undated row of a type that has no category. *)
Definition audio_row : row :=
  {| c_path := Some (lit "/in/a.mp3"); c_type := Some (lit "audio");
     c_ext := Some (lit "mp3"); c_size := Some 20480%Z;
     c_md5 := Some (lit "a");
     c_check := None;
     c_exif_key := None; c_exif_raw := None; c_exif_short := None;
     c_exif_long := None;
     c_meta_key := None; c_meta_raw := None; c_meta_short := None;
     c_meta_long := None |}.

(** A target directory with the category directory of the dated files. *)
Definition one_month : Fs.t :=
  {| Fs.cwd := lit "/out";
     Fs.dirs := [lit "/"; lit "/out"; lit "/out/Photos_bydt"];
     Fs.files := [] |}.

(** A directory with a photo taken on 2022-04-01 (its content stands for
    the date that its EXIF tags hold) and the notes that come with it;
    the libraries that read it. *)
Definition photo_and_notes : Fs.t :=
  {| Fs.cwd := lit "/home";
     Fs.dirs := [lit "/"; lit "/home"; lit "/home/in"];
     Fs.files := [ (lit "/home/in/a.jpg", lit "2022:04:01 15:25:38");
                   (lit "/home/in/notes.txt", lit "hello") ] |}.

Definition sample_exifread (bytes : list N) : option exif_dict := exif_of bytes.

Definition sample_hachoir (file : pystr) (bytes : list N)
  : option (list pystr) := None.

Definition sample_types : list (pystr * pystr) :=
  Ledger._EXT_TYPE_SET ++ [(lit "txt", lit "other")].

(** What [get_datetime] returns for the photo of [photo_and_notes]. *)
Definition photo_msg : file_msg :=
  {| dated := true; check := Some EXIF;
     EXIF_K := Some (lit "EXIF DateTimeOriginal");
     EXIF_R := Some (lit "2022:04:01 15:25:38");
     EXIF_S := Some (lit "2022/04"); EXIF_L := Some (lit "20220401_152538");
     META_K := None; META_R := None; META_S := None; META_L := None |}.

(** A target with the photo directories of the twelve months of 2022, of
    which April holds a photo. *)
Definition april_kept : Fs.t :=
  {| Fs.cwd := lit "/out";
     Fs.dirs := [lit "/"; lit "/out"; lit "/out/Photos_bydt";
                 lit "/out/Photos_bydt/2022"]
                ++ map (fun j => lit "/out/Photos_bydt/2022/" ++ zfill 2 j)
                       (zrange 1 13);
     Fs.files := [(lit "/out/Photos_bydt/2022/04/a.jpg", lit "x")] |}.

(** The row [r] of the ledger describes the file [file] of the directory
    [root]: its path, its extension in lower case, the type that the
    dictionary [types] gives the extension, its size in KB and its hash;
    the date columns of an image or a video are those of [get_datetime],
    and only an image or a video has a check. *)
Definition describes (hexdigest : list N -> pystr) (lower : pystr -> pystr)
  (exifread : list N -> option exif_dict)
  (hachoir : pystr -> list N -> option (list pystr)) (this_year : Z)
  (fs : Fs.t) (types : list (pystr * pystr)) (root file : pystr)
  (r : Ledger.datalist) : Prop :=
  let file_path := OsPath.join2 root file in
  Ledger.d_path r = file_path /\
  Ledger.d_ext r = lower (tl (Ledger.splitext_ext file_path)) /\
  dict_get (Ledger.d_ext r) types = Some (Ledger.d_type r) /\
  Ledger.d_size r = Ledger.get_file_size fs file_path (lit "KB") /\
  Ledger.d_md5 r = Ledger.get_file_md5 hexdigest fs file_path /\
  (Ledger.d_check r <> None ->
   In (Ledger.d_type r) [lit "image"; lit "video"]) /\
  (In (Ledger.d_type r) [lit "image"; lit "video"] ->
   exists m,
     get_datetime (Ledger.exif_tags exifread fs file_path)
                  (Ledger.meta_tags hachoir fs file_path) 2000 this_year
     = Ret m /\
     Ledger.d_check r = check m /\
     Ledger.d_exif_key r = EXIF_K m /\ Ledger.d_exif_raw r = EXIF_R m /\
     Ledger.d_exif_short r = EXIF_S m /\ Ledger.d_exif_long r = EXIF_L m /\
     Ledger.d_meta_key r = META_K m /\ Ledger.d_meta_raw r = META_R m /\
     Ledger.d_meta_short r = META_S m /\ Ledger.d_meta_long r = META_L m).

(** An absolute path that names what it says: every component after the
    root is a name, none is empty (no doubled or trailing slash), [.] or
    [..]. *)
Definition plain_path (a : pystr) : bool :=
  match Py.split 47 a with
  | [] :: (_ :: _) as names =>
      forallb (fun name => truthy name && negb (str_eqb name (lit ".")) &&
                           negb (str_eqb name (lit "..")))
              names
  | _ => false
  end.

(** A target in which the year 1950 of the dated photos is a regular
    file. *)
Definition year_is_a_file : Fs.t :=
  {| Fs.cwd := lit "/out";
     Fs.dirs := [lit "/"; lit "/in"; lit "/out"; lit "/out/Photos_bydt"];
     Fs.files := [(lit "/out/Photos_bydt/1950", lit "x")] |}.

(** The row of a photo that the two sources date differently in 1950. *)
Definition row_of_1950 : row :=
  {| c_path := Some (lit "/in/c.jpg"); c_type := Some (lit "image");
     c_ext := Some (lit "jpg"); c_size := Some 20480%Z;
     c_md5 := Some (lit "c");
     c_check := Some (lit "D_ERR");
     c_exif_key := Some (lit "EXIF DateTimeOriginal");
     c_exif_raw := Some (lit "1950:04:01 00:00:00");
     c_exif_short := Some (lit "1950/04");
     c_exif_long := Some (lit "19500401_000000");
     c_meta_key := Some (lit "Creation date");
     c_meta_raw := Some (lit "1960-04-01 15:25:38");
     c_meta_short := Some (lit "1960/04");
     c_meta_long := Some (lit "19600401_152538") |}.

(* ================================================================= *)
(** * Proofs *)

Unset Implicit Arguments.

Ltac Zify.zify_post_hook ::= Z.to_euclidean_division_equations.

(** ** Lists *)

Lemma map_flat_map {A B C : Type} (h : B -> C) (g : A -> list B) (l : list A) :
  map h (flat_map g l) = flat_map (fun x => map h (g x)) l.
Proof.
  induction l as [|a l IH]; [reflexivity|].
  cbn. now rewrite map_app, IH.
Qed.

Lemma flat_map_map {A B C : Type} (h : A -> B) (g : B -> list C) (l : list A) :
  flat_map g (map h l) = flat_map (fun x => g (h x)) l.
Proof.
  induction l as [|a l IH]; [reflexivity|].
  cbn. now rewrite IH.
Qed.

Lemma filter_id {A : Type} (p : A -> bool) (l : list A) :
  forallb p l = true -> filter p l = l.
Proof.
  induction l as [|a l IH]; [reflexivity|].
  cbn. destruct (p a); [|discriminate]. intros H. now rewrite IH.
Qed.

Lemma map_id_on {A : Type} (f : A -> A) (l : list A) :
  Forall (fun a => f a = a) l -> map f l = l.
Proof.
  induction 1 as [|a l Ha _ IH]; [reflexivity|]. cbn. now rewrite Ha, IH.
Qed.

Lemma existsb_nth {A : Type} (p : A -> bool) (l : list A) :
  existsb p l = true <-> exists j x, nth_error l j = Some x /\ p x = true.
Proof.
  rewrite existsb_exists. split.
  - intros (x & Hin & Hp). apply In_nth_error in Hin. destruct Hin as [j Hj].
    eauto.
  - intros (j & x & Hj & Hp). apply nth_error_In in Hj. eauto.
Qed.

(** ** The exception monad *)

Lemma bind_ret {A B : Type} (m : result A) (k : A -> result B) (b : B) :
  bind m k = Ret b -> exists a, m = Ret a /\ k a = Ret b.
Proof. destruct m as [a|e]; cbn; [eauto|discriminate]. Qed.

(** ** Strings *)

Lemma str_eqb_eq (a b : pystr) : str_eqb a b = true -> a = b.
Proof.
  revert b. induction a as [|x a IH]; intros [|y b]; cbn; try discriminate; auto.
  rewrite andb_true_iff, N.eqb_eq. intros [-> E]. f_equal. auto.
Qed.

Lemma str_eqb_refl (a : pystr) : str_eqb a a = true.
Proof.
  induction a as [|x a IH]; [reflexivity|]. cbn. now rewrite N.eqb_refl, IH.
Qed.

Lemma str_eqb_iff (a b : pystr) : str_eqb a b = true <-> a = b.
Proof. split; [apply str_eqb_eq|intros ->; apply str_eqb_refl]. Qed.

Lemma truthy_app (a b : pystr) : truthy (a ++ b) = truthy a || truthy b.
Proof. destruct a; reflexivity. Qed.

Lemma split_head (sep : N) (a b : pystr) :
  forallb (fun c => negb (c =? sep)%N) a = true ->
  hd [] (Py.split sep (a ++ sep :: b)) = a.
Proof.
  induction a as [|c a IH]; cbn [forallb app Py.split].
  - now rewrite N.eqb_refl.
  - rewrite andb_true_iff. intros [Hc Ha]. apply negb_true_iff in Hc.
    rewrite Hc. specialize (IH Ha).
    destruct (Py.split sep (a ++ sep :: b)); cbn in *; now subst.
Qed.

Lemma replace_char (a b : N) (s : pystr) :
  replace [a] [b] s = map (fun c => if (a =? c)%N then b else c) s.
Proof.
  unfold replace. induction s as [|c s IH]; [reflexivity|].
  cbn [replace_from startswith map length Nat.sub].
  rewrite andb_true_r. destruct (a =? c)%N; cbn [app]; now rewrite IH.
Qed.

(** ** Matching commutes with a renaming of the characters that no class of the pattern tells apart *)

Section Renaming.

Variable f : N -> N.

Lemma truthy_map (s : pystr) : truthy (map f s) = truthy s.
Proof. destruct s; reflexivity. Qed.

Lemma found_map_then (m1 m2 : found) :
  found_map f (then_ m1 m2) = then_ (found_map f m1) (found_map f m2).
Proof.
  unfold found_map, then_; cbn. now rewrite !map_app.
Qed.

Lemma stars_rename (p : N -> bool) :
  (forall c, p (f c) = p c) ->
  forall s, stars p (map f s) = map (found_map f) (stars p s).
Proof.
  intros Hp s. induction s as [|c s IH]; [reflexivity|].
  cbn [map stars]. rewrite Hp. destruct (p c); [|reflexivity].
  rewrite IH, map_app, !map_map. reflexivity.
Qed.

Lemma rmatch_rename (r : regex) :
  stable f r ->
  forall bos s, rmatch bos r (map f s) = map (found_map f) (rmatch bos r s).
Proof.
  induction r as [|p|r1 IH1 r2 IH2|r1 IH1 r2 IH2|p|r' IH|g r' IH| |];
    cbn [stable]; intros Hst bos s.
  - reflexivity.
  - destruct s as [|c s]; [reflexivity|]. cbn [map rmatch]. rewrite Hst.
    destruct (p c); reflexivity.
  - destruct Hst as [H1 H2]. cbn [rmatch].
    rewrite (IH1 H1), flat_map_map, map_flat_map.
    apply flat_map_ext. intros m1.
    cbn [found_map text rest]. rewrite truthy_map, (IH2 H2), !map_map.
    apply map_ext. intros m2. now rewrite found_map_then.
  - destruct Hst as [H1 H2]. cbn [rmatch].
    now rewrite (IH1 H1), (IH2 H2), map_app.
  - now apply stars_rename.
  - cbn [rmatch]. now rewrite (IH Hst), map_app.
  - cbn [rmatch]. rewrite (IH Hst), !map_map. reflexivity.
  - cbn [rmatch]. destruct bos; reflexivity.
  - destruct s as [|c [|d s]]; try reflexivity.
    cbn [map rmatch]. rewrite Hst. destruct (c =? 10)%N; reflexivity.
Qed.

Lemma search_from_rename (r : regex) :
  stable f r ->
  forall s bos,
    search_from bos r (map f s) = option_map (found_map f) (search_from bos r s).
Proof.
  intros Hst s. induction s as [|c s IH]; intros bos.
  - pose proof (rmatch_rename r Hst bos []) as E. cbn [map] in E.
    cbn [map search_from]. rewrite E at 1. clear E.
    destruct (rmatch bos r []); reflexivity.
  - cbn [map search_from].
    change (f c :: map f s) with (map f (c :: s)).
    rewrite (rmatch_rename r Hst bos (c :: s)).
    destruct (rmatch bos r (c :: s)); [apply IH|reflexivity].
Qed.

End Renaming.

Lemma rename_stable (p : N -> bool) (tbl : list (N * N)) :
  Forall (fun kv => p (snd kv) = p (fst kv)) tbl ->
  forall c, p (rename tbl c) = p c.
Proof.
  induction 1 as [|[k v] tbl Hkv _ IH]; intros c; [reflexivity|].
  cbn [rename]. destruct (N.eqb_spec c k) as [->|_]; [exact Hkv|apply IH].
Qed.

(** ** [re.sub] of a class and of a run of underscores *)

Lemma sub_class_from (p : N -> bool) (s : pystr) (bos : bool) :
  sub_from bos (Chr p) [] 0 s = filter (fun c => negb (p c)) s.
Proof.
  revert bos. induction s as [|c s IH]; intros bos; [reflexivity|].
  cbn [sub_from rmatch filter]. destruct (p c); cbn [negb length text app].
  - apply IH.
  - f_equal. apply IH.
Qed.

Lemma sub_class (p : N -> bool) (s : pystr) :
  Re.sub (Chr p) [] s = filter (fun c => negb (p c)) s.
Proof. apply sub_class_from. Qed.

Lemma stars_all (p : N -> bool) (s : pystr) :
  forallb p s = true ->
  exists tl, stars p s = {| groups := []; text := s; rest := [] |} :: tl.
Proof.
  induction s as [|c s IH]; cbn [forallb stars]; [eauto|].
  rewrite andb_true_iff. intros [-> Hs]. destruct (IH Hs) as [tl ->].
  cbn [map app push groups text rest]. eauto.
Qed.

Lemma sub_skip_all (bos : bool) (r : regex) (repl s : pystr) :
  sub_from bos r repl (length s) s = [].
Proof.
  revert bos. induction s as [|c s IH]; intros bos; [reflexivity|].
  cbn [length sub_from]. apply IH.
Qed.

Lemma sub_leading_underscores (s : pystr) :
  forallb underscore s = true ->
  Re.sub (Cat Bol (plus underscore)) [] s = [].
Proof.
  destruct s as [|c s]; [reflexivity|]. cbn [forallb].
  rewrite andb_true_iff. intros [Hc Hs]. destruct (stars_all _ _ Hs) as [tl Htl].
  unfold Re.sub, plus.
  cbn [sub_from rmatch flat_map map app text rest andb negb truthy].
  rewrite Hc. cbn [flat_map map app text rest andb negb truthy].
  rewrite Htl. cbn [map app then_ text rest groups length].
  apply sub_skip_all.
Qed.

(** ** Digits, [int] and the format specs *)

Lemma ascii_digit_cases (c : N) :
  ascii_digit c = true ->
  In c [48; 49; 50; 51; 52; 53; 54; 55; 56; 57]%N.
Proof.
  unfold ascii_digit, range. rewrite andb_true_iff, !N.leb_le. intros [H1 H2].
  assert (H : (c = 48 \/ c = 49 \/ c = 50 \/ c = 51 \/ c = 52 \/ c = 53 \/
               c = 54 \/ c = 55 \/ c = 56 \/ c = 57)%N) by lia.
  cbn [In]. repeat (destruct H as [H|H]; [subst c; tauto|]). subst c; tauto.
Qed.

(** An ASCII digit is a decimal digit with its value and belongs to no
    other class that the patterns use. *)
Lemma ascii_digit_class (c : N) :
  ascii_digit c = true ->
  decimal_value c = Some (c - 48)%N /\ is_decimal c = true /\
  is_space c = false /\ (58 =? c)%N = false /\ dot c = true /\
  han_or_latin c = false /\ (45 =? c)%N = false /\ (47 =? c)%N = false.
Proof.
  intros H. apply ascii_digit_cases in H. cbn [In] in H.
  repeat (destruct H as [H|H]; [subst c; vm_compute; tauto|]). contradiction.
Qed.

Lemma dg_digit (k : Z) : (0 <= k <= 9)%Z -> ascii_digit (dg k) = true.
Proof.
  intros H. unfold ascii_digit, range, dg.
  rewrite andb_true_iff, !N.leb_le. lia.
Qed.

Lemma int_ascii (s : pystr) :
  s <> [] -> forallb ascii_digit s = true ->
  int s = match int_digits 0 s with Some z => Ret z | None => Raise ValueError end.
Proof.
  intros Hne Hs. unfold int.
  assert (Hl : forall t, forallb ascii_digit t = true -> lstrip t = t).
  { intros [|c t]; [reflexivity|]. cbn [forallb lstrip].
    rewrite andb_true_iff. intros [Hc _].
    apply ascii_digit_class in Hc. now destruct Hc as (_ & _ & -> & _). }
  unfold strip. rewrite (Hl s Hs), Hl, rev_involutive.
  - destruct s; [contradiction|reflexivity].
  - rewrite forallb_forall in *. intros c Hc. apply Hs. now apply in_rev.
Qed.

Lemma int2 (a b : Z) :
  (0 <= a <= 9)%Z -> (0 <= b <= 9)%Z ->
  int [dg a; dg b] = Ret (10 * a + b)%Z.
Proof.
  intros Ha Hb.
  pose proof (ascii_digit_class _ (dg_digit a Ha)) as (Ea & _).
  pose proof (ascii_digit_class _ (dg_digit b Hb)) as (Eb & _).
  rewrite int_ascii; [|discriminate|cbn [forallb]; now rewrite !dg_digit].
  cbn [int_digits]. rewrite Ea, Eb. f_equal. unfold dg. lia.
Qed.

Lemma int4 (a b c d : Z) :
  (0 <= a <= 9)%Z -> (0 <= b <= 9)%Z -> (0 <= c <= 9)%Z -> (0 <= d <= 9)%Z ->
  int [dg a; dg b; dg c; dg d] = Ret (1000 * a + 100 * b + 10 * c + d)%Z.
Proof.
  intros Ha Hb Hc Hd.
  pose proof (ascii_digit_class _ (dg_digit a Ha)) as (Ea & _).
  pose proof (ascii_digit_class _ (dg_digit b Hb)) as (Eb & _).
  pose proof (ascii_digit_class _ (dg_digit c Hc)) as (Ec & _).
  pose proof (ascii_digit_class _ (dg_digit d Hd)) as (Ed & _).
  rewrite int_ascii; [|discriminate|cbn [forallb]; now rewrite !dg_digit].
  cbn [int_digits]. rewrite Ea, Eb, Ec, Ed. f_equal. unfold dg. lia.
Qed.

Lemma int_digits_nonneg (s : pystr) :
  forall acc z, (0 <= acc)%Z -> int_digits acc s = Some z -> (0 <= z)%Z.
Proof.
  induction s as [|c s IH]; cbn [int_digits]; intros acc z Hacc H.
  - now injection H as <-.
  - destruct (decimal_value c) as [d|]; [|discriminate].
    apply IH in H; lia.
Qed.

Lemma int_nonneg (s : pystr) (z : Z) : int s = Ret z -> (0 <= z)%Z.
Proof.
  unfold int. destruct (strip s) as [|d ds]; [discriminate|].
  destruct (int_digits 0 (d :: ds)) as [v|] eqn:E; [|discriminate].
  intros H. injection H as <-. now apply int_digits_nonneg in E.
Qed.

Lemma all_from_spec (P : Z -> bool) (n : nat) :
  forall lo, all_from P lo n = true ->
  forall z, (lo <= z < lo + Z.of_nat n)%Z -> P z = true.
Proof.
  induction n as [|n IH]; intros lo H z Hz; [lia|].
  cbn [all_from] in H. destruct (P lo) eqn:E; [|discriminate].
  destruct (Z.eq_dec z lo) as [->|Hne]; [exact E|].
  apply (IH (lo + 1)%Z H). lia.
Qed.

Lemma forall_interval (P : Z -> bool) (lo hi : Z) :
  all_from P lo (Z.to_nat (hi - lo)) = true ->
  forall z, (lo <= z < hi)%Z -> P z = true.
Proof.
  intros H z Hz. apply (all_from_spec P _ lo H). lia.
Qed.

Lemma zfill2_digits (z : Z) :
  (0 <= z <= 99)%Z -> zfill 2 z = [dg (z / 10); dg (z mod 10)].
Proof.
  intros Hz.
  pose proof (forall_interval
                (fun z => str_eqb (zfill 2 z) [dg (z / 10); dg (z mod 10)])
                0 100) as H.
  cbn beta in H.
  assert (E : str_eqb (zfill 2 z) [dg (z / 10); dg (z mod 10)] = true).
  { apply H; [vm_compute; reflexivity|lia]. }
  now apply str_eqb_eq.
Qed.

Lemma year_digits (y : Z) :
  (1000 <= y <= 9999)%Z ->
  str_of_Z y =
  [dg (y / 1000); dg (y / 100 mod 10); dg (y / 10 mod 10); dg (y mod 10)].
Proof.
  intros Hy.
  pose proof (forall_interval
                (fun y => str_eqb (str_of_Z y)
                            [dg (y / 1000); dg (y / 100 mod 10);
                             dg (y / 10 mod 10); dg (y mod 10)])
                1000 10000) as H.
  cbn beta in H. apply str_eqb_eq. apply H; [vm_compute; reflexivity|lia].
Qed.

Lemma year_text (y : Z) :
  (1 <= y <= 9999)%Z ->
  forallb (fun c => negb (c =? 47)%N) (str_of_Z y) = true /\
  int (str_of_Z y) = Ret y.
Proof.
  intros Hy.
  pose proof (forall_interval
                (fun y => forallb (fun c => negb (c =? 47)%N) (str_of_Z y) &&
                          match int (str_of_Z y) with
                          | Ret z => (z =? y)%Z
                          | Raise _ => false
                          end)
                1 10000) as H.
  cbn beta in H. specialize (H ltac:(vm_compute; reflexivity) y ltac:(lia)).
  apply andb_true_iff in H. destruct H as [H1 H2]. split; [exact H1|].
  destruct (int (str_of_Z y)); [|discriminate]. apply Z.eqb_eq in H2. now subst.
Qed.

Lemma str_of_N_5 (n : N) :
  (10000 <= n <= 99999)%N ->
  str_of_N n =
  [48 + n / 10000; 48 + n / 1000 mod 10; 48 + n / 100 mod 10;
   48 + n / 10 mod 10; 48 + n mod 10]%N.
Proof.
  intros Hn. unfold str_of_N.
  assert (HL : (13 <= N.log2 n)%N).
  { change 13%N with (N.log2 10000). apply N.log2_le_mono. lia. }
  destruct (N.to_nat (N.log2 n)) as [|[|[|[|f]]]] eqn:E; try lia.
  cbn [digits_fuel].
  repeat match goal with
         | |- context [if (?a =? 0)%N then _ else _] =>
             destruct (N.eqb_spec a 0); [try lia|]
         end; try lia.
  repeat (f_equal; try lia).
Qed.

Lemma five_digits (n : Z) :
  (1 <= n <= 99999)%Z ->
  zfill 5 n =
  [dg (n / 10000); dg (n / 1000 mod 10); dg (n / 100 mod 10);
   dg (n / 10 mod 10); dg (n mod 10)].
Proof.
  intros Hn. destruct (Z.lt_ge_cases n 10000) as [Hlt|Hge].
  - apply str_eqb_eq.
    apply (forall_interval
             (fun n => str_eqb (zfill 5 n)
                         [dg (n / 10000); dg (n / 1000 mod 10);
                          dg (n / 100 mod 10); dg (n / 10 mod 10);
                          dg (n mod 10)])
             1 10000); [vm_compute; reflexivity|lia].
  - unfold zfill. destruct (Z.ltb_spec n 0); [lia|].
    rewrite str_of_N_5 by lia. cbn [length Nat.sub repeat app]. unfold dg.
    repeat (f_equal; try lia).
Qed.

(** ** collect.py: the normaliser *)

Lemma search_template :
  Re.search datetime_re template =
  Some {| groups :=
            [ ("second"%string, [1634; 1635]); ("minute"%string, [1632; 1633]);
              ("hour"%string, [56; 57]); ("day"%string, [54; 55]);
              ("month"%string, [52; 53]); ("year"%string, [48; 49; 50; 51]) ]%N;
          text := template;
          rest := [] |}.
Proof. vm_compute. reflexivity. Qed.

Lemma search_canon y1 y2 y3 y4 m1 m2 d1 d2 h1 h2 n1 n2 s1 s2 :
  forallb ascii_digit [y1; y2; y3; y4; m1; m2; d1; d2; h1; h2; n1; n2; s1; s2]
    = true ->
  Re.search datetime_re (canon y1 y2 y3 y4 m1 m2 d1 d2 h1 h2 n1 n2 s1 s2) =
  Some {| groups :=
            [ ("second"%string, [s1; s2]); ("minute"%string, [n1; n2]);
              ("hour"%string, [h1; h2]); ("day"%string, [d1; d2]);
              ("month"%string, [m1; m2]); ("year"%string, [y1; y2; y3; y4]) ];
          text := canon y1 y2 y3 y4 m1 m2 d1 d2 h1 h2 n1 n2 s1 s2;
          rest := [] |}.
Proof.
  intros H. cbn [forallb] in H. rewrite !andb_true_iff in H.
  set (tbl := [ (48, y1); (49, y2); (50, y3); (51, y4); (52, m1); (53, m2);
                (54, d1); (55, d2); (56, h1); (57, h2); (1632, n1);
                (1633, n2); (1634, s1); (1635, s2) ]%N).
  assert (Hcls : forall c, In c [y1; y2; y3; y4; m1; m2; d1; d2; h1; h2;
                                  n1; n2; s1; s2] ->
                 is_decimal c = true /\ is_space c = false /\
                 (58 =? c)%N = false /\ dot c = true).
  { intros c Hc. assert (Hd : ascii_digit c = true).
    { cbn [In] in Hc. intuition (subst; assumption). }
    apply ascii_digit_class in Hd. tauto. }
  assert (Hre : stable (rename tbl) datetime_re).
  { assert (Hall : forall p : N -> bool,
               (forall c, In c [y1; y2; y3; y4; m1; m2; d1; d2; h1; h2;
                                n1; n2; s1; s2] -> p c = p 48%N) ->
               Forall (fun k => p k = p 48%N)
                      [48; 49; 50; 51; 52; 53; 54; 55; 56; 57;
                       1632; 1633; 1634; 1635]%N ->
               forall c, p (rename tbl c) = p c).
    { intros p Hv Hk. apply rename_stable. subst tbl.
      repeat match goal with
             | H : Forall _ (_ :: _) |- _ =>
                 apply Forall_cons_iff in H;
                 let a := fresh "Hk" in destruct H as [a H]
             end.
      repeat (apply Forall_cons;
              [cbn [fst snd]; rewrite Hv by (cbn [In]; tauto); congruence|]).
      constructor. }
    assert (Hdec : forall c, is_decimal (rename tbl c) = is_decimal c).
    { apply Hall; [intros c Hc; now destruct (Hcls c Hc) as (-> & _)|].
      repeat constructor. }
    assert (Hspc : forall c, is_space (rename tbl c) = is_space c).
    { apply Hall; [intros c Hc; now destruct (Hcls c Hc) as (_ & -> & _)|].
      repeat constructor. }
    assert (Hcol : forall c, (58 =? rename tbl c)%N = (58 =? c)%N).
    { apply (Hall (N.eqb 58));
        [intros c Hc; now destruct (Hcls c Hc) as (_ & _ & -> & _)|].
      repeat constructor. }
    assert (Hdot : forall c, dot (rename tbl c) = dot c).
    { apply Hall; [intros c Hc; now destruct (Hcls c Hc) as (_ & _ & _ & ->)|].
      repeat constructor. }
    cbn. tauto. }
  change (canon y1 y2 y3 y4 m1 m2 d1 d2 h1 h2 n1 n2 s1 s2)
    with (map (rename tbl) template).
  unfold Re.search. rewrite (search_from_rename _ _ Hre).
  fold (Re.search datetime_re template). rewrite search_template.
  reflexivity.
Qed.

Lemma process_datetime_render (year month day hour minute second : Z) :
  (1900 <= year <= 2050)%Z -> (1 <= month <= 12)%Z -> (1 <= day <= 31)%Z ->
  (0 <= hour <= 23)%Z -> (0 <= minute <= 59)%Z -> (0 <= second <= 59)%Z ->
  process_datetime (render year month day hour minute second) =
  Ret (Some (render year month day hour minute second)).
Proof.
  intros Hy Hm Hd Hh Hn Hs.
  assert (E : render year month day hour minute second =
              canon (dg (year / 1000)) (dg (year / 100 mod 10))
                    (dg (year / 10 mod 10)) (dg (year mod 10))
                    (dg (month / 10)) (dg (month mod 10))
                    (dg (day / 10)) (dg (day mod 10))
                    (dg (hour / 10)) (dg (hour mod 10))
                    (dg (minute / 10)) (dg (minute mod 10))
                    (dg (second / 10)) (dg (second mod 10))).
  { unfold render. rewrite year_digits, !zfill2_digits by lia. reflexivity. }
  assert (D : forallb ascii_digit
                [dg (year / 1000); dg (year / 100 mod 10);
                 dg (year / 10 mod 10); dg (year mod 10);
                 dg (month / 10); dg (month mod 10);
                 dg (day / 10); dg (day mod 10);
                 dg (hour / 10); dg (hour mod 10);
                 dg (minute / 10); dg (minute mod 10);
                 dg (second / 10); dg (second mod 10)] = true).
  { cbn [forallb]. rewrite !dg_digit by lia. reflexivity. }
  unfold process_datetime. rewrite E at 1.
  assert (Hcls : forall c, ascii_digit c = true ->
                 han_or_latin c = false /\ (45 =? c)%N = false /\
                 (47 =? c)%N = false).
  { intros c Hc. apply ascii_digit_class in Hc. tauto. }
  cbn [forallb] in D. rewrite !andb_true_iff in D.
  rewrite sub_class, filter_id.
  2:{ unfold canon. cbn [forallb].
      repeat match goal with
             | |- context [han_or_latin (dg ?k)] =>
                 let H := fresh in
                 destruct (Hcls (dg k)) as (H & _); [tauto|rewrite H; clear H]
             end. reflexivity. }
  change (lit "-") with [45%N]. change (lit ":") with [58%N].
  change (lit "/") with [47%N].
  rewrite !replace_char.
  rewrite (map_id_on (fun c => if (45 =? c)%N then 58%N else c)).
  2:{ unfold canon.
      repeat (apply Forall_cons;
              [first [reflexivity
                     |match goal with
                      | |- context [(45 =? dg ?k)%N] =>
                          let H := fresh in
                          destruct (Hcls (dg k)) as (_ & H & _);
                          [tauto|now rewrite H]
                      end]|]).
      constructor. }
  rewrite (map_id_on (fun c => if (47 =? c)%N then 58%N else c)).
  2:{ unfold canon.
      repeat (apply Forall_cons;
              [first [reflexivity
                     |match goal with
                      | |- context [(47 =? dg ?k)%N] =>
                          let H := fresh in
                          destruct (Hcls (dg k)) as (_ & _ & H);
                          [tauto|now rewrite H]
                      end]|]).
      constructor. }
  rewrite search_canon by (cbn [forallb]; rewrite !andb_true_iff; tauto).
  cbn [groups group String.eqb Ascii.eqb Bool.eqb].
  rewrite int4 by lia. rewrite !int2 by lia.
  cbn [bind].
  replace (1000 * (year / 1000) + 100 * (year / 100 mod 10) +
           10 * (year / 10 mod 10) + year mod 10)%Z with year by lia.
  replace (10 * (month / 10) + month mod 10)%Z with month by lia.
  replace (10 * (day / 10) + day mod 10)%Z with day by lia.
  replace (10 * (hour / 10) + hour mod 10)%Z with hour by lia.
  replace (10 * (minute / 10) + minute mod 10)%Z with minute by lia.
  replace (10 * (second / 10) + second mod 10)%Z with second by lia.
  assert (T : forall a lo hi : Z, (lo <= a <= hi)%Z ->
                ((a <? lo) || (a >? hi))%Z = false).
  { intros a lo hi Ha. lia. }
  rewrite !T by lia. reflexivity.
Qed.

Lemma process_datetime_unmatched (raw : pystr) :
  Re.search datetime_re
    (replace (lit "/") (lit ":")
       (replace (lit "-") (lit ":") (Re.sub (Chr han_or_latin) [] raw))) = None ->
  process_datetime raw = Raise AttributeError.
Proof. unfold process_datetime. now intros ->. Qed.

(** C9.  The normaliser leaves a canonical date unchanged: the rendering
    of a year in 1900..2050, a month in 1..12, a day in 1..31, an hour in
    0..23, a minute and a second in 0..59 is returned as it is.  Hence
    whatever the normaliser returns, it returns again when applied to
    it. *)
Theorem normalize_canonical_unchanged :
  (forall year month day hour minute second : Z,
      (1900 <= year <= 2050)%Z -> (1 <= month <= 12)%Z ->
      (1 <= day <= 31)%Z -> (0 <= hour <= 23)%Z ->
      (0 <= minute <= 59)%Z -> (0 <= second <= 59)%Z ->
      process_datetime (render year month day hour minute second) =
      Ret (Some (render year month day hour minute second))) /\
  (forall raw s : pystr,
      process_datetime raw = Ret (Some s) ->
      process_datetime s = Ret (Some s)).
Proof.
  split; [exact process_datetime_render|].
  intros raw s. unfold process_datetime at 1.
  destruct (Re.search datetime_re _) as [m|]; [|discriminate].
  intros H.
  repeat (apply bind_ret in H; destruct H as (? & ? & H)).
  repeat match goal with
         | H : int _ = Ret ?z |- _ => apply int_nonneg in H
         end.
  repeat match type of H with
         | (if ?b then _ else _) = _ => destruct b eqn:?; [discriminate|]
         end.
  injection H as <-.
  repeat match goal with
         | |- context [if ?b then _ else _] => destruct b eqn:?
         end;
    apply process_datetime_render; lia.
Qed.

Lemma normalize_canonical_unchanged_witness :
  (1900 <= 2022 <= 2050)%Z /\ (1 <= 4 <= 12)%Z /\ (1 <= 1 <= 31)%Z /\
  (0 <= 15 <= 23)%Z /\ (0 <= 25 <= 59)%Z /\ (0 <= 38 <= 59)%Z /\
  process_datetime (lit "2022:04:01 15:25:38")
  = Ret (Some (lit "2022:04:01 15:25:38")).
Proof.
  repeat (split; [lia|]).
  exact (proj1 normalize_canonical_unchanged 2022%Z 4%Z 1%Z 15%Z 25%Z 38%Z
           ltac:(lia) ltac:(lia) ltac:(lia) ltac:(lia) ltac:(lia) ltac:(lia)).
Defined.

(** Whenever the pattern does not match, the exception leaves the part
    that the two extractors share. *)
Lemma unmatched_escapes (msg : dt_msg) (k raw : pystr) :
  Re.search datetime_re
    (replace (lit "/") (lit ":")
       (replace (lit "-") (lit ":") (Re.sub (Chr han_or_latin) [] raw))) = None ->
  fill_msg msg k raw = Raise AttributeError.
Proof.
  intros H. unfold fill_msg. now rewrite (process_datetime_unmatched raw H).
Qed.

(** C1 (defect of the code).  The claim: on a raw date that the date-time
    pattern does not match, the normaliser returns [None] and the resolver
    still returns, the file being degraded only.  The code: on the blank
    date that a camera with an unset clock writes, the pattern does not
    match, [process_datetime] raises [AttributeError], and the exception
    escapes both extractors and [get_datetime], whatever the other source
    holds. *)
Theorem unmatched_date_raises :
  process_datetime blank_date = Raise AttributeError /\
  get_exif_datetime (exif_of blank_date) Collect._EXIF_KEYS = Raise AttributeError /\
  get_meta_datetime (meta_of blank_date) Collect._META_KEYS = Raise AttributeError /\
  (forall meta_tags begin_year this_year,
     get_datetime (exif_of blank_date) meta_tags begin_year this_year
     = Raise AttributeError) /\
  (forall begin_year this_year,
     get_datetime None (meta_of blank_date) begin_year this_year
     = Raise AttributeError).
Proof.
  assert (E : get_exif_datetime (exif_of blank_date) Collect._EXIF_KEYS
              = Raise AttributeError) by (vm_compute; reflexivity).
  assert (M : get_meta_datetime (meta_of blank_date) Collect._META_KEYS
              = Raise AttributeError) by (vm_compute; reflexivity).
  split; [vm_compute; reflexivity|]. split; [exact E|]. split; [exact M|].
  split; intros; unfold get_datetime.
  - now rewrite E.
  - now rewrite M.
Qed.

(** ** collect.py: the extractors *)

Lemma strptime_date_ok (p : pystr) (t : struct_time) :
  strptime p = Ret t -> date_ok (tm_year t) (tm_mon t) (tm_mday t) = true.
Proof.
  unfold strptime. destruct (re_match strptime_re p) as [m|]; [|discriminate].
  destruct (rest m); [|discriminate]. intros H.
  repeat (apply bind_ret in H; destruct H as (? & _ & H)).
  destruct (date_ok x x0 x1) eqn:E; [|discriminate].
  injection H as <-. exact E.
Qed.

Lemma fill_msg_well_formed (keys : list pystr) (msg : dt_msg)
  (k raw : pystr) (m : dt_msg) :
  short msg = None -> long msg = None -> In k keys ->
  fill_msg msg k raw = Ret m -> well_formed keys m.
Proof.
  intros Hs Hl Hk. unfold fill_msg. intros H.
  apply bind_ret in H. destruct H as (pro & _ & H).
  destruct pro as [p|]; cbn [otruthy] in H.
  - destruct (truthy p).
    + apply bind_ret in H. destruct H as (t & Ht & H). injection H as <-.
      red. cbn. split; [eauto|].
      exists t. split; [now apply strptime_date_ok with p|tauto].
    + injection H as <-. red. cbn. tauto.
  - injection H as <-. red. cbn. tauto.
Qed.

Lemma get_exif_datetime_well_formed (tags : option exif_dict)
  (keys : list pystr) (m : dt_msg) :
  get_exif_datetime tags keys = Ret m -> well_formed keys m.
Proof.
  unfold get_exif_datetime. intros H.
  destruct tags as [[|kv tags]|];
    try (injection H as <-; red; cbn; tauto).
  destruct (find _ keys) as [k|] eqn:Hf;
    try (injection H as <-; red; cbn; tauto).
  apply find_some in Hf. destruct Hf as [Hk _].
  destruct (truthy k); try (injection H as <-; red; cbn; tauto).
  destruct (dict_get k (kv :: tags)) as [raw|]; [|discriminate].
  now apply (fill_msg_well_formed keys) in H.
Qed.

Lemma find_meta_in (keys tags : list pystr) (k tag : pystr) :
  find_meta keys tags = Some (k, tag) -> In k keys.
Proof.
  induction keys as [|k' keys IH]; cbn [find_meta]; [discriminate|].
  destruct (find (startswith k') tags).
  - intros [= -> _]. now left.
  - intros H. right. now apply IH.
Qed.

Lemma get_meta_datetime_well_formed (tags : option (list pystr))
  (keys : list pystr) (m : dt_msg) :
  get_meta_datetime tags keys = Ret m -> well_formed keys m.
Proof.
  unfold get_meta_datetime. intros H.
  destruct tags as [[|tag tags]|];
    try (injection H as <-; red; cbn; tauto).
  destruct (find_meta keys (tag :: tags)) as [[k key_tag]|] eqn:Hf;
    try (injection H as <-; red; cbn; tauto).
  apply find_meta_in in Hf.
  destruct (truthy k && truthy key_tag);
    try (injection H as <-; red; cbn; tauto).
  now apply (fill_msg_well_formed keys) in H.
Qed.

Lemma truthy_strftime_long (t : struct_time) : truthy (strftime_long t) = true.
Proof.
  unfold strftime_long. rewrite !truthy_app. change (truthy (lit "_")) with true.
  now rewrite !orb_true_r.
Qed.

Lemma year_of_short (t : struct_time) :
  date_ok (tm_year t) (tm_mon t) (tm_mday t) = true ->
  year_of (Some (strftime_short t)) = Ret (tm_year t).
Proof.
  unfold date_ok. rewrite !andb_true_iff, !Z.leb_le. intros H.
  destruct (year_text (tm_year t)) as [H1 H2]; [lia|].
  unfold year_of, strftime_short. change (lit "/") with [47%N].
  cbn [app]. now rewrite split_head.
Qed.

(** Whenever the second parse refuses what the normaliser returned, its
    exception leaves the part that the two extractors share. *)
Lemma second_pass_escapes (msg : dt_msg) (k raw p : pystr) (e : exn) :
  process_datetime raw = Ret (Some p) ->
  strptime p = Raise e ->
  fill_msg msg k raw = Raise e.
Proof.
  intros Hp Hs. unfold fill_msg. rewrite Hp. cbn [bind otruthy].
  destruct p as [|c p]; [|cbn [truthy]; now rewrite Hs].
  exfalso. revert Hp. unfold process_datetime.
  destruct (Re.search datetime_re _) as [m|]; [|discriminate].
  intros H.
  repeat (apply bind_ret in H; destruct H as (? & _ & H)).
  repeat match type of H with
         | (if ?b then _ else _) = _ => destruct b; [discriminate|]
         end.
  injection H as H. apply (f_equal truthy) in H. unfold render in H.
  rewrite !truthy_app in H. change (truthy (lit ":")) with true in H.
  rewrite !orb_true_r in H. discriminate.
Qed.

(** C2 (defect of the code).  The claim: a date that passes the first
    pass and renders, but that the strict second parse refuses, downgrades
    its source to [INVALID_DATE] without an exception.  The code: 31 April
    passes [process_datetime] unchanged, [time.strptime] refuses it with
    [ValueError], and the exception escapes both extractors and
    [get_datetime]. *)
Theorem impossible_day_raises :
  process_datetime april_31 = Ret (Some april_31) /\
  strptime april_31 = Raise ValueError /\
  get_exif_datetime (exif_of april_31) Collect._EXIF_KEYS = Raise ValueError /\
  get_meta_datetime (meta_of april_31) Collect._META_KEYS = Raise ValueError /\
  (forall meta_tags begin_year this_year,
     get_datetime (exif_of april_31) meta_tags begin_year this_year
     = Raise ValueError) /\
  (forall begin_year this_year,
     get_datetime None (meta_of april_31) begin_year this_year
     = Raise ValueError).
Proof.
  assert (E : get_exif_datetime (exif_of april_31) Collect._EXIF_KEYS
              = Raise ValueError) by (vm_compute; reflexivity).
  assert (M : get_meta_datetime (meta_of april_31) Collect._META_KEYS
              = Raise ValueError) by (vm_compute; reflexivity).
  split; [vm_compute; reflexivity|]. split; [vm_compute; reflexivity|].
  split; [exact E|]. split; [exact M|].
  split; intros; unfold get_datetime.
  - now rewrite E.
  - now rewrite M.
Qed.

(** ** collect.py: the resolver *)

Ltac split_wf H :=
  red in H; cbn [stat short long key] in H;
  first [ destruct H as ((? & ? & ?) & ? & ? & ? & ?)
        | destruct H as (? & ?) ];
  subst.

Ltac run_merge :=
  unfold resolve, merge;
  cbn [stat short long key raw bind fst snd dated check
       EXIF_K EXIF_R EXIF_S EXIF_L META_K META_R META_S META_L init_file_msg];
  rewrite ?year_of_short by assumption;
  cbn [stat short long key raw bind fst snd dated check
       EXIF_K EXIF_R EXIF_S EXIF_L META_K META_R META_S META_L init_file_msg].

Lemma classify_spec (ekeys mkeys : list pystr) (exif_dt meta_dt : dt_msg) :
  well_formed ekeys exif_dt -> well_formed mkeys meta_dt ->
  exists msg the_year,
    merge exif_dt meta_dt = Ret (msg, the_year) /\
    check msg = None /\
    (if dated msg then Some (classify msg) else None) =
      spec_classification (stat exif_dt) (stat meta_dt)
                          (same_long exif_dt meta_dt) /\
    EXIF_S msg = (if is_ok (stat exif_dt) then short exif_dt else None) /\
    META_S msg = (if is_ok (stat meta_dt) then short meta_dt else None) /\
    (is_ok (stat exif_dt) = true ->
     exists k, EXIF_K msg = Some k /\ In k ekeys) /\
    (is_ok (stat meta_dt) = true ->
     exists k, META_K msg = Some k /\ In k mkeys) /\
    (dated msg = true ->
     exists y, the_year = Some y /\
       year_of (match META_S msg with
                | Some _ => META_S msg
                | None => EXIF_S msg
                end) = Ret y).
Proof.
  intros We Wm.
  destruct exif_dt as [se te ke re she le], meta_dt as [sm tm km rm shm lm].
  destruct se, sm; split_wf We; split_wf Wm; run_merge;
    do 2 eexists; (split; [reflexivity|]);
    unfold classify, same_long, spec_classification;
    cbn [stat long EXIF_L META_L EXIF_S META_S EXIF_K META_K dated otruthy
         is_ok andb];
    rewrite ?truthy_strftime_long; cbn [andb];
    (split; [reflexivity|]); (split; [reflexivity|]); (split; [reflexivity|]);
    (split; [reflexivity|]);
    (split; [intros; first [discriminate|eauto]|]);
    (split; [intros; first [discriminate|eauto]|]);
    intros Hd; try discriminate; eexists; (split; [reflexivity|]);
    now apply year_of_short.
Qed.

(** The year gate on the outcome of the classification. *)
Lemma resolve_spec (ekeys mkeys : list pystr) (exif_dt meta_dt : dt_msg)
  (begin_year this_year : Z) :
  well_formed ekeys exif_dt -> well_formed mkeys meta_dt ->
  exists msg the_year final,
    merge exif_dt meta_dt = Ret (msg, the_year) /\
    resolve exif_dt meta_dt begin_year this_year = Ret final /\
    dated final = dated msg /\
    EXIF_K final = EXIF_K msg /\ META_K final = META_K msg /\
    EXIF_S final = EXIF_S msg /\ META_S final = META_S msg /\
    EXIF_L final = EXIF_L msg /\ META_L final = META_L msg /\
    (dated msg = false -> check final = None) /\
    (dated msg = true ->
     exists y, the_year = Some y /\
       year_of (match META_S msg with
                | Some _ => META_S msg
                | None => EXIF_S msg
                end) = Ret y /\
       check final =
       Some (match classify msg with
             | D_ERR => D_ERR
             | c => if ((y <? begin_year) || (y >? this_year))%Z
                    then Y_ERR else c
             end)).
Proof.
  intros We Wm.
  destruct (classify_spec ekeys mkeys exif_dt meta_dt We Wm)
    as (msg & the_year & Hm & Hc & _ & _ & _ & _ & _ & Hy).
  exists msg, the_year. unfold resolve. rewrite Hm. cbn [bind fst snd].
  destruct (dated msg) eqn:Hd.
  - destruct (Hy eq_refl) as (y & -> & Hyr).
    unfold year_gate.
    destruct (classify msg); cbn [chk_eqb orb];
      try destruct ((y <? begin_year) || (y >? this_year))%Z eqn:Hg;
      cbn [bind]; eexists; (split; [reflexivity|]); (split; [reflexivity|]);
      cbn [set_check dated EXIF_K META_K EXIF_S META_S EXIF_L META_L check];
      (split; [exact Hd|]); repeat (split; [reflexivity|]);
      (split; [intros; discriminate|]); intros _; exists y;
      (split; [reflexivity|]); (split; [exact Hyr|]); rewrite ?Hg; reflexivity.
  - exists msg. split; [reflexivity|]. split; [reflexivity|].
    split; [exact Hd|]. repeat (split; [reflexivity|]).
    split; [|intros; discriminate].
    intros _. exact Hc.
Qed.

(** C5.  Whatever the two extractors return, the resolver returns, and the
    classification it computes is the function of the two statuses and of
    the equality of the long forms that the specification gives: [BOTH] or
    [D_ERR] when both are valid, the valid source when one is, none
    otherwise.  The record returned holds the merged fields, and its
    [check] is that classification passed through
    the year gate: none stays none, [D_ERR] stays [D_ERR], and [BOTH],
    [EXIF] and [META] become [Y_ERR] exactly when the year of the short
    date (of META when META is valid, of EXIF otherwise) is below the
    floor year or above the current year. *)
Theorem classification_function_of_statuses :
  forall exif_tags meta_tags exif_dt meta_dt begin_year this_year,
    get_exif_datetime exif_tags Collect._EXIF_KEYS = Ret exif_dt ->
    get_meta_datetime meta_tags Collect._META_KEYS = Ret meta_dt ->
    exists msg the_year final,
      merge exif_dt meta_dt = Ret (msg, the_year) /\
      (if dated msg then Some (classify msg) else None) =
        spec_classification (stat exif_dt) (stat meta_dt)
                            (same_long exif_dt meta_dt) /\
      get_datetime exif_tags meta_tags begin_year this_year = Ret final /\
      final = set_check (check final) msg /\
      match spec_classification (stat exif_dt) (stat meta_dt)
                                (same_long exif_dt meta_dt) with
      | None => check final = None
      | Some c =>
          exists y,
            year_of (if is_ok (stat meta_dt) then short meta_dt
                     else short exif_dt) = Ret y /\
            check final =
            Some (match c with
                  | D_ERR => D_ERR
                  | _ => if ((y <? begin_year) || (y >? this_year))%Z
                         then Y_ERR else c
                  end)
      end.
Proof.
  intros exif_tags meta_tags exif_dt meta_dt begin_year this_year He Hm.
  pose proof (get_exif_datetime_well_formed _ _ _ He) as We.
  pose proof (get_meta_datetime_well_formed _ _ _ Hm) as Wm.
  destruct (classify_spec _ _ exif_dt meta_dt We Wm)
    as (msg & the_year & Hmg & _ & Hcl & Hes & Hms & _).
  destruct (resolve_spec _ _ exif_dt meta_dt begin_year this_year We Wm)
    as (msg' & ty & final & Hmg' & Hr & F0 & F1 & F2 & F3 & F4 & F5 & F6 &
        Hn & Hy).
  rewrite Hmg in Hmg'. injection Hmg' as <- <-.
  exists msg, the_year, final. split; [exact Hmg|]. split; [exact Hcl|].
  split; [unfold get_datetime; rewrite He, Hm; exact Hr|].
  split.
  {     unfold resolve in Hr. rewrite Hmg in Hr. cbn [bind fst snd] in Hr.
    destruct (dated msg).
    - apply bind_ret in Hr. destruct Hr as (c & _ & Hr).
      injection Hr as <-. reflexivity.
    - injection Hr as <-. now destruct msg. }
  rewrite <- Hcl. destruct (dated msg) eqn:Hd.
  - destruct (Hy eq_refl) as (y & _ & Hyr & Hck).
    exists y. split; [|rewrite Hck; now destruct (classify msg)].
    rewrite Hms, Hes in Hyr.
    unfold spec_classification in Hcl.
    destruct (is_ok (stat meta_dt)) eqn:Om.
    + destruct (short meta_dt) as [s|] eqn:Hs; [exact Hyr|].
      red in Wm. destruct (stat meta_dt); try discriminate Om.
      destruct Wm as (_ & t & _ & Hsh & _). congruence.
    + destruct (is_ok (stat exif_dt)); [exact Hyr|discriminate Hcl].
  - now apply Hn.
Qed.

Lemma classification_function_of_statuses_witness :
  get_exif_datetime (exif_of (lit "2021:01:01 12:00:00")) Collect._EXIF_KEYS
    = Ret exif_jan_1 /\
  get_meta_datetime (meta_of (lit "2021-01-02 12:00:00")) Collect._META_KEYS
    = Ret meta_jan_2 /\
  exists msg the_year final,
    merge exif_jan_1 meta_jan_2 = Ret (msg, the_year) /\
    (if dated msg then Some (classify msg) else None) = Some D_ERR /\
    get_datetime (exif_of (lit "2021:01:01 12:00:00"))
                 (meta_of (lit "2021-01-02 12:00:00")) 2000 2022 = Ret final /\
    final = set_check (check final) msg /\
    exists y,
      year_of (short meta_jan_2) = Ret y /\ check final = Some D_ERR.
Proof.
  split; [vm_compute; reflexivity|]. split; [vm_compute; reflexivity|].
  exact (classification_function_of_statuses
           (exif_of (lit "2021:01:01 12:00:00"))
           (meta_of (lit "2021-01-02 12:00:00"))
           exif_jan_1 meta_jan_2 2000 2022
           ltac:(vm_compute; reflexivity) ltac:(vm_compute; reflexivity)).
Defined.

(** The rows that the collection stage marks as a mismatch carry, for each
    source, one of its candidate tag names. *)
Lemma mismatch_keys_are_candidates
  (exif_tags : option exif_dict) (meta_tags : option (list pystr))
  (begin_year this_year : Z) (final : file_msg) :
  get_datetime exif_tags meta_tags begin_year this_year = Ret final ->
  check final = Some D_ERR ->
  exists ke km,
    EXIF_K final = Some ke /\ In ke Collect._EXIF_KEYS /\
    META_K final = Some km /\ In km Collect._META_KEYS.
Proof.
  intros H Hc. unfold get_datetime in H.
  apply bind_ret in H. destruct H as (exif_dt & He & H).
  apply bind_ret in H. destruct H as (meta_dt & Hm & H).
  apply get_exif_datetime_well_formed in He.
  apply get_meta_datetime_well_formed in Hm.
  destruct (classify_spec _ _ exif_dt meta_dt He Hm)
    as (msg & the_year & Hmg & _ & Hcl & _ & _ & Hke & Hkm & _).
  destruct (resolve_spec _ _ exif_dt meta_dt begin_year this_year He Hm)
    as (msg' & ty & final' & Hmg' & Hr & Hdd & Hek & Hmk & _ & _ & Hel & Hml
        & Hn & Hy).
  rewrite Hmg in Hmg'. injection Hmg' as <- <-.
  rewrite Hr in H. injection H as ->.
  assert (Hd : dated msg = true).
  { destruct (dated msg); [reflexivity|]. rewrite Hn in Hc by reflexivity.
    discriminate. }
  destruct (Hy Hd) as (y & _ & _ & Hcf). rewrite Hc in Hcf.
  assert (Hcm : classify msg = D_ERR).
  { destruct (classify msg); try reflexivity;
      destruct ((y <? begin_year) || (y >? this_year))%Z; discriminate. }
  rewrite Hd, Hcm in Hcl. unfold spec_classification in Hcl.
  destruct (is_ok (stat exif_dt)), (is_ok (stat meta_dt)); try discriminate.
  destruct (Hke eq_refl) as (ke & Eke & Ike).
  destruct (Hkm eq_refl) as (km & Ekm & Ikm).
  exists ke, km. rewrite Hek, Hmk. tauto.
Qed.

(** C3, counterexample.  The claim: a resolved year below the floor year
    forces [YEAR_OUT_OF_RANGE] whatever the classification, also on a
    mismatch, and two sources that agree on 1899 or 2051 give
    [YEAR_OUT_OF_RANGE].  The code: with the floor 2000, a photo dated 1950
    by EXIF and 1960 by META stays [D_ERR]; two sources that agree on 1899
    or on 2051 are both refused by the normaliser and the file is undated
    ([check] is [None]). *)
Lemma year_gate_skips_mismatch :
  (exists final,
      get_datetime (exif_of (lit "1950:04:01 15:25:38"))
                   (meta_of (lit "1960-04-01 15:25:38")) 2000 2022 = Ret final /\
      year_of (EXIF_S final) = Ret 1950%Z /\
      year_of (META_S final) = Ret 1960%Z /\
      check final = Some D_ERR /\
      check final <> Some Y_ERR) /\
  (exists final,
      get_datetime (exif_of (lit "1899:01:01 00:00:00"))
                   (meta_of (lit "1899-01-01 00:00:00")) 2000 2022 = Ret final /\
      check final = None /\
      check final <> Some Y_ERR) /\
  (exists final,
      get_datetime (exif_of (lit "2051:01:01 00:00:00"))
                   (meta_of (lit "2051-01-01 00:00:00")) 2000 2060 = Ret final /\
      check final = None /\
      check final <> Some Y_ERR).
Proof.
  split; [|split].
  - eexists. split; [vm_compute; reflexivity|].
    cbn [EXIF_S META_S check].
    split; [vm_compute; reflexivity|]. split; [vm_compute; reflexivity|].
    split; [reflexivity|discriminate].
  - eexists. split; [vm_compute; reflexivity|].
    cbn [check]. split; [reflexivity|discriminate].
  - eexists. split; [vm_compute; reflexivity|].
    cbn [check]. split; [reflexivity|discriminate].
Qed.

(** C3, amended.  For every dated record that [get_datetime] returns, let
    [the_year] be the year of the META short date when META gave a date
    and of the EXIF short date otherwise.  When the classification is
    [BOTH], [EXIF] or [META], the final classification is [Y_ERR] if
    [the_year] is below the floor year or above the current year, and the
    classification itself otherwise; a mismatch stays [D_ERR] whatever its
    years. *)
Theorem year_gate_except_mismatch :
  forall exif_tags meta_tags begin_year this_year final,
    get_datetime exif_tags meta_tags begin_year this_year = Ret final ->
    dated final = true ->
    exists the_year,
      year_of (match META_S final with
               | Some _ => META_S final
               | None => EXIF_S final
               end) = Ret the_year /\
      check final =
      Some (match classify final with
            | D_ERR => D_ERR
            | c => if ((the_year <? begin_year) || (the_year >? this_year))%Z
                   then Y_ERR else c
            end).
Proof.
  intros exif_tags meta_tags begin_year this_year final H Hd.
  unfold get_datetime in H.
  apply bind_ret in H. destruct H as (exif_dt & He & H).
  apply bind_ret in H. destruct H as (meta_dt & Hm & H).
  apply get_exif_datetime_well_formed in He.
  apply get_meta_datetime_well_formed in Hm.
  destruct (resolve_spec _ _ exif_dt meta_dt begin_year this_year He Hm)
    as (msg & ty & final' & _ & Hr & Hdd & _ & _ & Hes & Hms & Hel & Hml & _ & Hy).
  rewrite Hr in H. injection H as ->.
  destruct (Hy ltac:(congruence)) as (y & _ & Hyr & Hc).
  exists y. rewrite Hes, Hms. split; [exact Hyr|].
  rewrite Hc. unfold classify. now rewrite Hel, Hml.
Qed.

Lemma year_gate_except_mismatch_witness :
  get_datetime (exif_of (lit "1950:04:01 15:25:38")) None 2000 2022
    = Ret out_of_range_final /\
  dated out_of_range_final = true /\
  exists the_year,
    year_of (EXIF_S out_of_range_final) = Ret the_year /\
    check out_of_range_final =
    Some (if ((the_year <? 2000) || (the_year >? 2022))%Z then Y_ERR else EXIF).
Proof.
  split; [vm_compute; reflexivity|]. split; [reflexivity|].
  exact (year_gate_except_mismatch
           (exif_of (lit "1950:04:01 15:25:38")) None 2000 2022
           out_of_range_final ltac:(vm_compute; reflexivity) eq_refl).
Defined.

(** ** tidy.py: duplicates *)

Lemma cell_eqb_iff (a b : cell) : cell_eqb a b = true <-> a = b.
Proof.
  destruct a as [x|], b as [y|]; cbn; try (split; congruence).
  rewrite str_eqb_iff. split; congruence.
Qed.

Lemma size_eqb_iff (a b : option Z) : size_eqb a b = true <-> a = b.
Proof.
  destruct a as [x|], b as [y|]; cbn; try (split; congruence).
  rewrite Z.eqb_eq. split; congruence.
Qed.

Lemma same_key_iff (a b : row) : same_key a b = true <-> dup_key a = dup_key b.
Proof.
  unfold same_key, dup_key.
  rewrite !andb_true_iff, !cell_eqb_iff, size_eqb_iff.
  split; [intros [[-> ->] ->]; reflexivity|intros [= -> -> ->]; tauto].
Qed.

Lemma same_key_trans (a b c : row) :
  same_key a b = true -> same_key b c = true -> same_key a c = true.
Proof. rewrite !same_key_iff. congruence. Qed.

Lemma duplicated_from_nth (after : list row) :
  forall before i r,
    nth_error after i = Some r ->
    nth i (duplicated_from before after) false =
    existsb (same_key r) (before ++ firstn i after) ||
    existsb (same_key r) (skipn (S i) after).
Proof.
  induction after as [|a after IH]; intros before i r H.
  - destruct i; discriminate.
  - destruct i as [|i]; cbn [nth_error] in H.
    + injection H as ->. cbn. now rewrite app_nil_r.
    + cbn [duplicated_from nth firstn skipn].
      rewrite (IH (before ++ [a]) i r H), <- app_assoc. reflexivity.
Qed.

(** A row is flagged exactly when another row has its dup_key. *)
Lemma duplicated_iff (df : list row) (i : nat) (r : row) :
  nth_error df i = Some r ->
  (nth i (duplicated df) false = true <->
   exists j r', j <> i /\ nth_error df j = Some r' /\ dup_key r' = dup_key r).
Proof.
  intros H. unfold duplicated. rewrite (duplicated_from_nth df [] i r H).
  cbn [app]. rewrite orb_true_iff, !existsb_nth. split.
  - intros [(j & x & Hj & Hp)|(j & x & Hj & Hp)].
    + exists j, x. rewrite nth_error_firstn in Hj.
      destruct (Nat.ltb_spec j i); [|discriminate].
      apply same_key_iff in Hp. split; [lia|]. split; [exact Hj|congruence].
    + exists (S i + j)%nat, x. rewrite nth_error_skipn in Hj.
      apply same_key_iff in Hp. split; [lia|]. split; [exact Hj|congruence].
  - intros (j & r' & Hne & Hj & Hk).
    assert (Hp : same_key r r' = true) by (apply same_key_iff; congruence).
    destruct (Nat.lt_ge_cases j i) as [Hlt|Hge].
    + left. exists j, r'. split; [|exact Hp].
      rewrite nth_error_firstn. destruct (Nat.ltb_spec j i); [exact Hj|lia].
    + right. exists (j - S i)%nat, r'. split; [|exact Hp].
      rewrite nth_error_skipn. replace (S i + (j - S i))%nat with j by lia.
      exact Hj.
Qed.

(** [drop_duplicates] keeps the first occurrences. *)
Lemma drop_duplicates_from_spec (df : list row) :
  forall seen earlier,
    (forall r, existsb (same_key r) seen = existsb (same_key r) earlier) ->
    drop_duplicates_from seen df = first_occurrences earlier df.
Proof.
  induction df as [|r df IH]; intros seen earlier H; [reflexivity|].
  cbn [drop_duplicates_from first_occurrences]. rewrite <- (H r).
  destruct (existsb (same_key r) seen) eqn:E; cbn [app].
  - apply IH. intros x. rewrite existsb_app, <- H. cbn [existsb].
    rewrite orb_false_r. destruct (same_key x r) eqn:F; [|now rewrite orb_false_r].
    rewrite orb_true_r. apply existsb_exists in E. destruct E as (e & He & Hre).
    apply existsb_exists. exists e. split; [exact He|].
    now apply same_key_trans with r.
  - f_equal. apply IH. intros x. now rewrite !existsb_app, H.
Qed.

Lemma drop_duplicates_spec (df : list row) :
  drop_duplicates df = first_occurrences [] df.
Proof. now apply drop_duplicates_from_spec. Qed.

(** The prompt repeats until a valid line is typed. *)
Lemma ask_skips (invalid : list pystr) (sel : pystr) (rest : list pystr) :
  Forall (fun a => valid_sel a = false) invalid ->
  valid_sel sel = true ->
  ask (invalid ++ sel :: rest) = Ret sel.
Proof.
  induction 1 as [|a invalid Ha _ IH]; intros Hs; cbn [app ask].
  - now rewrite Hs.
  - rewrite Ha. now apply IH.
Qed.

Lemma ask_no_default (invalid : list pystr) :
  Forall (fun a => valid_sel a = false) invalid ->
  ask invalid = Raise EOFError.
Proof.
  induction 1 as [|a invalid Ha _ IH]; cbn [ask]; [reflexivity|].
  now rewrite Ha.
Qed.

(** C8.  Two rows are duplicate candidates exactly when their extension,
    size and hash are equal, and a row is flagged exactly when another row
    of the ledger has its three values.  After any number of invalid
    lines, YES lets the first row of each group go on, in ledger order,
    and drops the others, NO lets every row go on unchanged, EXIT leaves;
    when only invalid lines are typed nothing goes on. *)
Theorem duplicate_policy :
  (forall a b : row, same_key a b = true <-> dup_key a = dup_key b) /\
  (forall (df : list row) (i : nat) (r : row),
      nth_error df i = Some r ->
      (nth i (duplicated df) false = true <->
       exists j r', j <> i /\ nth_error df j = Some r' /\ dup_key r' = dup_key r)) /\
  (forall (fs fs' : Fs.t) (df : list row) (invalid rest : list pystr),
      Forall (fun a => valid_sel a = false) invalid ->
      Fs.write fs _D_XLSX_PATH [] = Ret fs' ->
      chk_duplicate fs df (invalid ++ lit "YES" :: rest)
        = Ret (fs', select df (duplicated df), first_occurrences [] df) /\
      chk_duplicate fs df (invalid ++ lit "NO" :: rest)
        = Ret (fs', select df (duplicated df), df) /\
      chk_duplicate fs df (invalid ++ lit "EXIT" :: rest) = Raise SystemExit /\
      chk_duplicate fs df invalid = Raise EOFError).
Proof.
  split; [exact same_key_iff|]. split; [exact duplicated_iff|].
  intros fs fs' df invalid rest Hi Hw. unfold chk_duplicate. rewrite Hw.
  cbn [bind]. rewrite !ask_skips, ask_no_default by (assumption || reflexivity).
  cbn [bind]. rewrite drop_duplicates_spec. repeat split; reflexivity.
Qed.

Lemma duplicate_policy_witness :
  duplicated three_rows = [true; true; false] /\
  (nth 2 (duplicated three_rows) false = true <->
   exists j r', j <> 2%nat /\ nth_error three_rows j = Some r' /\
                dup_key r' = dup_key (copy_row (lit "/in/b.jpg") (lit "92eb5ffe"))) /\
  chk_duplicate one_photo three_rows [lit "yes"; lit ""; lit "YES"] =
  Ret (after_prompt,
       [copy_row (lit "/in/a.jpg") (lit "0cc175b9");
        copy_row (lit "/in/a (1).jpg") (lit "0cc175b9")],
       [copy_row (lit "/in/a.jpg") (lit "0cc175b9");
        copy_row (lit "/in/b.jpg") (lit "92eb5ffe")]).
Proof.
  destruct duplicate_policy as (_ & Hflag & Hsel).
  split; [vm_compute; reflexivity|]. split.
  - exact (Hflag three_rows 2%nat _ eq_refl).
  - destruct (Hsel one_photo after_prompt three_rows [lit "yes"; lit ""] []
                ltac:(repeat constructor) ltac:(vm_compute; reflexivity))
      as (Hyes & _).
    cbn [app] in Hyes. rewrite Hyes. vm_compute. reflexivity.
Defined.

(** ** tidy.py: the side and the name of a mismatch *)

(** C6.  For a [D_ERR] row of an image or a video whose two tag names are
    among the candidates, the side is EXIF when its slot is not after the
    slot of META and META otherwise, so that the first slot at which a
    source matched decides and EXIF wins a tie; the code is
    [D_<side>_<letter of that slot>]; the directory is [Photos_bydt]
    followed by the parts of the short form of that side, and the name is
    [IMG_<long form of that side>_<code>_<number>.<ext>] in it. *)
Theorem mismatch_side_and_name :
  forall (fs : Fs.t) (confi : option pystr) (file : row)
         (file_name ke km ty : pystr),
    c_check file = Some (lit "D_ERR") ->
    c_type file = Some ty -> In ty [lit "image"; lit "video"] ->
    c_exif_key file = Some ke -> In ke _EXIF_KEYS ->
    c_meta_key file = Some km -> In km _META_KEYS ->
    let te := tier _EXIF_KEYS ke in
    let tm := tier _META_KEYS km in
    let exif_side := (te <=? tm)%nat in
    let code :=
      lit "D_" ++ (if exif_side then lit "EXIF" else lit "META") ++
      lit "_" ++ tier_letter (Nat.min te tm) in
    let short_form :=
      if exif_side then c_exif_short file else c_meta_short file in
    let long_form :=
      if exif_side then c_exif_long file else c_meta_long file in
    plan fs confi file file_name =
    (parts <- split_cell short_form ;;
     let target_dir := OsPath.join (lit "Photos_bydt" :: parts) in
     n <- seq5 fs target_dir ;;
     Ret {| t_confi := Some code;
            t_dir := target_dir;
            t_path :=
              OsPath.join2 target_dir
                (lit "IMG_" ++ fmt long_form ++ lit "_" ++ code ++ lit "_" ++
                 n ++
                 lit "." ++ fmt (c_ext file));
            t_yerr := false |}).
Proof.
  intros fs confi file file_name ke km ty Hc Ht Hty Hke Hie Hkm Him.
  destruct file; cbn [c_check c_type c_exif_key c_meta_key c_exif_short
                      c_meta_short c_exif_long c_meta_long c_ext] in *.
  subst. cbn [In] in Hty, Hie, Him.
  unfold plan, img_path, dated_dir. set (count := seq5 fs). clearbody count.
  destruct Hty as [<-|[<-|[]]];
    destruct Hie as [<-|[<-|[<-|[]]]];
    destruct Him as [<-|[<-|[<-|[]]]];
    destruct c_exif_short0 as [se|], c_meta_short0 as [sm|];
    vm_compute; try reflexivity;
    match goal with
    | |- context [count ?d] => destruct (count d); reflexivity
    end.
Qed.

Lemma mismatch_side_and_name_witness :
  plan three_photos None mismatch_row (lit "c") =
  Ret {| t_confi := Some (lit "D_META_U");
         t_dir := lit "Photos_bydt/2022/04";
         t_path := lit "Photos_bydt/2022/04/IMG_20220401_152538_D_META_U_00001.jpg";
         t_yerr := false |}.
Proof.
  rewrite (mismatch_side_and_name three_photos None mismatch_row (lit "c")
             (lit "Image DateTime") (lit "Date-time original") (lit "image")
             eq_refl eq_refl ltac:(cbn [In]; auto)
             eq_refl ltac:(unfold Tidy._EXIF_KEYS; cbn [In]; auto)
             eq_refl ltac:(unfold Tidy._META_KEYS; cbn [In]; auto)).
  vm_compute. reflexivity.
Defined.

(** ** tidy.py: the sequence number *)

Lemma seq5_inv (fs : Fs.t) (d n : pystr) :
  seq5 fs d = Ret n ->
  exists entries,
    Fs.listdir fs d = Ret entries /\
    n = zfill 5 (Z.of_nat (length entries) + 1).
Proof.
  unfold seq5. intros H. apply bind_ret in H. destruct H as (es & He & H).
  injection H as <-. eauto.
Qed.

Lemma img_path_inv (fs : Fs.t) (d : pystr) (long : cell)
  (confi : option pystr) (ext : cell) (p : pystr) :
  img_path fs d long confi ext = Ret p ->
  exists entries,
    Fs.listdir fs d = Ret entries /\
    p = OsPath.join2 d
          ((lit "IMG_" ++ fmt long ++ lit "_" ++ fmt_confi confi) ++
           lit "_" ++ zfill 5 (Z.of_nat (length entries) + 1) ++
           lit "." ++ fmt ext).
Proof.
  unfold img_path. intros H. apply bind_ret in H. destruct H as (n & Hn & H).
  apply seq5_inv in Hn. destruct Hn as (es & He & ->). injection H as <-.
  exists es. split; [exact He|]. now rewrite <- !app_assoc.
Qed.

Lemma stem_path_inv (fs : Fs.t) (d file_name : pystr) (ext : cell)
  (p : pystr) :
  stem_path fs d file_name ext = Ret p ->
  exists entries,
    Fs.listdir fs d = Ret entries /\
    p = OsPath.join2 d
          (file_name ++ lit "_" ++
           zfill 5 (Z.of_nat (length entries) + 1) ++ lit "." ++ fmt ext).
Proof.
  unfold stem_path. intros H. apply bind_ret in H. destruct H as (n & Hn & H).
  apply seq5_inv in Hn. destruct Hn as (es & He & ->). injection H as <-.
  eauto.
Qed.

Ltac plan_cases H :=
  repeat match type of H with
         | (if ?b then _ else _) = Ret _ => destruct b
         | bind ?m _ = Ret _ =>
             let x := fresh "x" in let E := fresh "E" in
             apply bind_ret in H; destruct H as (x & E & H)
         | (let (_, _) := ?p in _) = Ret _ => destruct p as [[?|] [?|]]
         | Raise _ = Ret _ => discriminate H
         end.

(** Whatever the row, the number in the planned name is one more than the
    number of entries of the target directory. *)
Lemma plan_sequence (fs : Fs.t) (confi : option pystr) (file : row)
  (file_name : pystr) (t : target) :
  plan fs confi file file_name = Ret t ->
  exists entries stem,
    Fs.listdir fs (t_dir t) = Ret entries /\
    t_path t =
    OsPath.join2 (t_dir t)
      (stem ++ lit "_" ++ zfill 5 (Z.of_nat (length entries) + 1) ++
       lit "." ++ fmt (c_ext file)).
Proof.
  unfold plan. intros H. plan_cases H; injection H as <-; cbn [t_dir t_path];
    repeat match goal with
           | E : img_path _ _ _ _ _ = Ret _ |- _ =>
               apply img_path_inv in E; destruct E as (? & ? & ->)
           | E : stem_path _ _ _ _ = Ret _ |- _ =>
               apply stem_path_inv in E; destruct E as (? & ? & ->)
           | E : seq5 _ _ = Ret _ |- _ =>
               apply seq5_inv in E; destruct E as (? & ? & ->)
           end;
    try (do 2 eexists; split; [eassumption|reflexivity]).
  exists x2, (lit "IMG_" ++ pick_num file_name ++ lit "_NODT").
  split; [assumption|]. now rewrite <- !app_assoc.
Qed.

(** C7.  Whatever the row, the number in the planned name is one more
    than the number of entries of the target directory at that moment, in
    the format [05]; below 99999 entries these are five digits.  Three
    photos of one classification and date placed in an empty month get
    00001, 00002 and 00003 in the order of the ledger. *)
Theorem sequence_suffix :
  (forall (fs : Fs.t) (confi : option pystr) (file : row)
          (file_name : pystr) (t : target),
      plan fs confi file file_name = Ret t ->
      exists entries stem,
        Fs.listdir fs (t_dir t) = Ret entries /\
        t_path t =
        OsPath.join2 (t_dir t)
          (stem ++ lit "_" ++ zfill 5 (Z.of_nat (length entries) + 1) ++
           lit "." ++ fmt (c_ext file))) /\
  (forall count : nat,
      (Z.of_nat count < 99999)%Z ->
      let n := (Z.of_nat count + 1)%Z in
      zfill 5 n =
      [dg (n / 10000); dg (n / 1000 mod 10); dg (n / 100 mod 10);
       dg (n / 10 mod 10); dg (n mod 10)]) /\
  (exists st,
      reorgnize_file three_photos
        [exif_row (lit "/in/a.jpg"); exif_row (lit "/in/b.jpg");
         exif_row (lit "/in/c.jpg")] false = Ret st /\
      success st = 3%nat /\
      Fs.listdir (fs st) (lit "Photos_bydt/2022/04") =
      Ret [lit "IMG_20220401_152538_EXIF_U_00001.jpg";
           lit "IMG_20220401_152538_EXIF_U_00002.jpg";
           lit "IMG_20220401_152538_EXIF_U_00003.jpg"] /\
      Fs.content (lit "/out/Photos_bydt/2022/04/IMG_20220401_152538_EXIF_U_00002.jpg")
                 (Fs.files (fs st)) = Some (lit "B")).
Proof.
  split; [exact plan_sequence|]. split.
  - intros count Hc n. apply five_digits. lia.
  - eexists. split; [vm_compute; reflexivity|].
    split; [reflexivity|]. split; vm_compute; reflexivity.
Qed.

Lemma sequence_suffix_witness :
  plan three_photos None (exif_row (lit "/in/a.jpg")) (lit "a") =
  Ret {| t_confi := Some (lit "EXIF_U");
         t_dir := lit "Photos_bydt/2022/04";
         t_path := lit "Photos_bydt/2022/04/IMG_20220401_152538_EXIF_U_00001.jpg";
         t_yerr := false |} /\
  exists entries stem,
    Fs.listdir three_photos (lit "Photos_bydt/2022/04") = Ret entries /\
    lit "Photos_bydt/2022/04/IMG_20220401_152538_EXIF_U_00001.jpg" =
    OsPath.join2 (lit "Photos_bydt/2022/04")
      (stem ++ lit "_" ++ zfill 5 (Z.of_nat (length entries) + 1) ++
       lit "." ++ lit "jpg").
Proof.
  split; [vm_compute; reflexivity|].
  exact (proj1 sequence_suffix three_photos None (exif_row (lit "/in/a.jpg"))
           (lit "a") _ ltac:(vm_compute; reflexivity)).
Defined.

(** ** tidy.py: the fragment of an undated name *)

(** When nothing but letters and underscores make the name, the fragment
    is empty. *)
Lemma pick_num_letters_only (fname : pystr) :
  forallb (fun c => han_or_latin c || underscore c) fname = true ->
  pick_num fname = [].
Proof.
  intros H. unfold pick_num. rewrite sub_class, sub_leading_underscores.
  - reflexivity.
  - induction fname as [|c s IH]; [reflexivity|].
    cbn [forallb] in H. apply andb_true_iff in H. destruct H as [Hc Hs].
    cbn [filter]. destruct (han_or_latin c) eqn:E; cbn [negb].
    + now apply IH.
    + cbn [forallb]. cbn [orb] in Hc. rewrite Hc. now apply IH.
Qed.

(** C10 (defect of the code).  The claim: for an undated file whose name
    has no digit the fragment is empty and the name is
    [IMG__NODT_<number>.<ext>]; the docstring of [pick_num] says the same
    (the part from the first digit to the last).  The code: the name
    [my-photo] has no digit, yet its fragment is the hyphen and the
    planned name is [IMG_-_NODT_00001.jpg]. *)
Theorem digit_free_name_keeps_punctuation :
  forallb (fun c => negb (is_decimal c)) (lit "my-photo") = true /\
  pick_num (lit "my-photo") = lit "-" /\
  plan empty_nodt None (blank_row (lit "/home/in/my-photo.jpg")) (lit "my-photo")
  = Ret {| t_confi := None;
           t_dir := lit "Photos_nodt";
           t_path := lit "Photos_nodt/IMG_-_NODT_00001.jpg";
           t_yerr := false |}.
Proof. repeat split; vm_compute; reflexivity. Qed.

(** ** tidy.py: the flag of the command line *)

(** C4 (defect of the code).  The claim: the flag of the command line
    decides between moving and copying.  The code: [reorgnize_file] does
    move when it is given [True] (the source is gone) and copies when it is
    given [False], but [main] passes [remove=False] to it whatever its own
    [remove] is, so a run with the flag set is the run without it: the
    photo is copied and its source stays, and the failure table records
    the copy that was tried for the missing file. *)
Theorem main_ignores_remove_flag :
  (forall (fs : Fs.t) (ledger : option dataframe) (answers : list pystr)
          (this_year : Z) (target_dir : pystr),
      main fs ledger answers this_year target_dir true =
      main fs ledger answers this_year target_dir false) /\
  (exists st,
      main one_photo (Some one_photo_ledger) [lit "NO"] 2022 (lit "out") true
      = Ret st /\
      Fs.content (lit "/home/in/my-photo.jpg") (Fs.files (fs st))
      = Some (lit "A") /\
      Fs.content (lit "/home/out/Photos_nodt/IMG_-_NODT_00001.jpg")
                 (Fs.files (fs st)) = Some (lit "A") /\
      success st = 1%nat /\
      map x_remove (failed_files st) = [false]) /\
  (exists st,
      reorgnize_file nodt_and_photo [blank_row (lit "/in/my-photo.jpg")] true
      = Ret st /\
      Fs.files (fs st) =
      [(lit "/out/Photos_nodt/IMG_-_NODT_00001.jpg", lit "A")]) /\
  (exists st,
      reorgnize_file nodt_and_photo [blank_row (lit "/in/my-photo.jpg")] false
      = Ret st /\
      Fs.files (fs st) =
      [(lit "/in/my-photo.jpg", lit "A");
       (lit "/out/Photos_nodt/IMG_-_NODT_00001.jpg", lit "A")]).
Proof.
  split; [reflexivity|]. split; [|split].
  - eexists. split; [vm_compute; reflexivity|].
    repeat split; vm_compute; reflexivity.
  - eexists. split; vm_compute; reflexivity.
  - eexists. split; vm_compute; reflexivity.
Qed.

(* ================================================================= *)
(** * Further properties of the code *)

(** ** collect.py: the normaliser on dates of the canonical shape *)

(** The rendering of fields as the fourteen digits of the canonical
    shape. *)
Lemma render_canon (year month day hour minute second : Z) :
  (1000 <= year <= 9999)%Z -> (0 <= month <= 99)%Z -> (0 <= day <= 99)%Z ->
  (0 <= hour <= 99)%Z -> (0 <= minute <= 99)%Z -> (0 <= second <= 99)%Z ->
  render year month day hour minute second =
  canon (dg (year / 1000)) (dg (year / 100 mod 10))
        (dg (year / 10 mod 10)) (dg (year mod 10))
        (dg (month / 10)) (dg (month mod 10))
        (dg (day / 10)) (dg (day mod 10))
        (dg (hour / 10)) (dg (hour mod 10))
        (dg (minute / 10)) (dg (minute mod 10))
        (dg (second / 10)) (dg (second mod 10)).
Proof.
  intros. unfold render. rewrite year_digits, !zfill2_digits by lia.
  reflexivity.
Qed.

(** On four digits, a colon, two digits and so on, the fields are read as
    they are written and the checks of [process_datetime] decide. *)
Lemma process_datetime_fields (year month day hour minute second : Z) :
  (1000 <= year <= 9999)%Z -> (0 <= month <= 99)%Z -> (0 <= day <= 99)%Z ->
  (0 <= hour <= 99)%Z -> (0 <= minute <= 99)%Z -> (0 <= second <= 99)%Z ->
  process_datetime (render year month day hour minute second) =
  if ((year <? 1900) || (year >? 2050))%Z then Ret None
  else if ((month <? 1) || (month >? 12))%Z then Ret None
  else if ((day <? 1) || (day >? 31))%Z then Ret None
  else Ret (Some (render year month day (hour mod 24) (minute mod 60)
                         (second mod 60))).
Proof.
  intros Hy Hm Hd Hh Hn Hs.
  pose proof (render_canon year month day hour minute second
                ltac:(lia) ltac:(lia) ltac:(lia) ltac:(lia) ltac:(lia)
                ltac:(lia)) as E.
  assert (D : Forall (fun c => ascii_digit c = true)
                [dg (year / 1000); dg (year / 100 mod 10);
                 dg (year / 10 mod 10); dg (year mod 10);
                 dg (month / 10); dg (month mod 10);
                 dg (day / 10); dg (day mod 10);
                 dg (hour / 10); dg (hour mod 10);
                 dg (minute / 10); dg (minute mod 10);
                 dg (second / 10); dg (second mod 10)]).
  { repeat (apply Forall_cons; [apply dg_digit; lia|]). constructor. }
  unfold process_datetime. rewrite E.
  assert (Hcls : forall c, ascii_digit c = true ->
                 han_or_latin c = false /\ (45 =? c)%N = false /\
                 (47 =? c)%N = false).
  { intros c Hc. apply ascii_digit_class in Hc. tauto. }
  repeat match goal with
         | H : Forall _ (_ :: _) |- _ =>
             apply Forall_cons_iff in H;
             let a := fresh "D" in destruct H as [a H]
         end.
  rewrite sub_class, filter_id.
  2:{ unfold canon. cbn [forallb].
      repeat match goal with
             | |- context [han_or_latin (dg ?k)] =>
                 let H := fresh in
                 destruct (Hcls (dg k)) as (H & _); [assumption|rewrite H; clear H]
             end. reflexivity. }
  change (lit "-") with [45%N]. change (lit ":") with [58%N].
  change (lit "/") with [47%N].
  rewrite !replace_char.
  rewrite (map_id_on (fun c => if (45 =? c)%N then 58%N else c)).
  2:{ unfold canon.
      repeat (apply Forall_cons;
              [first [reflexivity
                     |match goal with
                      | |- context [(45 =? dg ?k)%N] =>
                          let H := fresh in
                          destruct (Hcls (dg k)) as (_ & H & _);
                          [assumption|now rewrite H]
                      end]|]).
      constructor. }
  rewrite (map_id_on (fun c => if (47 =? c)%N then 58%N else c)).
  2:{ unfold canon.
      repeat (apply Forall_cons;
              [first [reflexivity
                     |match goal with
                      | |- context [(47 =? dg ?k)%N] =>
                          let H := fresh in
                          destruct (Hcls (dg k)) as (_ & _ & H);
                          [assumption|now rewrite H]
                      end]|]).
      constructor. }
  rewrite search_canon
    by (cbn [forallb]; rewrite !andb_true_iff; repeat split; assumption).
  cbn [groups group String.eqb Ascii.eqb Bool.eqb].
  rewrite int4 by lia. rewrite !int2 by lia.
  cbn [bind].
  replace (1000 * (year / 1000) + 100 * (year / 100 mod 10) +
           10 * (year / 10 mod 10) + year mod 10)%Z with year by lia.
  replace (10 * (month / 10) + month mod 10)%Z with month by lia.
  replace (10 * (day / 10) + day mod 10)%Z with day by lia.
  replace (10 * (hour / 10) + hour mod 10)%Z with hour by lia.
  replace (10 * (minute / 10) + minute mod 10)%Z with minute by lia.
  replace (10 * (second / 10) + second mod 10)%Z with second by lia.
  assert (W : forall a m : Z, (0 <= a)%Z -> (0 < m)%Z ->
                (if ((a <? 0) || (a >? m - 1))%Z then (a mod m)%Z else a)
                = (a mod m)%Z).
  { intros a m Ha Hm0. destruct ((a <? 0) || (a >? m - 1))%Z eqn:T;
      [reflexivity|]. symmetry. apply Z.mod_small.
    apply orb_false_iff in T. destruct T as [T1 T2]. lia. }
  change 23%Z with (24 - 1)%Z. change 59%Z with (60 - 1)%Z.
  rewrite !W by lia. reflexivity.
Qed.
(** X1.  In a date of the canonical shape whose year, month and day are
    in range, an hour, a minute or a second of two digits that is out of
    range is not refused: it is replaced by its remainder modulo 24 or
    60. *)
Theorem time_fields_wrap :
  forall year month day hour minute second : Z,
    (1900 <= year <= 2050)%Z -> (1 <= month <= 12)%Z -> (1 <= day <= 31)%Z ->
    (0 <= hour <= 99)%Z -> (0 <= minute <= 99)%Z -> (0 <= second <= 99)%Z ->
    process_datetime (render year month day hour minute second) =
    Ret (Some (render year month day (hour mod 24) (minute mod 60)
                      (second mod 60))).
Proof.
  intros year month day hour minute second Hy Hm Hd Hh Hn Hs.
  rewrite process_datetime_fields by lia.
  assert (T : forall a lo hi : Z, (lo <= a <= hi)%Z ->
                ((a <? lo) || (a >? hi))%Z = false).
  { intros a lo hi Ha. lia. }
  rewrite !T by lia. reflexivity.
Qed.

Lemma time_fields_wrap_witness :
  process_datetime (lit "2022:04:01 25:61:75")
  = Ret (Some (lit "2022:04:01 01:01:15")).
Proof.
  exact (time_fields_wrap 2022%Z 4%Z 1%Z 25%Z 61%Z 75%Z
           ltac:(lia) ltac:(lia) ltac:(lia) ltac:(lia) ltac:(lia) ltac:(lia)).
Defined.

(** X2.  A date of the canonical shape whose year is not in 1900..2050,
    whose month is not in 1..12 or whose day is not in 1..31 gives [None],
    whatever its time. *)
Theorem date_fields_refused :
  forall year month day hour minute second : Z,
    (1000 <= year <= 9999)%Z -> (0 <= month <= 99)%Z -> (0 <= day <= 99)%Z ->
    (0 <= hour <= 99)%Z -> (0 <= minute <= 99)%Z -> (0 <= second <= 99)%Z ->
    (year < 1900 \/ 2050 < year \/ month < 1 \/ 12 < month \/
     day < 1 \/ 31 < day)%Z ->
    process_datetime (render year month day hour minute second) = Ret None.
Proof.
  intros year month day hour minute second Hy Hm Hd Hh Hn Hs Hout.
  rewrite process_datetime_fields by lia.
  destruct ((year <? 1900) || (year >? 2050))%Z eqn:Ty; [reflexivity|].
  destruct ((month <? 1) || (month >? 12))%Z eqn:Tm; [reflexivity|].
  destruct ((day <? 1) || (day >? 31))%Z eqn:Td; [reflexivity|].
  apply orb_false_iff in Ty, Tm, Td. lia.
Qed.

Lemma date_fields_refused_witness :
  process_datetime (lit "2051:01:01 00:00:00") = Ret None /\
  process_datetime (lit "2022:13:01 00:00:00") = Ret None /\
  process_datetime (lit "2022:12:32 00:00:00") = Ret None.
Proof.
  split; [|split].
  - exact (date_fields_refused 2051%Z 1%Z 1%Z 0%Z 0%Z 0%Z
             ltac:(lia) ltac:(lia) ltac:(lia) ltac:(lia) ltac:(lia) ltac:(lia)
             ltac:(lia)).
  - exact (date_fields_refused 2022%Z 13%Z 1%Z 0%Z 0%Z 0%Z
             ltac:(lia) ltac:(lia) ltac:(lia) ltac:(lia) ltac:(lia) ltac:(lia)
             ltac:(lia)).
  - exact (date_fields_refused 2022%Z 12%Z 32%Z 0%Z 0%Z 0%Z
             ltac:(lia) ltac:(lia) ltac:(lia) ltac:(lia) ltac:(lia) ltac:(lia)
             ltac:(lia)).
Defined.

Lemma render_length (year month day hour minute second : Z) :
  (1000 <= year <= 9999)%Z -> (0 <= month <= 99)%Z -> (0 <= day <= 99)%Z ->
  (0 <= hour <= 99)%Z -> (0 <= minute <= 99)%Z -> (0 <= second <= 99)%Z ->
  length (render year month day hour minute second) = 19%nat.
Proof.
  intros. unfold render. rewrite year_digits, !zfill2_digits by lia.
  reflexivity.
Qed.

(** Whatever the raw date, a string that the normaliser returns is the
    rendering of fields that are in range. *)
Lemma process_datetime_shape (raw s : pystr) :
  process_datetime raw = Ret (Some s) ->
  exists year month day hour minute second : Z,
    (1900 <= year <= 2050)%Z /\ (1 <= month <= 12)%Z /\
    (1 <= day <= 31)%Z /\ (0 <= hour <= 23)%Z /\
    (0 <= minute <= 59)%Z /\ (0 <= second <= 59)%Z /\
    s = render year month day hour minute second.
Proof.
  unfold process_datetime.
  destruct (Re.search datetime_re _) as [m|]; [|discriminate].
  intros H.
  repeat (apply bind_ret in H; destruct H as (? & ? & H)).
  repeat match goal with
         | H : int _ = Ret ?z |- _ => apply int_nonneg in H
         end.
  repeat match type of H with
         | (if ?b then _ else _) = _ => destruct b eqn:?; [discriminate|]
         end.
  injection H as <-.
  repeat match goal with
         | H : (_ || _)%bool = false |- _ =>
             apply orb_false_iff in H; destruct H
         end.
  match goal with
  | |- context [render ?y ?mo ?d ?h ?mi ?se] =>
      assert (R : (1900 <= y <= 2050)%Z /\ (1 <= mo <= 12)%Z /\
                  (1 <= d <= 31)%Z /\ (0 <= h <= 23)%Z /\
                  (0 <= mi <= 59)%Z /\ (0 <= se <= 59)%Z);
      [|exists y, mo, d, h, mi, se; tauto]
  end.
  repeat match goal with
         | |- context [if ?b then _ else _] => destruct b eqn:?
         end; lia.
Qed.

(** X3.  Whatever the raw date, a string that the normaliser returns is
    the rendering of a year in 1900..2050, a month in 1..12, a day in
    1..31, an hour in 0..23, a minute and a second in 0..59, and has 19
    characters. *)
Theorem normalised_is_canonical :
  forall raw s : pystr,
    process_datetime raw = Ret (Some s) ->
    length s = 19%nat /\
    exists year month day hour minute second : Z,
      (1900 <= year <= 2050)%Z /\ (1 <= month <= 12)%Z /\
      (1 <= day <= 31)%Z /\ (0 <= hour <= 23)%Z /\
      (0 <= minute <= 59)%Z /\ (0 <= second <= 59)%Z /\
      s = render year month day hour minute second.
Proof.
  intros raw s H. pose proof (process_datetime_shape raw s H) as E.
  split; [|exact E].
  destruct E as (y & mo & d & h & mi & se & Hy & Hmo & Hd & Hh & Hmi & Hse & ->).
  apply render_length; lia.
Qed.

Lemma normalised_is_canonical_witness :
  process_datetime (lit "Date: 2022-4-1  7:05:09 PM")
    = Ret (Some (lit "2022:04:01 07:05:09")) /\
  length (lit "2022:04:01 07:05:09") = 19%nat /\
  exists year month day hour minute second : Z,
    (1900 <= year <= 2050)%Z /\ (1 <= month <= 12)%Z /\
    (1 <= day <= 31)%Z /\ (0 <= hour <= 23)%Z /\
    (0 <= minute <= 59)%Z /\ (0 <= second <= 59)%Z /\
    lit "2022:04:01 07:05:09" = render year month day hour minute second.
Proof.
  split; [vm_compute; reflexivity|].
  exact (normalised_is_canonical (lit "Date: 2022-4-1  7:05:09 PM") _
           ltac:(vm_compute; reflexivity)).
Defined.

Lemma filter_map_stable {A : Type} (p : A -> bool) (g : A -> A) (l : list A) :
  (forall a, p a = true -> p (g a) = true) ->
  filter p (map g (filter p l)) = map g (filter p l).
Proof.
  intros Hg. induction l as [|a l IH]; [reflexivity|].
  cbn [filter]. destruct (p a) eqn:E; [|exact IH].
  cbn [map filter]. now rewrite (Hg a E), IH.
Qed.

(** The three first lines of [process_datetime] give [plain]. *)
Lemma cleaning_is_plain (raw : pystr) :
  replace (lit "/") (lit ":")
    (replace (lit "-") (lit ":") (Re.sub (Chr han_or_latin) [] raw))
  = plain raw.
Proof.
  rewrite sub_class.
  change (lit "-") with [45%N]. change (lit ":") with [58%N].
  change (lit "/") with [47%N].
  rewrite !replace_char, map_map. unfold plain. apply map_ext. intros c.
  destruct (N.eqb_spec 45 c) as [<-|H1]; [reflexivity|].
  destruct (N.eqb_spec 47 c) as [<-|H2]; [reflexivity|].
  destruct (N.eqb_spec c 45) as [->|_]; [contradiction|].
  destruct (N.eqb_spec c 47) as [->|_]; [contradiction|]. reflexivity.
Qed.

Lemma plain_plain (raw : pystr) : plain (plain raw) = plain raw.
Proof.
  unfold plain at 1.
  assert (E : filter (fun c => negb (han_or_latin c)) (plain raw) = plain raw).
  { unfold plain. apply filter_map_stable. intros c Hc.
    destruct ((c =? 45)%N || (c =? 47)%N); [reflexivity|exact Hc]. }
  rewrite E. unfold plain. rewrite map_map. apply map_ext. intros c.
  destruct (N.eqb_spec c 45) as [->|H1]; [reflexivity|].
  destruct (N.eqb_spec c 47) as [->|H2]; [reflexivity|].
  cbn [orb]. destruct (N.eqb_spec c 45) as [->|_]; [contradiction|].
  destruct (N.eqb_spec c 47) as [->|_]; [contradiction|]. reflexivity.
Qed.

(** X4.  The normaliser does not see the Chinese and Latin letters of a
    raw date, and takes a hyphen or a slash for a colon: two raw dates
    that differ in these only get the same result, and the cleaned date
    is one of them. *)
Theorem letters_and_separators_ignored :
  forall a b : pystr,
    plain a = plain b ->
    process_datetime a = process_datetime b /\
    process_datetime (plain a) = process_datetime a.
Proof.
  intros a b E. unfold process_datetime.
  rewrite !cleaning_is_plain, plain_plain, E. split; reflexivity.
Qed.

Lemma letters_and_separators_ignored_witness :
  process_datetime (lit "2022-04-01 15:25:38") =
  process_datetime (lit "2022/04/01 15:25:38" ++ [19979; 21320]%N) /\
  process_datetime (plain (lit "2022-04-01 15:25:38")) =
  process_datetime (lit "2022-04-01 15:25:38").
Proof.
  exact (letters_and_separators_ignored
           (lit "2022-04-01 15:25:38")
           (lit "2022/04/01 15:25:38" ++ [19979; 21320]%N)
           ltac:(vm_compute; reflexivity)).
Defined.

(** ** The [time] module on dates of the canonical shape *)

(** When the first way of [r1] can be continued by [r2], the first way of
    their concatenation is this one. *)
Lemma rmatch_cat_first (bos : bool) (r1 r2 : regex) (s : pystr)
  (m1 m2 : found) :
  (exists l1, rmatch bos r1 s = m1 :: l1) ->
  (forall b, exists l2, rmatch b r2 (rest m1) = m2 :: l2) ->
  exists l, rmatch bos (Cat r1 r2) s = then_ m1 m2 :: l.
Proof.
  intros [l1 H1] H2. cbn [rmatch]. rewrite H1. cbn [flat_map].
  destruct (H2 (bos && negb (truthy (text m1)))) as [l2 ->].
  cbn [map app]. eauto.
Qed.

Lemma in_interval (v lo : Z) (n : nat) :
  (lo <= v < lo + Z.of_nat n)%Z ->
  In v (map (fun i => (lo + Z.of_nat i)%Z) (seq 0 n)).
Proof.
  intros H. apply in_map_iff. exists (Z.to_nat (v - lo)).
  split; [lia|]. apply in_seq. lia.
Qed.

Ltac each_value v lo n :=
  let H := fresh "H" in
  assert (H : In v (map (fun i => (lo + Z.of_nat i)%Z) (seq 0 n)))
    by (apply in_interval; lia);
  cbv [seq map] in H; cbn [In] in H;
  repeat (destruct H as [H|H];
          [rewrite <- H; vm_compute; eexists; reflexivity|]);
  contradiction.

Lemma field_month (v : Z) (bos : bool) (t : pystr) :
  (1 <= v <= 12)%Z ->
  exists l,
    rmatch bos
      (Grp "m" (alts [Cat (dig 1) (cls 0 2); Cat (dig 0) (cls 1 9); cls 1 9]))
      (dg (v / 10) :: dg (v mod 10) :: t)
    = two "m" v t :: l.
Proof. intros Hv. each_value v 1%Z 12%nat. Qed.

Lemma field_day (v : Z) (bos : bool) (t : pystr) :
  (1 <= v <= 31)%Z ->
  exists l,
    rmatch bos
      (Grp "d" (alts [Cat (dig 3) (cls 0 1); Cat (cls 1 2) digit;
                      Cat (dig 0) (cls 1 9); cls 1 9; Cat (chr 32) (cls 1 9)]))
      (dg (v / 10) :: dg (v mod 10) :: t)
    = two "d" v t :: l.
Proof. intros Hv. each_value v 1%Z 31%nat. Qed.

Lemma field_hour (v : Z) (bos : bool) (t : pystr) :
  (0 <= v <= 23)%Z ->
  exists l,
    rmatch bos
      (Grp "H" (alts [Cat (dig 2) (cls 0 3); Cat (cls 0 1) digit; digit]))
      (dg (v / 10) :: dg (v mod 10) :: t)
    = two "H" v t :: l.
Proof. intros Hv. each_value v 0%Z 24%nat. Qed.

Lemma field_minute (v : Z) (bos : bool) (t : pystr) :
  (0 <= v <= 59)%Z ->
  exists l,
    rmatch bos (Grp "M" (alts [Cat (cls 0 5) digit; digit]))
      (dg (v / 10) :: dg (v mod 10) :: t)
    = two "M" v t :: l.
Proof. intros Hv. each_value v 0%Z 60%nat. Qed.

Lemma field_second (v : Z) (bos : bool) (t : pystr) :
  (0 <= v <= 59)%Z ->
  exists l,
    rmatch bos
      (Grp "S" (alts [Cat (dig 6) (cls 0 1); Cat (cls 0 5) digit; digit]))
      (dg (v / 10) :: dg (v mod 10) :: t)
    = two "S" v t :: l.
Proof. intros Hv. each_value v 0%Z 60%nat. Qed.

Lemma field_year (a b c d : N) (bos : bool) (t : pystr) :
  ascii_digit a = true -> ascii_digit b = true ->
  ascii_digit c = true -> ascii_digit d = true ->
  exists l,
    rmatch bos (Grp "Y" (cats [digit; digit; digit; digit]))
      (a :: b :: c :: d :: t)
    = {| groups := [("Y"%string, [a; b; c; d])]; text := [a; b; c; d];
         rest := t |} :: l.
Proof.
  intros Ha Hb Hc Hd.
  apply ascii_digit_class in Ha, Hb, Hc, Hd.
  destruct Ha as (_ & Ha & _), Hb as (_ & Hb & _), Hc as (_ & Hc & _),
           Hd as (_ & Hd & _).
  unfold digit.
  cbn [cats rmatch flat_map map app then_ text rest groups truthy andb negb].
  rewrite Ha. cbn [flat_map map app then_ text rest groups truthy andb negb].
  rewrite Hb. cbn [flat_map map app then_ text rest groups truthy andb negb].
  rewrite Hc. cbn [flat_map map app then_ text rest groups truthy andb negb].
  rewrite Hd. cbn [flat_map map app then_ text rest groups truthy andb negb].
  eauto.
Qed.

Lemma field_colon (bos : bool) (t : pystr) :
  exists l,
    rmatch bos (chr 58) (58%N :: t)
    = {| groups := []; text := [58%N]; rest := t |} :: l.
Proof. cbn. eauto. Qed.

Lemma field_blank (k : Z) (bos : bool) (t : pystr) :
  (0 <= k <= 9)%Z ->
  exists l,
    rmatch bos (plus is_space) (32%N :: dg k :: t)
    = {| groups := []; text := [32%N]; rest := dg k :: t |} :: l.
Proof.
  intros Hk. pose proof (ascii_digit_class _ (dg_digit k Hk)) as (_ & _ & E & _).
  unfold plus. cbn [rmatch]. change (is_space 32) with true.
  cbn [flat_map text rest truthy andb negb stars]. rewrite E.
  cbn [map app then_ groups text rest]. eauto.
Qed.

(** The first way the pattern of [%Y:%m:%d %H:%M:%S] matches a date of the
    canonical shape takes it all. *)
Lemma strptime_re_canon (y1 y2 y3 y4 : N) (month day hour minute second : Z) :
  ascii_digit y1 = true -> ascii_digit y2 = true ->
  ascii_digit y3 = true -> ascii_digit y4 = true ->
  (1 <= month <= 12)%Z -> (1 <= day <= 31)%Z -> (0 <= hour <= 23)%Z ->
  (0 <= minute <= 59)%Z -> (0 <= second <= 59)%Z ->
  re_match strptime_re
    (canon y1 y2 y3 y4 (dg (month / 10)) (dg (month mod 10))
           (dg (day / 10)) (dg (day mod 10))
           (dg (hour / 10)) (dg (hour mod 10))
           (dg (minute / 10)) (dg (minute mod 10))
           (dg (second / 10)) (dg (second mod 10)))
  = Some {| groups :=
              [ ("S"%string, [dg (second / 10); dg (second mod 10)]);
                ("M"%string, [dg (minute / 10); dg (minute mod 10)]);
                ("H"%string, [dg (hour / 10); dg (hour mod 10)]);
                ("d"%string, [dg (day / 10); dg (day mod 10)]);
                ("m"%string, [dg (month / 10); dg (month mod 10)]);
                ("Y"%string, [y1; y2; y3; y4]) ];
            text :=
              canon y1 y2 y3 y4 (dg (month / 10)) (dg (month mod 10))
                    (dg (day / 10)) (dg (day mod 10))
                    (dg (hour / 10)) (dg (hour mod 10))
                    (dg (minute / 10)) (dg (minute mod 10))
                    (dg (second / 10)) (dg (second mod 10));
            rest := [] |}.
Proof.
  intros H1 H2 H3 H4 Hm Hd Hh Hn Hs.
  pose proof (fun b => field_second second b [] Hs) as S.
  pose proof (fun b => rmatch_cat_first b _ _ _ _ _ (field_colon b _) S) as S1.
  cbn [rest] in S1.
  pose proof (fun b => rmatch_cat_first b _ _ _ _ _
                         (field_minute minute b _ Hn) S1) as S2.
  cbn [rest two] in S2.
  pose proof (fun b => rmatch_cat_first b _ _ _ _ _ (field_colon b _) S2) as S3.
  cbn [rest] in S3.
  pose proof (fun b => rmatch_cat_first b _ _ _ _ _
                         (field_hour hour b _ Hh) S3) as S4.
  cbn [rest two] in S4.
  pose proof (fun b => rmatch_cat_first b _ _ _ _ _
                         (field_blank (hour / 10) b _ ltac:(lia)) S4) as S5.
  cbn [rest] in S5.
  pose proof (fun b => rmatch_cat_first b _ _ _ _ _
                         (field_day day b _ Hd) S5) as S6.
  cbn [rest two] in S6.
  pose proof (fun b => rmatch_cat_first b _ _ _ _ _ (field_colon b _) S6) as S7.
  cbn [rest] in S7.
  pose proof (fun b => rmatch_cat_first b _ _ _ _ _
                         (field_month month b _ Hm) S7) as S8.
  cbn [rest two] in S8.
  pose proof (fun b => rmatch_cat_first b _ _ _ _ _ (field_colon b _) S8) as S9.
  cbn [rest] in S9.
  pose proof (rmatch_cat_first true _ _ _ _ _
                (field_year y1 y2 y3 y4 true _ H1 H2 H3 H4) S9) as S10.
  destruct S10 as [l E]. unfold re_match.
  etransitivity; [apply (f_equal (@hd_error found)); exact E|reflexivity].
Qed.

(** [time.strptime] reads a date of the canonical shape as it is written
    and asks the calendar only whether the month has the day. *)
Lemma strptime_render (year month day hour minute second : Z) :
  (1000 <= year <= 9999)%Z -> (1 <= month <= 12)%Z -> (1 <= day <= 31)%Z ->
  (0 <= hour <= 23)%Z -> (0 <= minute <= 59)%Z -> (0 <= second <= 59)%Z ->
  strptime (render year month day hour minute second) =
  if (day <=? days_in_month year month)%Z
  then Ret {| tm_year := year; tm_mon := month; tm_mday := day;
              tm_hour := hour; tm_min := minute; tm_sec := second |}
  else Raise ValueError.
Proof.
  intros Hy Hm Hd Hh Hn Hs.
  rewrite render_canon by lia. unfold strptime.
  rewrite strptime_re_canon by (try apply dg_digit; lia).
  cbn [rest groups group String.eqb Ascii.eqb Bool.eqb].
  rewrite int4 by lia. rewrite !int2 by lia. cbn [bind].
  replace (1000 * (year / 1000) + 100 * (year / 100 mod 10) +
           10 * (year / 10 mod 10) + year mod 10)%Z with year by lia.
  replace (10 * (month / 10) + month mod 10)%Z with month by lia.
  replace (10 * (day / 10) + day mod 10)%Z with day by lia.
  replace (10 * (hour / 10) + hour mod 10)%Z with hour by lia.
  replace (10 * (minute / 10) + minute mod 10)%Z with minute by lia.
  replace (10 * (second / 10) + second mod 10)%Z with second by lia.
  unfold date_ok.
  replace (1 <=? year)%Z with true by lia.
  replace (year <=? 9999)%Z with true by lia.
  replace (1 <=? month)%Z with true by lia.
  replace (month <=? 12)%Z with true by lia.
  replace (1 <=? day)%Z with true by lia.
  reflexivity.
Qed.

(** ** collect.py: what the extractors record *)

Lemma find_first {A : Type} (f : A -> bool) (pre post : list A) (a : A) :
  (forall x, In x pre -> f x = false) -> f a = true ->
  find f (pre ++ a :: post) = Some a.
Proof.
  intros Hpre Ha. induction pre as [|x pre IH]; cbn [app find].
  - now rewrite Ha.
  - rewrite (Hpre x) by now left. apply IH. intros y Hy. apply Hpre. now right.
Qed.

Lemma find_none_all {A : Type} (f : A -> bool) (l : list A) :
  (forall x, In x l -> f x = false) -> find f l = None.
Proof.
  intros H. induction l as [|x l IH]; [reflexivity|]. cbn [find].
  rewrite (H x) by now left. apply IH. intros y Hy. apply H. now right.
Qed.

Lemma find_meta_first (pre post tags_pre tags_post : list pystr)
  (k tag : pystr) :
  (forall k' t, In k' pre -> In t (tags_pre ++ tag :: tags_post) ->
                startswith k' t = false) ->
  (forall t, In t tags_pre -> startswith k t = false) ->
  startswith k tag = true ->
  find_meta (pre ++ k :: post) (tags_pre ++ tag :: tags_post) = Some (k, tag).
Proof.
  intros Hpre Ht Hk. induction pre as [|k' pre IH]; cbn [app find_meta].
  - now rewrite (find_first (startswith k) tags_pre tags_post tag Ht Hk).
  - rewrite find_none_all by (intros t Hin; apply Hpre; [now left|exact Hin]).
    apply IH. intros k'' t Hk'' Hin. apply Hpre; [now right|exact Hin].
Qed.

Lemma truthy_render (year month day hour minute second : Z) :
  truthy (render year month day hour minute second) = true.
Proof.
  unfold render. rewrite !truthy_app. change (truthy (lit ":")) with true.
  now rewrite !orb_true_r.
Qed.

(** The part that the extractors share, on a raw date that the normaliser
    accepts: the date is recorded when the month has the day, and
    [ValueError] escapes otherwise. *)
Lemma fill_msg_normalised (msg : dt_msg) (k raw p : pystr) :
  process_datetime raw = Ret (Some p) ->
  exists year month day hour minute second : Z,
    (1900 <= year <= 2050)%Z /\ (1 <= month <= 12)%Z /\
    (1 <= day <= 31)%Z /\ (0 <= hour <= 23)%Z /\
    (0 <= minute <= 59)%Z /\ (0 <= second <= 59)%Z /\
    p = render year month day hour minute second /\
    fill_msg msg k raw =
    if (day <=? days_in_month year month)%Z
    then Ret (recorded (type msg) k raw year month day hour minute second)
    else Raise ValueError.
Proof.
  intros H.
  destruct (process_datetime_shape raw p H)
    as (y & mo & d & h & mi & se & Hy & Hmo & Hd & Hh & Hmi & Hse & ->).
  exists y, mo, d, h, mi, se. repeat (split; [assumption|]).
  split; [reflexivity|].
  unfold fill_msg. rewrite H. cbn [bind otruthy]. rewrite truthy_render.
  rewrite strptime_render by lia.
  destruct (d <=? days_in_month y mo)%Z; reflexivity.
Qed.

(** X5.  [get_exif_datetime] reads the first of its keys that the tags
    have, whatever the order of the tags.  When the normaliser accepts
    its value, the fields of the normalised date are in range and the
    outcome is decided by the calendar alone: status ['0'] with the short
    form [YYYY/MM] and the long form [YYYYMMDD_HHMMSS] when the month has
    the day, and the [ValueError] of [time.strptime] otherwise. *)
Theorem exif_date_recorded :
  forall (exif_tags : exif_dict) (pre post : list pystr)
         (datetime_key raw_datetime pro_datetime : pystr),
    (forall k, In k pre -> dict_in k exif_tags = false) ->
    dict_get datetime_key exif_tags = Some raw_datetime ->
    datetime_key <> [] ->
    process_datetime raw_datetime = Ret (Some pro_datetime) ->
    exists year month day hour minute second : Z,
      (1900 <= year <= 2050)%Z /\ (1 <= month <= 12)%Z /\
      (1 <= day <= 31)%Z /\ (0 <= hour <= 23)%Z /\
      (0 <= minute <= 59)%Z /\ (0 <= second <= 59)%Z /\
      pro_datetime = render year month day hour minute second /\
      get_exif_datetime (Some exif_tags) (pre ++ datetime_key :: post) =
      if (day <=? days_in_month year month)%Z
      then Ret (recorded SrcEXIF datetime_key raw_datetime
                         year month day hour minute second)
      else Raise ValueError.
Proof.
  intros exif_tags pre post k raw p Hpre Hget Hk Hp.
  destruct (fill_msg_normalised (init_msg SrcEXIF) k raw p Hp)
    as (y & mo & d & h & mi & se & Hy & Hmo & Hd & Hh & Hmi & Hse & E & F).
  exists y, mo, d, h, mi, se. repeat (split; [assumption|]).
  unfold get_exif_datetime.
  destruct exif_tags as [|kv exif_tags]; [discriminate|].
  rewrite (find_first (fun k => dict_in k (kv :: exif_tags)) pre post k Hpre)
    by (unfold dict_in; now rewrite Hget).
  destruct k as [|c k]; [contradiction|]. cbn [truthy].
  rewrite Hget. exact F.
Qed.

Lemma exif_date_recorded_witness :
  get_exif_datetime (Some two_exif_tags) Collect._EXIF_KEYS =
  Ret (recorded SrcEXIF (lit "EXIF DateTimeOriginal")
                (lit "2022/04/01 15:25:38") 2022 4 1 15 25 38) /\
  exists year month day hour minute second : Z,
    (1900 <= year <= 2050)%Z /\ (1 <= month <= 12)%Z /\
    (1 <= day <= 31)%Z /\ (0 <= hour <= 23)%Z /\
    (0 <= minute <= 59)%Z /\ (0 <= second <= 59)%Z /\
    lit "2022:04:01 15:25:38" = render year month day hour minute second /\
    get_exif_datetime (Some two_exif_tags)
      ([] ++ lit "EXIF DateTimeOriginal" ::
       [lit "EXIF DateTimeDigitized"; lit "Image DateTime"]) =
    if (day <=? days_in_month year month)%Z
    then Ret (recorded SrcEXIF (lit "EXIF DateTimeOriginal")
                       (lit "2022/04/01 15:25:38")
                       year month day hour minute second)
    else Raise ValueError.
Proof.
  split; [vm_compute; reflexivity|].
  exact (exif_date_recorded two_exif_tags []
           [lit "EXIF DateTimeDigitized"; lit "Image DateTime"]
           (lit "EXIF DateTimeOriginal") (lit "2022/04/01 15:25:38")
           (lit "2022:04:01 15:25:38")
           ltac:(intros k [])
           ltac:(vm_compute; reflexivity) ltac:(discriminate)
           ltac:(vm_compute; reflexivity)).
Defined.

(** X6.  [get_meta_datetime] takes the first of its keys that some line
    starts with and the first such line, and reads the date from the line
    without the key and its colon.  From there on the outcome is the one
    of the EXIF side. *)
Theorem meta_date_recorded :
  forall (pre post tags_pre tags_post : list pystr)
         (datetime_key key_tag pro_datetime : pystr),
    (forall k t, In k pre -> In t (tags_pre ++ key_tag :: tags_post) ->
                 startswith k t = false) ->
    (forall t, In t tags_pre -> startswith datetime_key t = false) ->
    startswith datetime_key key_tag = true ->
    datetime_key <> [] ->
    let raw_datetime := replace (datetime_key ++ lit ": ") [] key_tag in
    process_datetime raw_datetime = Ret (Some pro_datetime) ->
    exists year month day hour minute second : Z,
      (1900 <= year <= 2050)%Z /\ (1 <= month <= 12)%Z /\
      (1 <= day <= 31)%Z /\ (0 <= hour <= 23)%Z /\
      (0 <= minute <= 59)%Z /\ (0 <= second <= 59)%Z /\
      pro_datetime = render year month day hour minute second /\
      get_meta_datetime (Some (tags_pre ++ key_tag :: tags_post))
                        (pre ++ datetime_key :: post) =
      if (day <=? days_in_month year month)%Z
      then Ret (recorded SrcMETA datetime_key raw_datetime
                         year month day hour minute second)
      else Raise ValueError.
Proof.
  intros pre post tags_pre tags_post k tag p Hpre Ht Hs Hk raw Hp.
  destruct (fill_msg_normalised (init_msg SrcMETA) k raw p Hp)
    as (y & mo & d & h & mi & se & Hy & Hmo & Hd & Hh & Hmi & Hse & E & F).
  exists y, mo, d, h, mi, se. repeat (split; [assumption|]).
  unfold get_meta_datetime.
  rewrite (find_meta_first pre post tags_pre tags_post k tag Hpre Ht Hs).
  destruct k as [|c k]; [contradiction|].
  destruct tag as [|c' tag]; [discriminate|].
  destruct tags_pre; exact F.
Qed.

Lemma meta_date_recorded_witness :
  get_meta_datetime (Some two_meta_tags) Collect._META_KEYS =
  Ret (recorded SrcMETA (lit "Date-time digitized")
                (lit "2022-04-01 15:25:38") 2022 4 1 15 25 38) /\
  exists year month day hour minute second : Z,
    (1900 <= year <= 2050)%Z /\ (1 <= month <= 12)%Z /\
    (1 <= day <= 31)%Z /\ (0 <= hour <= 23)%Z /\
    (0 <= minute <= 59)%Z /\ (0 <= second <= 59)%Z /\
    lit "2022:04:01 15:25:38" = render year month day hour minute second /\
    get_meta_datetime
      (Some ([lit "Metadata:"; lit "Creation date: 2021-03-01 00:00:00"] ++
             lit "Date-time digitized: 2022-04-01 15:25:38" :: []))
      ([lit "Date-time original"] ++ lit "Date-time digitized" ::
       [lit "Creation date"]) =
    if (day <=? days_in_month year month)%Z
    then Ret (recorded SrcMETA (lit "Date-time digitized")
                (replace (lit "Date-time digitized" ++ lit ": ") []
                         (lit "Date-time digitized: 2022-04-01 15:25:38"))
                year month day hour minute second)
    else Raise ValueError.
Proof.
  split; [vm_compute; reflexivity|].
  refine (meta_date_recorded
            [lit "Date-time original"] [lit "Creation date"]
            [lit "Metadata:"; lit "Creation date: 2021-03-01 00:00:00"] []
            (lit "Date-time digitized")
            (lit "Date-time digitized: 2022-04-01 15:25:38")
            (lit "2022:04:01 15:25:38") _ _ _ _ _).
  - intros k t [<-|[]] [<-|[<-|[<-|[]]]]; vm_compute; reflexivity.
  - intros t [<-|[<-|[]]]; vm_compute; reflexivity.
  - vm_compute. reflexivity.
  - discriminate.
  - vm_compute. reflexivity.
Defined.

Lemma fill_msg_all_or_nothing (keys : list pystr) (ty : source)
  (k raw : pystr) (m : dt_msg) :
  In k keys ->
  fill_msg (init_msg ty) k raw = Ret m ->
  type m = ty /\ all_or_nothing keys m /\
  (stat m = OK \/ stat m = INVALID_DATE).
Proof.
  intros Hk H.
  destruct (process_datetime raw) as [[p|]|e] eqn:Hp.
  - destruct (fill_msg_normalised (init_msg ty) k raw p Hp)
      as (y & mo & d & h & mi & se & Hy & Hmo & Hd & Hh & Hmi & Hse & _ & F).
    rewrite F in H.
    destruct (d <=? days_in_month y mo)%Z eqn:Hdim; [|discriminate].
    injection H as <-. split; [reflexivity|]. split; [|now left].
    red. cbn [stat recorded type init_msg].
    exists k, raw, y, mo, d, h, mi, se.
    repeat (split; [first [assumption|lia]|]). reflexivity.
  - unfold fill_msg in H. rewrite Hp in H. cbn in H. injection H as <-.
    split; [reflexivity|]. split; [|now right]. red. cbn. tauto.
  - unfold fill_msg in H. rewrite Hp in H. discriminate.
Qed.

Lemma exif_all_or_nothing (exif_tags : option exif_dict)
  (exif_keys : list pystr) (m : dt_msg) :
  get_exif_datetime exif_tags exif_keys = Ret m ->
  type m = SrcEXIF /\ all_or_nothing exif_keys m /\
  (stat m = UNREADABLE <-> exif_tags = None) /\
  (stat m = NO_TAGS <-> exif_tags = Some []).
Proof.
  intros H. unfold get_exif_datetime in H.
  destruct exif_tags as [[|kv tags]|];
    try (injection H as <-; cbn; repeat split; try tauto;
         intros; discriminate).
  destruct (find _ exif_keys) as [k|] eqn:Hf;
    try (injection H as <-; cbn; repeat split; try tauto;
         intros; discriminate).
  apply find_some in Hf. destruct Hf as [Hk _].
  destruct (truthy k);
    try (injection H as <-; cbn; repeat split; try tauto;
         intros; discriminate).
  destruct (dict_get k (kv :: tags)) as [raw|]; [|discriminate].
  apply (fill_msg_all_or_nothing exif_keys) in H; [|exact Hk].
  destruct H as (Ht & Ha & Hs). repeat split; try assumption;
    intros E; try discriminate; destruct Hs as [Hs|Hs]; congruence.
Qed.

Lemma meta_all_or_nothing (meta_tags : option (list pystr))
  (meta_keys : list pystr) (m : dt_msg) :
  get_meta_datetime meta_tags meta_keys = Ret m ->
  type m = SrcMETA /\ all_or_nothing meta_keys m /\
  (stat m = UNREADABLE <-> meta_tags = None) /\
  (stat m = NO_TAGS <-> meta_tags = Some []).
Proof.
  intros H. unfold get_meta_datetime in H.
  destruct meta_tags as [[|tag tags]|];
    try (injection H as <-; cbn; repeat split; try tauto;
         intros; discriminate).
  destruct (find_meta meta_keys (tag :: tags)) as [[k key_tag]|] eqn:Hf;
    try (injection H as <-; cbn; repeat split; try tauto;
         intros; discriminate).
  apply find_meta_in in Hf.
  destruct (truthy k && truthy key_tag);
    try (injection H as <-; cbn; repeat split; try tauto;
         intros; discriminate).
  apply (fill_msg_all_or_nothing meta_keys) in H; [|exact Hf].
  destruct H as (Ht & Ha & Hs). repeat split; try assumption;
    intros E; try discriminate; destruct Hs as [Hs|Hs]; congruence.
Qed.

(** X7.  Whatever the tags and the keys, a dictionary that an extractor
    returns holds a whole date or none: with the status ['0'] its key is
    one of the keys asked for and its short and long forms are those of a
    date of the calendar between 1900 and 2050; with any other status
    key, raw, short and long are all [None].  The status is ['1'] exactly
    when the decoder failed and ['2'] exactly when it found no tag. *)
Theorem extractors_all_or_nothing :
  forall (exif_tags : option exif_dict) (meta_tags : option (list pystr))
         (exif_keys meta_keys : list pystr),
    (forall m, get_exif_datetime exif_tags exif_keys = Ret m ->
       type m = SrcEXIF /\ all_or_nothing exif_keys m /\
       (stat m = UNREADABLE <-> exif_tags = None) /\
       (stat m = NO_TAGS <-> exif_tags = Some [])) /\
    (forall m, get_meta_datetime meta_tags meta_keys = Ret m ->
       type m = SrcMETA /\ all_or_nothing meta_keys m /\
       (stat m = UNREADABLE <-> meta_tags = None) /\
       (stat m = NO_TAGS <-> meta_tags = Some [])).
Proof.
  intros exif_tags meta_tags exif_keys meta_keys. split; intros m H.
  - now apply exif_all_or_nothing.
  - now apply meta_all_or_nothing.
Qed.

Lemma extractors_all_or_nothing_witness :
  get_exif_datetime (Some two_exif_tags) Collect._EXIF_KEYS =
  Ret (recorded SrcEXIF (lit "EXIF DateTimeOriginal")
                (lit "2022/04/01 15:25:38") 2022 4 1 15 25 38) /\
  all_or_nothing Collect._EXIF_KEYS
    (recorded SrcEXIF (lit "EXIF DateTimeOriginal")
              (lit "2022/04/01 15:25:38") 2022 4 1 15 25 38) /\
  get_meta_datetime (Some [lit "Metadata:"]) Collect._META_KEYS =
  Ret (set_stat NO_DATE_FIELD (init_msg SrcMETA)) /\
  all_or_nothing Collect._META_KEYS (set_stat NO_DATE_FIELD (init_msg SrcMETA)).
Proof.
  destruct (extractors_all_or_nothing (Some two_exif_tags)
              (Some [lit "Metadata:"]) Collect._EXIF_KEYS Collect._META_KEYS)
    as [He Hm].
  split; [vm_compute; reflexivity|].
  split; [exact (proj1 (proj2 (He _ ltac:(vm_compute; reflexivity))))|].
  split; [vm_compute; reflexivity|].
  exact (proj1 (proj2 (Hm _ ltac:(vm_compute; reflexivity)))).
Defined.

(** ** collect.py: the records that pass the year gate *)

Lemma year_of_year (year : Z) (tail : pystr) :
  (1 <= year <= 9999)%Z ->
  year_of (Some (str_of_Z year ++ 47%N :: tail)) = Ret year.
Proof.
  intros Hy. destruct (year_text year Hy) as [H1 H2].
  unfold year_of. now rewrite split_head.
Qed.

Lemma dg_inj (a b : Z) : (0 <= a)%Z -> (0 <= b)%Z -> dg a = dg b -> a = b.
Proof. unfold dg. lia. Qed.

(** The long form tells the year and the month. *)
Lemma long_inj (y y' mo mo' : Z) (a a' : pystr) :
  (1000 <= y <= 9999)%Z -> (1000 <= y' <= 9999)%Z ->
  (0 <= mo <= 99)%Z -> (0 <= mo' <= 99)%Z ->
  str_of_Z y ++ zfill 2 mo ++ a = str_of_Z y' ++ zfill 2 mo' ++ a' ->
  y = y' /\ mo = mo'.
Proof.
  intros Hy Hy' Hm Hm'. rewrite !year_digits, !zfill2_digits by lia.
  cbn [app]. intros E. injection E as E1 E2 E3 E4 E5 E6 _.
  apply dg_inj in E1, E2, E3, E4, E5, E6; lia.
Qed.

Lemma truthy_long (y mo d h mi s : Z) :
  truthy (str_of_Z y ++ zfill 2 mo ++ zfill 2 d ++ 95%N ::
          zfill 2 h ++ zfill 2 mi ++ zfill 2 s) = true.
Proof.
  rewrite !truthy_app. cbn [truthy]. now rewrite !orb_true_r.
Qed.

Ltac split_all_or_nothing H :=
  red in H; cbn [stat type key raw short long] in H;
  first [ destruct H as (? & ? & ? & ? & ? & ? & ? & ? & ? & ? & ? & ? & ?
                         & ? & ? & H);
          unfold recorded in H; injection H as -> -> -> ->
        | destruct H as (-> & -> & -> & ->) ].

Lemma resolve_gated (exif_keys meta_keys : list pystr) (exif_dt meta_dt : dt_msg)
  (begin_year this_year : Z) (final : file_msg) (c : chk) :
  all_or_nothing exif_keys exif_dt -> all_or_nothing meta_keys meta_dt ->
  resolve exif_dt meta_dt begin_year this_year = Ret final ->
  check final = Some c -> c <> D_ERR -> c <> Y_ERR ->
  exists year month : Z,
    (begin_year <= year <= this_year)%Z /\ (1900 <= year <= 2050)%Z /\
    (1 <= month <= 12)%Z /\
    match c with META => META_S final | _ => EXIF_S final end
    = Some (str_of_Z year ++ lit "/" ++ zfill 2 month) /\
    (c = BOTH -> META_S final = EXIF_S final /\ META_L final = EXIF_L final).
Proof.
  intros Ae Am Hr Hc Hd Hy.
  destruct exif_dt as [se te ke re she le], meta_dt as [sm tm km rm shm lm].
  destruct se, sm; split_all_or_nothing Ae; split_all_or_nothing Am;
    unfold resolve, merge, recorded in Hr;
    cbn [stat short long key raw bind fst snd dated check
         EXIF_K EXIF_R EXIF_S EXIF_L META_K META_R META_S META_L
         init_file_msg] in Hr;
    rewrite ?year_of_year in Hr by lia;
    cbn [stat short long key raw bind fst snd dated check
         EXIF_K EXIF_R EXIF_S EXIF_L META_K META_R META_S META_L
         init_file_msg] in Hr;
    try (injection Hr as <-; discriminate Hc);
    unfold classify, year_gate in Hr;
    cbn [EXIF_L META_L otruthy] in Hr;
    rewrite ?truthy_long in Hr; cbn [andb] in Hr.
  all: repeat match type of Hr with
              | context [str_eqb ?a ?b] => destruct (str_eqb a b) eqn:?
              end;
       cbn [chk_eqb orb bind] in Hr;
       repeat match type of Hr with
              | context [if ?g then _ else _] => destruct g eqn:?
              end;
       cbn [bind] in Hr; injection Hr as <-;
       cbn [check set_check] in Hc; injection Hc as <-;
       try contradiction.
  all: cbn [set_check EXIF_S META_S EXIF_L META_L].
  all: try match goal with
           | E : str_eqb _ _ = true |- _ =>
               apply str_eqb_eq in E; pose proof E as E';
               apply long_inj in E'; [destruct E' as [-> ->]|lia..]
           end.
  all: match goal with
       | |- context [Some (str_of_Z ?y ++ 47%N :: zfill 2 ?mo) = _] =>
           exists y, mo
       end;
       (split; [lia|]); (split; [lia|]); (split; [lia|]);
       (split; [reflexivity|]); intros;
       first [discriminate | (split; [reflexivity|congruence])].
Qed.

(** X8.  A record that [get_datetime] returns with the check [BOTH],
    [EXIF] or [META] has passed the year gate: the short form that tidy.py
    files it under ([EXIF] short date for [BOTH] and [EXIF], [META] short
    date for [META]) is [YYYY/MM] with a year between the floor year and
    the current year and a month in 1..12.  For [BOTH] the two sources
    have the same short and long forms, so that the year the gate tests
    (the one of META) is the year of the directory. *)
Theorem gated_record_has_a_month :
  forall (exif_tags : option exif_dict) (meta_tags : option (list pystr))
         (begin_year this_year : Z) (final : file_msg) (c : chk),
    get_datetime exif_tags meta_tags begin_year this_year = Ret final ->
    check final = Some c -> c <> D_ERR -> c <> Y_ERR ->
    exists year month : Z,
      (begin_year <= year <= this_year)%Z /\ (1900 <= year <= 2050)%Z /\
      (1 <= month <= 12)%Z /\
      match c with META => META_S final | _ => EXIF_S final end
      = Some (str_of_Z year ++ lit "/" ++ zfill 2 month) /\
      (c = BOTH -> META_S final = EXIF_S final /\ META_L final = EXIF_L final).
Proof.
  intros exif_tags meta_tags begin_year this_year final c H Hc Hd Hy.
  unfold get_datetime in H.
  apply bind_ret in H. destruct H as (exif_dt & He & H).
  apply bind_ret in H. destruct H as (meta_dt & Hm & H).
  apply exif_all_or_nothing in He. apply meta_all_or_nothing in Hm.
  now apply (resolve_gated Collect._EXIF_KEYS Collect._META_KEYS exif_dt meta_dt
               begin_year this_year).
Qed.

Lemma gated_record_has_a_month_witness :
  exists final,
    get_datetime (Some two_exif_tags) (Some two_meta_tags) 2000 2022
    = Ret final /\
    check final = Some BOTH /\
    exists year month : Z,
      (2000 <= year <= 2022)%Z /\ (1900 <= year <= 2050)%Z /\
      (1 <= month <= 12)%Z /\
      EXIF_S final = Some (str_of_Z year ++ lit "/" ++ zfill 2 month) /\
      (BOTH = BOTH ->
       META_S final = EXIF_S final /\ META_L final = EXIF_L final).
Proof.
  eexists. split; [vm_compute; reflexivity|]. split; [reflexivity|].
  exact (gated_record_has_a_month (Some two_exif_tags) (Some two_meta_tags)
           2000 2022 _ BOTH ltac:(vm_compute; reflexivity) eq_refl
           ltac:(discriminate) ltac:(discriminate)).
Defined.

(** ** Loops *)

Lemma for_each_inv {S A : Type} (I : S -> Prop) (body : S -> A -> result S)
  (l : list A) :
  (forall s a s', In a l -> body s a = Ret s' -> I s -> I s') ->
  forall s s', for_each body l s = Ret s' -> I s -> I s'.
Proof.
  induction l as [|a l IH]; intros Hb s s' H Hs; cbn [for_each] in H.
  - now injection H as <-.
  - apply bind_ret in H. destruct H as (s1 & H1 & H).
    apply (IH (fun s a s' Ha => Hb s a s' (or_intror Ha)) s1 s' H).
    apply (Hb s a s1); [now left|assumption..].
Qed.

(** What a step establishes for its element and every later step keeps
    holds at the end for every element. *)
Lemma for_each_all {S A : Type} (Q : A -> S -> Prop)
  (body : S -> A -> result S) (l : list A) :
  (forall s a s', body s a = Ret s' -> Q a s') ->
  (forall s a s' x, body s a = Ret s' -> Q x s -> Q x s') ->
  forall s s', for_each body l s = Ret s' -> forall a, In a l -> Q a s'.
Proof.
  intros Hnew Hkeep. induction l as [|a l IH]; intros s s' H x Hx;
    [contradiction|].
  cbn [for_each] in H. apply bind_ret in H. destruct H as (s1 & H1 & H).
  destruct Hx as [<-|Hx].
  - apply (for_each_inv (Q a) body l
             (fun s a' s' _ Hb => Hkeep s a' s' a Hb) s1 s' H).
    now apply (Hnew s).
  - now apply (IH s1 s' H).
Qed.

(** ** The file system *)

Lemma content_remove_same (a : pystr) (l : list (pystr * pystr)) :
  Fs.content a (Fs.remove_file a l) = None.
Proof.
  induction l as [|[q c] l IH]; [reflexivity|].
  unfold Fs.remove_file in *. cbn [filter fst].
  destruct (str_eqb q a) eqn:E; cbn [negb]; [exact IH|].
  cbn [Fs.content]. now rewrite E.
Qed.

Lemma content_remove_other (a q : pystr) (l : list (pystr * pystr)) :
  q <> a -> Fs.content q (Fs.remove_file a l) = Fs.content q l.
Proof.
  intros Hq. induction l as [|[p c] l IH]; [reflexivity|].
  unfold Fs.remove_file in *. cbn [filter fst Fs.content].
  destruct (str_eqb p a) eqn:E; cbn [negb].
  - apply str_eqb_eq in E. subst p.
    destruct (str_eqb a q) eqn:F; [|exact IH].
    apply str_eqb_eq in F. congruence.
  - cbn [Fs.content]. destruct (str_eqb p q); [reflexivity|exact IH].
Qed.

Lemma content_app (q : pystr) (l l' : list (pystr * pystr)) :
  Fs.content q (l ++ l') =
  match Fs.content q l with Some c => Some c | None => Fs.content q l' end.
Proof.
  induction l as [|[p c] l IH]; [reflexivity|].
  cbn [app Fs.content]. destruct (str_eqb p q); [reflexivity|exact IH].
Qed.

Lemma content_written (a q c : pystr) (l : list (pystr * pystr)) :
  Fs.content q (Fs.remove_file a l ++ [(a, c)]) =
  if str_eqb a q then Some c else Fs.content q l.
Proof.
  rewrite content_app. cbn [Fs.content].
  destruct (str_eqb a q) eqn:E.
  - apply str_eqb_eq in E. subst q. now rewrite content_remove_same.
  - rewrite content_remove_other.
    + now destruct (Fs.content q l).
    + intros ->. now rewrite str_eqb_refl in E.
Qed.

Lemma write_inv (fs fs' : Fs.t) (p c : pystr) :
  Fs.write fs p c = Ret fs' ->
  Fs.cwd fs' = Fs.cwd fs /\ Fs.dirs fs' = Fs.dirs fs /\
  Fs.mem (Fs.abspath fs p) (Fs.dirs fs) = false /\
  forall q, Fs.content q (Fs.files fs') =
            if str_eqb (Fs.abspath fs p) q then Some c
            else Fs.content q (Fs.files fs).
Proof.
  unfold Fs.write. cbv zeta.
  destruct (Fs.mem (Fs.abspath fs p) (Fs.dirs fs)) eqn:E;
    [discriminate|]. cbn [orb].
  destruct (negb (truthy (OsPath.basename (Fs.abspath fs p))));
    [discriminate|].
  destruct (Fs.mem (OsPath.dirname (Fs.abspath fs p)) (Fs.dirs fs));
    [|discriminate].
  intros H. injection H as <-. cbn [Fs.cwd Fs.dirs Fs.files].
  repeat split. intros q. apply content_written.
Qed.

Lemma mkdir_inv (fs fs' : Fs.t) (p : pystr) :
  Fs.mkdir fs p = Ret fs' ->
  Fs.cwd fs' = Fs.cwd fs /\ Fs.files fs' = Fs.files fs /\
  Fs.dirs fs' = Fs.dirs fs ++ [Fs.abspath fs p].
Proof.
  unfold Fs.mkdir. destruct (Fs.exists_ fs p); [discriminate|].
  destruct (Fs.mem _ (Fs.dirs fs)); [|discriminate].
  intros H. injection H as <-. repeat split.
Qed.

Lemma rmdir_inv (fs fs' : Fs.t) (p : pystr) :
  Fs.rmdir fs p = Ret fs' ->
  Fs.cwd fs' = Fs.cwd fs /\ Fs.files fs' = Fs.files fs /\
  Fs.children fs (Fs.abspath fs p) = [] /\
  Fs.dirs fs' =
  filter (fun d => negb (str_eqb d (Fs.abspath fs p))) (Fs.dirs fs).
Proof.
  unfold Fs.rmdir, Fs.listdir. destruct (Fs.isdir fs p); [|discriminate].
  destruct (Fs.children fs (Fs.abspath fs p)) as [|e es]; [|discriminate].
  cbn [map]. intros H. injection H as <-. repeat split.
Qed.

Lemma mem_true (p : pystr) (l : list pystr) :
  Fs.mem p l = true <-> In p l.
Proof.
  unfold Fs.mem. rewrite existsb_exists. split.
  - intros (x & Hx & E). apply str_eqb_eq in E. now subst.
  - intros H. exists p. split; [exact H|apply str_eqb_refl].
Qed.

(** ** tidy.py: [move_file] *)

(** X9.  For a source and a target whose paths name what they say (no
    [.], [..], doubled or trailing slash) and, when the file is moved,
    are not directories: when [move_file] reports no failure, the target
    holds the content of the source; the source is still there after a
    copy and gone after a move; no other file and no directory is
    touched.  When it reports a failure, the file system is as before. *)
Theorem move_file_effect :
  forall (fs fs' : Fs.t) (input_path output_path : pystr) (remove : bool)
         (failure : option reason),
    move_file fs input_path output_path remove = (fs', failure) ->
    let a := Fs.abspath fs input_path in
    let b := Fs.abspath fs output_path in
    plain_path a = true -> plain_path b = true ->
    (remove = true ->
     Fs.isdir fs input_path = false /\ Fs.isdir fs output_path = false) ->
    match failure with
    | Some _ => fs' = fs
    | None =>
        Fs.dirs fs' = Fs.dirs fs /\ Fs.cwd fs' = Fs.cwd fs /\
        exists bytes,
          Fs.content a (Fs.files fs) = Some bytes /\
          Fs.content b (Fs.files fs') = Some bytes /\
          (a <> b ->
           Fs.content a (Fs.files fs') = if remove then None else Some bytes) /\
          forall q, q <> a -> q <> b ->
                    Fs.content q (Fs.files fs') = Fs.content q (Fs.files fs)
    end.
Proof.
  intros fs fs' input_path output_path remove failure H a b _ _ Hdir.
  unfold move_file in H.
  destruct (negb (truthy input_path)); [now injection H as <- <-|].
  destruct (negb (Fs.exists_ fs (OsPath.dirname output_path)) &&
            truthy (OsPath.dirname output_path));
    [now injection H as <- <-|].
  destruct remove.
  - destruct (Fs.move fs input_path output_path) as [fs1|e] eqn:M;
      injection H as <- <-; [|reflexivity].
    destruct (Hdir eq_refl) as [Hin Hout].
    unfold Fs.move in M. cbv zeta in M. fold a in M.
    rewrite Hin, Hout in M. cbn [andb] in M. fold b in M.
    destruct (Fs.content a (Fs.files fs)) as [bytes|] eqn:C; [|discriminate].
    apply bind_ret in M. destruct M as (fs2 & W & M). injection M as <-.
    apply write_inv in W. fold b in W. destruct W as (Wc & Wd & _ & Wf).
    cbn [Fs.cwd Fs.dirs Fs.files].
    split; [exact Wd|]. split; [exact Wc|]. exists bytes.
    split; [reflexivity|].
    destruct (str_eqb a b) eqn:Eab.
    + apply str_eqb_eq in Eab.
      split; [now rewrite Wf, str_eqb_refl|].
      split; [intros Hab; contradiction|].
      intros q Hqa Hqb. rewrite Wf.
      destruct (str_eqb b q) eqn:E; [apply str_eqb_eq in E; congruence|].
      reflexivity.
    + assert (Hab : a <> b) by (intros E; rewrite E, str_eqb_refl in Eab;
                                discriminate).
      split; [rewrite content_remove_other by congruence;
              now rewrite Wf, str_eqb_refl|].
      split; [intros _; apply content_remove_same|].
      intros q Hqa Hqb. rewrite content_remove_other by exact Hqa.
      rewrite Wf.
      destruct (str_eqb b q) eqn:E; [apply str_eqb_eq in E; congruence|].
      reflexivity.
  - destruct (Fs.copyfile fs input_path output_path) as [fs1|e] eqn:M;
      injection H as <- <-; [|reflexivity].
    unfold Fs.copyfile in M. fold a b in M.
    destruct (str_eqb a b && Fs.exists_ fs input_path); [discriminate|].
    destruct (Fs.content a (Fs.files fs)) as [bytes|] eqn:C;
      [|destruct (Fs.isdir fs input_path); discriminate].
    apply write_inv in M. fold b in M. destruct M as (Wc & Wd & _ & Wf).
    split; [exact Wd|]. split; [exact Wc|]. exists bytes.
    split; [reflexivity|]. split; [now rewrite Wf, str_eqb_refl|].
    split.
    + intros Hab. rewrite Wf.
      destruct (str_eqb b a) eqn:E; [apply str_eqb_eq in E; congruence|].
      exact C.
    + intros q Hqa Hqb. rewrite Wf.
      destruct (str_eqb b q) eqn:E; [apply str_eqb_eq in E; congruence|].
      reflexivity.
Qed.

Lemma move_file_effect_witness :
  exists fs',
    move_file nodt_and_photo (lit "/in/my-photo.jpg")
              (lit "Photos_nodt/a.jpg") true = (fs', None) /\
    Fs.dirs fs' = Fs.dirs nodt_and_photo /\
    Fs.cwd fs' = Fs.cwd nodt_and_photo /\
    exists bytes,
      Fs.content (Fs.abspath nodt_and_photo (lit "/in/my-photo.jpg"))
                 (Fs.files nodt_and_photo) = Some bytes /\
      Fs.content (Fs.abspath nodt_and_photo (lit "Photos_nodt/a.jpg"))
                 (Fs.files fs') = Some bytes /\
      (Fs.abspath nodt_and_photo (lit "/in/my-photo.jpg") <>
       Fs.abspath nodt_and_photo (lit "Photos_nodt/a.jpg") ->
       Fs.content (Fs.abspath nodt_and_photo (lit "/in/my-photo.jpg"))
                  (Fs.files fs') = None) /\
      forall q,
        q <> Fs.abspath nodt_and_photo (lit "/in/my-photo.jpg") ->
        q <> Fs.abspath nodt_and_photo (lit "Photos_nodt/a.jpg") ->
        Fs.content q (Fs.files fs') = Fs.content q (Fs.files nodt_and_photo).
Proof.
  eexists. split; [vm_compute; reflexivity|].
  exact (move_file_effect nodt_and_photo _ (lit "/in/my-photo.jpg")
           (lit "Photos_nodt/a.jpg") true None
           ltac:(vm_compute; reflexivity)
           ltac:(vm_compute; reflexivity) ltac:(vm_compute; reflexivity)
           ltac:(intros _; split; vm_compute; reflexivity)).
Defined.

(** ** tidy.py: what [reorgnize_file] counts and what it leaves alone *)

Lemma move_file_keeps (fs fs' : Fs.t) (input_path output_path : pystr)
  (remove : bool) (failure : option reason) :
  move_file fs input_path output_path remove = (fs', failure) ->
  (remove = true -> Fs.isdir fs input_path = false) ->
  Fs.dirs fs' = Fs.dirs fs /\ Fs.cwd fs' = Fs.cwd fs /\
  (remove = false ->
   forall p, Fs.content p (Fs.files fs) <> None ->
             Fs.content p (Fs.files fs') <> None).
Proof.
  unfold move_file. intros H Hin.
  destruct (negb (truthy input_path)); [now injection H as <- <-|].
  destruct (negb (Fs.exists_ fs (OsPath.dirname output_path)) &&
            truthy (OsPath.dirname output_path));
    [now injection H as <- <-|].
  destruct remove.
  - destruct (Fs.move fs input_path output_path) as [fs1|e] eqn:M;
      injection H as <- <-; [|repeat split; auto].
    unfold Fs.move in M. cbv zeta in M. rewrite (Hin eq_refl) in M.
    rewrite andb_false_r in M. cbn [andb] in M.
    destruct (Fs.isdir fs output_path && _); [discriminate|].
    destruct (Fs.content _ (Fs.files fs)) as [bytes|]; [|discriminate].
    apply bind_ret in M. destruct M as (fs2 & W & M). injection M as <-.
    apply write_inv in W. destruct W as (Wc & Wd & _).
    cbn [Fs.cwd Fs.dirs Fs.files].
    split; [exact Wd|]. split; [exact Wc|]. discriminate.
  - destruct (Fs.copyfile fs input_path output_path) as [fs1|e] eqn:M;
      injection H as <- <-; [|repeat split; auto].
    unfold Fs.copyfile in M.
    destruct (str_eqb _ _ && _); [discriminate|].
    destruct (Fs.content _ (Fs.files fs)) as [bytes|];
      [|destruct (Fs.isdir fs input_path); discriminate].
    apply write_inv in M. destruct M as (Wc & Wd & _ & Wf).
    split; [exact Wd|]. split; [exact Wc|].
    intros _ p Hp. rewrite Wf. now destruct (str_eqb _ p).
Qed.

Lemma is_y_err (check : cell) :
  is_ check (lit "Y_ERR") = true ->
  is_ check (lit "BOTH") || is_ check (lit "D_ERR") ||
  is_ check (lit "META") || is_ check (lit "EXIF") = false.
Proof.
  destruct check as [v|]; [|discriminate]. cbn [is_]. intros H.
  apply str_eqb_eq in H. subst v. reflexivity.
Qed.

(** Only a [Y_ERR] row goes to the year-error table. *)
Lemma plan_yerr (fs : Fs.t) (confi : option pystr) (file : row)
  (file_name : pystr) (t : target) :
  plan fs confi file file_name = Ret t ->
  t_yerr t = is_ (c_check file) (lit "Y_ERR").
Proof.
  unfold plan. destruct (is_ (c_check file) (lit "Y_ERR")) eqn:Hy.
  - rewrite (is_y_err _ Hy). intros H. plan_cases H. now injection H as <-.
  - intros H. plan_cases H; now injection H as <-.
Qed.

Lemma place_counts (remove : bool) (st st' : state) (file : row) :
  place remove st file = Ret st' ->
  (success st' + fail st' = S (success st + fail st))%nat /\
  (length (failed_files st) = fail st ->
   length (failed_files st') = fail st') /\
  (Forall (fun x => x_remove x = remove) (failed_files st) ->
   Forall (fun x => x_remove x = remove) (failed_files st')) /\
  length (yerr_files st') =
  (length (yerr_files st) +
   if is_ (c_check file) (lit "Y_ERR") then 1 else 0)%nat.
Proof.
  unfold place. destruct (c_path file) as [source_path|]; [|discriminate].
  intros H. apply bind_ret in H. destruct H as (t & Ht & H).
  apply plan_yerr in Ht.
  destruct (move_file (fs st) source_path (t_path t) remove)
    as [fs' failure].
  rewrite Ht in H.
  destruct failure as [r|]; injection H as <-;
    cbn [success fail failed_files yerr_files fs];
    rewrite ?length_app, ?Forall_app;
    (split; [lia|]); (split; [cbn [length]; lia|]);
    (split; [intros F; repeat split; auto|]);
    destruct (is_ (c_check file) (lit "Y_ERR")); reflexivity.
Qed.

Lemma loop_counts (remove : bool) (df : list row) :
  forall st st',
    for_each (place remove) df st = Ret st' ->
    (success st' + fail st' = success st + fail st + length df)%nat /\
    (length (failed_files st) = fail st ->
     length (failed_files st') = fail st') /\
    (Forall (fun x => x_remove x = remove) (failed_files st) ->
     Forall (fun x => x_remove x = remove) (failed_files st')) /\
    length (yerr_files st') =
    (length (yerr_files st) +
     length (filter (fun file => is_ (c_check file) (lit "Y_ERR")) df))%nat.
Proof.
  induction df as [|file df IH]; intros st st' H; cbn [for_each] in H.
  - injection H as <-. cbn [length filter]. repeat split; auto; lia.
  - apply bind_ret in H. destruct H as (st1 & H1 & H).
    apply place_counts in H1. apply IH in H.
    destruct H1 as (A1 & B1 & C1 & D1). destruct H as (A & B & C & D).
    cbn [length filter].
    split; [lia|]. split; [auto|]. split; [auto|].
    destruct (is_ (c_check file) (lit "Y_ERR")); cbn [length]; lia.
Qed.

(** A row whose file is copied, or moved from a path that is not a
    directory, leaves the directories alone. *)
Lemma place_keeps (remove : bool) (st st' : state) (file : row) :
  place remove st file = Ret st' ->
  (remove = true ->
   forall source_path, c_path file = Some source_path ->
                       Fs.isdir (fs st) source_path = false) ->
  Fs.dirs (fs st') = Fs.dirs (fs st) /\ Fs.cwd (fs st') = Fs.cwd (fs st) /\
  (remove = false ->
   forall p, Fs.content p (Fs.files (fs st)) <> None ->
             Fs.content p (Fs.files (fs st')) <> None).
Proof.
  unfold place. destruct (c_path file) as [source_path|]; [|discriminate].
  intros H Hin. apply bind_ret in H. destruct H as (t & Ht & H).
  destruct (move_file (fs st) source_path (t_path t) remove)
    as [fs' failure] eqn:M.
  apply move_file_keeps in M; [|intros R; now apply Hin].
  destruct (t_yerr t), failure as [r|]; injection H as <-; exact M.
Qed.

Lemma isdir_same (fs fs' : Fs.t) (p : pystr) :
  Fs.dirs fs' = Fs.dirs fs -> Fs.cwd fs' = Fs.cwd fs ->
  Fs.isdir fs' p = Fs.isdir fs p.
Proof. unfold Fs.isdir, Fs.abspath. now intros -> ->. Qed.

Lemma loop_keeps (remove : bool) (df : list row) :
  forall st st',
    for_each (place remove) df st = Ret st' ->
    (remove = true ->
     forall file source_path,
       In file df -> c_path file = Some source_path ->
       Fs.isdir (fs st) source_path = false) ->
    Fs.dirs (fs st') = Fs.dirs (fs st) /\ Fs.cwd (fs st') = Fs.cwd (fs st) /\
    (remove = false ->
     forall p, Fs.content p (Fs.files (fs st)) <> None ->
               Fs.content p (Fs.files (fs st')) <> None).
Proof.
  induction df as [|file df IH]; intros st st' H Hin; cbn [for_each] in H.
  - injection H as <-. auto.
  - apply bind_ret in H. destruct H as (st1 & H1 & H).
    apply place_keeps in H1;
      [|intros R p Hp; apply (Hin R file p); [now left|exact Hp]].
    destruct H1 as (D1 & C1 & F1).
    apply IH in H.
    + destruct H as (D & C & F).
      split; [congruence|]. split; [congruence|]. auto.
    + intros R f p Hf Hp. rewrite (isdir_same _ _ p D1 C1).
      apply (Hin R f p); [now right|exact Hp].
Qed.

(** X10.  When [reorgnize_file] returns, every row was counted once, as
    a success or as a failure; the failure table has one line for each
    failure, with the mode that [reorgnize_file] was given; the year-error
    table has one line for each [Y_ERR] row. *)
Theorem reorgnize_file_accounts :
  forall (fs0 : Fs.t) (file_dataframe : list row) (remove : bool) (st : state),
    reorgnize_file fs0 file_dataframe remove = Ret st ->
    (success st + fail st = length file_dataframe)%nat /\
    length (failed_files st) = fail st /\
    Forall (fun x => x_remove x = remove) (failed_files st) /\
    length (yerr_files st) =
    length (filter (fun file => is_ (c_check file) (lit "Y_ERR"))
                   file_dataframe).
Proof.
  intros fs0 df remove st H. unfold reorgnize_file in H.
  apply bind_ret in H. destruct H as (st1 & H1 & H).
  apply loop_counts in H1. cbn [success fail failed_files yerr_files] in H1.
  destruct H1 as (A & B & C & D).
  specialize (B eq_refl). specialize (C (Forall_nil _)).
  apply bind_ret in H. destruct H as (st2 & H2 & H).
  assert (E2 : exists f, st2 = set_fs f st1).
  { destruct (failed_files st1) as [|x xs];
      [injection H2 as <-; exists (fs st1); now destruct st1|].
    apply bind_ret in H2. destruct H2 as (f & _ & H2). injection H2 as <-.
    eauto. }
  assert (E : exists f, st = set_fs f st2).
  { destruct (yerr_files st2) as [|x xs];
      [injection H as <-; exists (fs st2); now destruct st2|].
    apply bind_ret in H. destruct H as (y_dir & _ & H).
    apply bind_ret in H. destruct H as (f & _ & H). injection H as <-.
    eauto. }
  destruct E2 as [f2 ->]. destruct E as [f ->].
  cbn [set_fs success fail failed_files yerr_files].
  repeat split; auto; lia.
Qed.

(** The side tables that [reorgnize_file] writes after its loop. *)
Lemma side_tables_keep (st1 st : state) :
  (st2 <- match failed_files st1 with
          | _ :: _ => f <- Fs.write (fs st1) _F_XLSX_PATH [] ;; Ret (set_fs f st1)
          | [] => Ret st1
          end ;;
   match yerr_files st2 with
   | _ :: _ =>
       y_dir <- plain_dir (lit "year_err") ;;
       f <- Fs.write (fs st2) (OsPath.join2 y_dir _Y_XLSX_PATH) [] ;;
       Ret (set_fs f st2)
   | [] => Ret st2
   end) = Ret st ->
  Fs.dirs (fs st) = Fs.dirs (fs st1) /\ Fs.cwd (fs st) = Fs.cwd (fs st1) /\
  forall p, Fs.content p (Fs.files (fs st1)) <> None ->
            Fs.content p (Fs.files (fs st)) <> None.
Proof.
  intros H. apply bind_ret in H. destruct H as (st2 & H2 & H).
  assert (E2 : Fs.dirs (fs st2) = Fs.dirs (fs st1) /\
               Fs.cwd (fs st2) = Fs.cwd (fs st1) /\
               forall p, Fs.content p (Fs.files (fs st1)) <> None ->
                         Fs.content p (Fs.files (fs st2)) <> None).
  { destruct (failed_files st1) as [|x xs]; [injection H2 as <-; auto|].
    apply bind_ret in H2. destruct H2 as (f & W & H2). injection H2 as <-.
    apply write_inv in W. destruct W as (Wc & Wd & _ & Wf). cbn [fs set_fs].
    split; [exact Wd|]. split; [exact Wc|].
    intros p Hp. rewrite Wf. now destruct (str_eqb _ p). }
  assert (E : Fs.dirs (fs st) = Fs.dirs (fs st2) /\
              Fs.cwd (fs st) = Fs.cwd (fs st2) /\
              forall p, Fs.content p (Fs.files (fs st2)) <> None ->
                        Fs.content p (Fs.files (fs st)) <> None).
  { destruct (yerr_files st2) as [|x xs]; [injection H as <-; auto|].
    apply bind_ret in H. destruct H as (y_dir & _ & H).
    apply bind_ret in H. destruct H as (f & W & H). injection H as <-.
    apply write_inv in W. destruct W as (Wc & Wd & _ & Wf). cbn [fs set_fs].
    split; [exact Wd|]. split; [exact Wc|].
    intros p Hp. rewrite Wf. now destruct (str_eqb _ p). }
  destruct E2 as (D2 & C2 & F2), E as (D & C & F).
  split; [congruence|]. split; [congruence|]. auto.
Qed.

(** X11.  When it copies ([remove] is [False]), and when it moves files
    of a ledger none of whose paths is a directory (the paths naming what
    they say: no [.], [..], doubled or trailing slash), [reorgnize_file]
    creates and removes no directory and stays in its working directory;
    when it copies, every file that was there is still there
    afterwards. *)
Theorem reorgnize_file_keeps :
  forall (fs0 : Fs.t) (file_dataframe : list row) (remove : bool) (st : state),
    reorgnize_file fs0 file_dataframe remove = Ret st ->
    (remove = true ->
     forall file source_path,
       In file file_dataframe -> c_path file = Some source_path ->
       plain_path (Fs.abspath fs0 source_path) = true /\
       Fs.isdir fs0 source_path = false) ->
    Fs.dirs (fs st) = Fs.dirs fs0 /\ Fs.cwd (fs st) = Fs.cwd fs0 /\
    (remove = false ->
     forall p, Fs.content p (Fs.files fs0) <> None ->
               Fs.content p (Fs.files (fs st)) <> None).
Proof.
  intros fs0 df remove st H Hin. unfold reorgnize_file in H.
  apply bind_ret in H. destruct H as (st1 & H1 & H).
  apply loop_keeps in H1;
    [|intros R file p Hf Hp; exact (proj2 (Hin R file p Hf Hp))].
  cbn [fs] in H1. destruct H1 as (D1 & C1 & F1).
  apply side_tables_keep in H. destruct H as (D & C & F).
  split; [congruence|]. split; [congruence|]. auto.
Qed.

Lemma reorgnize_file_accounts_witness :
  exists st,
    reorgnize_file nodt_and_photo
      [blank_row (lit "/in/my-photo.jpg"); blank_row (lit "/in/lost.jpg")]
      false = Ret st /\
    (success st + fail st =
     length [blank_row (lit "/in/my-photo.jpg");
             blank_row (lit "/in/lost.jpg")])%nat /\
    length (failed_files st) = fail st /\
    Forall (fun x => x_remove x = false) (failed_files st) /\
    length (yerr_files st) =
    length (filter (fun file => is_ (c_check file) (lit "Y_ERR"))
                   [blank_row (lit "/in/my-photo.jpg");
                    blank_row (lit "/in/lost.jpg")]).
Proof.
  eexists. split; [vm_compute; reflexivity|].
  exact (reorgnize_file_accounts nodt_and_photo
           [blank_row (lit "/in/my-photo.jpg"); blank_row (lit "/in/lost.jpg")]
           false _ ltac:(vm_compute; reflexivity)).
Defined.

Lemma reorgnize_file_keeps_witness :
  exists st,
    reorgnize_file nodt_and_photo
      [blank_row (lit "/in/my-photo.jpg"); blank_row (lit "/in/lost.jpg")]
      true = Ret st /\
    Fs.dirs (fs st) = Fs.dirs nodt_and_photo /\
    Fs.cwd (fs st) = Fs.cwd nodt_and_photo /\
    (true = false ->
     forall p, Fs.content p (Fs.files nodt_and_photo) <> None ->
               Fs.content p (Fs.files (fs st)) <> None).
Proof.
  eexists. split; [vm_compute; reflexivity|].
  refine (reorgnize_file_keeps nodt_and_photo
            [blank_row (lit "/in/my-photo.jpg"); blank_row (lit "/in/lost.jpg")]
            true _ ltac:(vm_compute; reflexivity) _).
  intros _ file source_path [<-|[<-|[]]] E; injection E as <-;
    split; vm_compute; reflexivity.
Defined.

(** ** tidy.py: rows that stop the batch *)

Lemma for_each_raise {S A : Type} (body : S -> A -> result S) (a : A)
  (l : list A) (s : S) (e : exn) :
  body s a = Raise e -> for_each body (a :: l) s = Raise e.
Proof. intros H. cbn [for_each]. now rewrite H. Qed.

Lemma reorgnize_file_raise (fs0 : Fs.t) (file : row) (rest : list row)
  (remove : bool) (source_path : pystr) (e : exn) :
  c_path file = Some source_path ->
  plan fs0 None file (OsPath.splitext_root (OsPath.basename source_path))
  = Raise e ->
  reorgnize_file fs0 (file :: rest) remove = Raise e.
Proof.
  intros Hp H. unfold reorgnize_file.
  rewrite (for_each_raise (place remove) file rest _ e); [reflexivity|].
  unfold place. rewrite Hp. cbn [fs confi]. now rewrite H.
Qed.

(** X12.  [reorgnize_file] does not create the directory of a date: when
    the month directory of a dated image or video is not a directory (its
    path naming what it says: no [.], [..], doubled or trailing slash),
    [os.listdir] raises [NotADirectoryError] if a regular file stands at
    the path or at one of its ancestors and [FileNotFoundError]
    otherwise; the exception is not recorded as a failure, it ends the
    batch at this row. *)
Theorem missing_month_aborts :
  forall (fs0 : Fs.t) (file : row) (rest : list row) (remove : bool)
         (source_path ty short_date : pystr),
    c_path file = Some source_path ->
    c_type file = Some ty -> In ty [lit "image"; lit "video"] ->
    filing_short file = Some short_date ->
    let target_dir :=
      OsPath.join (lit "Photos_bydt" :: Py.split 47 short_date) in
    plain_path (Fs.abspath fs0 target_dir) = true ->
    Fs.isdir fs0 target_dir = false ->
    reorgnize_file fs0 (file :: rest) remove =
    Raise (if Fs.blocked fs0 (Fs.abspath fs0 target_dir)
           then NotADirectoryError else FileNotFoundError).
Proof.
  intros fs0 file rest remove source_path ty short_date Hp Ht Hty Hs
         target_dir _ Hdir.
  subst target_dir.
  apply (reorgnize_file_raise fs0 file rest remove source_path _ Hp).
  set (file_name := OsPath.splitext_root (OsPath.basename source_path)).
  clearbody file_name.
  assert (Hseq : seq5 fs0 (OsPath.join (lit "Photos_bydt" :: Py.split 47 short_date))
                 = Raise (Fs.absent fs0
                            (Fs.abspath fs0
                               (OsPath.join (lit "Photos_bydt" ::
                                             Py.split 47 short_date))))).
  { unfold seq5, Fs.listdir. now rewrite Hdir. }
  fold (Fs.absent fs0
          (Fs.abspath fs0
             (OsPath.join (lit "Photos_bydt" :: Py.split 47 short_date)))).
  assert (Hdd : forall c, c = Some short_date ->
                  dated_dir (ty ++ lit "_with_datetime") c =
                  Ret (OsPath.join (lit "Photos_bydt" :: Py.split 47 short_date))).
  { intros c ->. cbn [In] in Hty.
    destruct Hty as [<-|[<-|[]]]; reflexivity. }
  unfold filing_short in Hs. unfold plan. rewrite Ht. cbn [concat bind].
  destruct (is_ (c_check file) (lit "EXIF")) eqn:C1.
  { rewrite !orb_true_r. rewrite (Hdd _ Hs). cbn [bind]. unfold img_path.
    now rewrite Hseq. }
  destruct (is_ (c_check file) (lit "META")) eqn:C2.
  { rewrite !orb_true_r. cbn [orb]. rewrite (Hdd _ Hs). cbn [bind].
    unfold img_path. now rewrite Hseq. }
  destruct (is_ (c_check file) (lit "BOTH")) eqn:C3.
  { cbn [orb]. rewrite (Hdd _ Hs). cbn [bind]. unfold img_path.
    now rewrite Hseq. }
  destruct (is_ (c_check file) (lit "D_ERR")) eqn:C4; [|discriminate].
  cbn [orb].
  assert (Hc : forall confi, fst (d_err_choice file confi)
                             = fst (d_err_choice file None) /\
                             (fst (d_err_choice file None) <> None ->
                              exists letter,
                                snd (d_err_choice file confi) = Some letter)).
  { intros confi. unfold d_err_choice.
    repeat match goal with
           | |- context [if ?b then _ else _] => destruct b
           end; cbn [fst snd]; split; try reflexivity; intros; try congruence;
      eauto. }
  destruct (Hc None) as [_ Hl].
  destruct (d_err_choice file None) as [chose letter] eqn:D.
  cbn [fst snd] in *. destruct chose as [chose|]; [|discriminate].
  destruct (Hl ltac:(discriminate)) as [l ->].
  destruct (str_eqb chose (lit "EXIF"));
    rewrite (Hdd _ Hs); cbn [bind]; unfold img_path; now rewrite Hseq.
Qed.

Lemma missing_month_aborts_witness :
  reorgnize_file empty_nodt [mismatch_row] false = Raise FileNotFoundError /\
  reorgnize_file year_is_a_file [row_of_1950] true = Raise NotADirectoryError.
Proof.
  split.
  - exact (missing_month_aborts empty_nodt mismatch_row [] false
             (lit "/in/c.jpg") (lit "image") (lit "2022/04")
             eq_refl eq_refl ltac:(cbn [In]; auto)
             ltac:(vm_compute; reflexivity) ltac:(vm_compute; reflexivity)
             ltac:(vm_compute; reflexivity)).
  - exact (missing_month_aborts year_is_a_file row_of_1950 [] true
             (lit "/in/c.jpg") (lit "image") (lit "1950/04")
             eq_refl eq_refl ltac:(cbn [In]; auto)
             ltac:(vm_compute; reflexivity) ltac:(vm_compute; reflexivity)
             ltac:(vm_compute; reflexivity)).
Defined.

Lemma endswith_app (suffix t : pystr) : endswith suffix (t ++ suffix) = true.
Proof.
  unfold endswith. rewrite rev_app_distr.
  induction (rev suffix) as [|c s IH]; [reflexivity|].
  cbn [app startswith]. now rewrite N.eqb_refl, IH.
Qed.

(** No category is named after a type that is not image or video. *)
Lemma getitem_with (ty : pystr) :
  ty <> lit "image" -> ty <> lit "video" ->
  getitem (ty ++ lit "_with_datetime") _FILE_CATEGORY = Raise KeyError.
Proof.
  intros H1 H2. unfold _FILE_CATEGORY. cbn [getitem].
  repeat match goal with
         | |- context [str_eqb ?k (ty ++ ?suf)] =>
             let E := fresh "E" in
             destruct (str_eqb k (ty ++ suf)) eqn:E;
             [exfalso; apply str_eqb_eq in E;
              first [ apply (app_inv_tail suf (lit "image") ty) in E;
                      congruence
                    | apply (app_inv_tail suf (lit "video") ty) in E;
                      congruence
                    | pose proof (endswith_app suf ty) as F;
                      rewrite <- E in F; vm_compute in F; discriminate F ]|]
         end.
  reflexivity.
Qed.

Lemma getitem_without (ty : pystr) :
  ty <> lit "image" -> ty <> lit "video" ->
  getitem (ty ++ lit "_without_datetime") _FILE_CATEGORY = Raise KeyError.
Proof.
  intros H1 H2. unfold _FILE_CATEGORY. cbn [getitem].
  repeat match goal with
         | |- context [str_eqb ?k (ty ++ ?suf)] =>
             let E := fresh "E" in
             destruct (str_eqb k (ty ++ suf)) eqn:E;
             [exfalso; apply str_eqb_eq in E;
              first [ apply (app_inv_tail suf (lit "image") ty) in E;
                      congruence
                    | apply (app_inv_tail suf (lit "video") ty) in E;
                      congruence
                    | pose proof (endswith_app suf ty) as F;
                      rewrite <- E in F; vm_compute in F; discriminate F ]|]
         end.
  reflexivity.
Qed.

(** X13.  Only the types image, video and other have a place.  A row
    dated [EXIF], [META] or [BOTH] whose type is not image or video, and a
    row without date whose type is none of the three, raise [KeyError] at
    the category dictionary; a row whose type is empty raises [TypeError]
    unless it is a [Y_ERR] row.  The exception ends the batch. *)
Theorem unplaced_type_aborts :
  forall (fs0 : Fs.t) (file : row) (rest : list row) (remove : bool)
         (source_path : pystr),
    c_path file = Some source_path ->
    (forall ty,
        c_type file = Some ty -> ty <> lit "image" -> ty <> lit "video" ->
        In (c_check file)
           [Some (lit "EXIF"); Some (lit "META"); Some (lit "BOTH")] ->
        reorgnize_file fs0 (file :: rest) remove = Raise KeyError) /\
    (forall ty,
        c_type file = Some ty -> ty <> lit "image" -> ty <> lit "video" ->
        ty <> lit "other" -> c_check file = None ->
        reorgnize_file fs0 (file :: rest) remove = Raise KeyError) /\
    (c_type file = None -> c_check file <> Some (lit "Y_ERR") ->
     reorgnize_file fs0 (file :: rest) remove = Raise TypeError).
Proof.
  intros fs0 file rest remove source_path Hp. split; [|split].
  - intros ty Ht H1 H2 Hc.
    apply (reorgnize_file_raise fs0 file rest remove source_path _ Hp).
    unfold plan. rewrite Ht. cbn [concat bind]. unfold dated_dir.
    rewrite (getitem_with ty H1 H2). cbn [In] in Hc.
    destruct Hc as [<-|[<-|[<-|[]]]]; reflexivity.
  - intros ty Ht H1 H2 H3 Hc.
    apply (reorgnize_file_raise fs0 file rest remove source_path _ Hp).
    unfold plan. rewrite Ht, Hc. cbn [is_ orb negb].
    destruct (str_eqb ty (lit "other")) eqn:E;
      [apply str_eqb_eq in E; contradiction|].
    cbn [negb concat bind]. unfold plain_dir.
    now rewrite (getitem_without ty H1 H2).
  - intros Ht Hc.
    apply (reorgnize_file_raise fs0 file rest remove source_path _ Hp).
    unfold plan. rewrite Ht. cbn [concat bind is_ negb].
    destruct (is_ (c_check file) (lit "BOTH") ||
              is_ (c_check file) (lit "D_ERR") ||
              is_ (c_check file) (lit "META") ||
              is_ (c_check file) (lit "EXIF")); [reflexivity|].
    destruct (is_ (c_check file) (lit "Y_ERR")) eqn:E; [|reflexivity].
    destruct (c_check file) as [v|]; [|discriminate].
    cbn [is_] in E. apply str_eqb_eq in E. congruence.
Qed.

Lemma unplaced_type_aborts_witness :
  reorgnize_file empty_nodt [audio_row] false = Raise KeyError.
Proof.
  exact (proj1 (proj2 (unplaced_type_aborts empty_nodt audio_row [] false
                         (lit "/in/a.mp3") eq_refl))
               (lit "audio") eq_refl ltac:(discriminate) ltac:(discriminate)
               ltac:(discriminate) eq_refl).
Defined.

(** ** tidy.py: the directories *)

Lemma grows_refl (fs : Fs.t) : grows fs fs.
Proof. repeat split. apply incl_refl. Qed.

Lemma grows_trans (fs1 fs2 fs3 : Fs.t) :
  grows fs1 fs2 -> grows fs2 fs3 -> grows fs1 fs3.
Proof.
  intros (A1 & B1 & C1) (A2 & B2 & C2).
  split; [congruence|]. split; [congruence|]. now apply incl_tran with (Fs.dirs fs2).
Qed.

Lemma mem_incl (p : pystr) (l l' : list pystr) :
  incl l l' -> Fs.mem p l = true -> Fs.mem p l' = true.
Proof. intros Hi. rewrite !mem_true. apply Hi. Qed.

Lemma exists_grows (fs fs' : Fs.t) (p : pystr) :
  grows fs fs' -> Fs.exists_ fs p = true -> Fs.exists_ fs' p = true.
Proof.
  intros (A & B & C). unfold Fs.exists_, Fs.isdir, Fs.isfile, Fs.abspath.
  rewrite A, B, !orb_true_iff. intros [H|H]; [left|now right].
  now apply (mem_incl _ _ _ C).
Qed.

Lemma make_grows (fs fs' : Fs.t) (directory : pystr) :
  make fs directory = Ret fs' ->
  grows fs fs' /\ Fs.exists_ fs' directory = true.
Proof.
  unfold make. destruct (Fs.exists_ fs directory) eqn:E; cbn [negb]; intros H.
  - injection H as <-. split; [apply grows_refl|exact E].
  - apply mkdir_inv in H. destruct H as (A & B & C).
    split; [repeat split; try assumption; rewrite C; now apply incl_appl,
                                                            incl_refl|].
    unfold Fs.exists_, Fs.isdir, Fs.abspath. rewrite A, C.
    apply orb_true_iff. left. apply mem_true, in_or_app. right. now left.
Qed.

Lemma for_each_grows {A : Type} (body : Fs.t -> A -> result Fs.t)
  (l : list A) :
  (forall fs a fs', body fs a = Ret fs' -> grows fs fs') ->
  forall fs fs', for_each body l fs = Ret fs' -> grows fs fs'.
Proof.
  intros Hb fs fs' H.
  apply (for_each_inv (grows fs) body l) with (s := fs) (s' := fs');
    [|exact H|apply grows_refl].
  intros s a s' _ Hs G. apply grows_trans with s; [exact G|now apply (Hb s a)].
Qed.

Lemma in_zrange (a b i : Z) : (a <= i < b)%Z -> In i (zrange a b).
Proof. intros H. unfold zrange. apply in_interval. lia. Qed.

Lemma mk_date_dirs_grows (fs fs' : Fs.t) (date_dirs : list pystr)
  (begin_year this_year : Z) :
  mk_date_dirs fs date_dirs begin_year this_year = Ret fs' -> grows fs fs'.
Proof.
  unfold mk_date_dirs. apply for_each_grows. clear fs fs'.
  intros fs date_dir fs'. apply for_each_grows. clear fs fs'.
  intros fs i fs' H. apply bind_ret in H. destruct H as (fs1 & H1 & H).
  apply make_grows in H1. apply grows_trans with fs1; [tauto|].
  revert H. apply for_each_grows. intros s j s' Hs.
  now apply make_grows in Hs.
Qed.

(** X14.  When [mk_date_dirs] returns, every year from the first year to
    the current one and each of its twelve months exist under every date
    directory; no file and no directory was removed and the working
    directory is the same. *)
Theorem mk_date_dirs_makes :
  forall (fs fs' : Fs.t) (date_dirs : list pystr) (begin_year this_year : Z),
    mk_date_dirs fs date_dirs begin_year this_year = Ret fs' ->
    grows fs fs' /\
    forall date_dir year month,
      In date_dir date_dirs ->
      (begin_year <= year <= this_year)%Z -> (1 <= month <= 12)%Z ->
      let date_directory := OsPath.join (Py.split 47 date_dir) in
      Fs.exists_ fs' (OsPath.join [date_directory; str_of_Z year]) = true /\
      Fs.exists_ fs' (OsPath.join [date_directory; str_of_Z year;
                                   zfill 2 month]) = true.
Proof.
  intros fs fs' date_dirs begin_year this_year H. unfold mk_date_dirs in H.
  set (months := fun (dd : pystr) (i : Z) (fs : Fs.t) (j : Z) =>
                   make fs (OsPath.join [dd; str_of_Z i; zfill 2 j])) in *.
  set (years := fun (dd : pystr) (fs : Fs.t) (i : Z) =>
                  fs <- make fs (OsPath.join [dd; str_of_Z i]) ;;
                  for_each (months dd i) (zrange 1 13) fs) in *.
  set (dirs := fun (fs : Fs.t) (date_dir : pystr) =>
                 for_each (years (OsPath.join (Py.split OsPath.slash date_dir)))
                          (zrange begin_year (this_year + 1)) fs) in *.
  assert (Gm : forall dd i fs j fs', months dd i fs j = Ret fs' -> grows fs fs').
  { intros dd i s j s' Hs. now apply make_grows in Hs. }
  assert (Gy : forall dd fs i fs', years dd fs i = Ret fs' -> grows fs fs').
  { intros dd s i s' Hs. unfold years in Hs. apply bind_ret in Hs.
    destruct Hs as (s1 & H1 & Hs). apply make_grows in H1.
    apply for_each_grows in Hs; [|apply Gm].
    now apply grows_trans with s1. }
  assert (Gd : forall fs dd fs', dirs fs dd = Ret fs' -> grows fs fs').
  { intros s dd s' Hs. unfold dirs in Hs.
    apply for_each_grows in Hs; [exact Hs|apply Gy]. }
  split; [apply (for_each_grows dirs date_dirs Gd _ _ H)|].
  intros date_dir year month Hd Hy Hm date_directory.
  refine (for_each_all
            (fun date_dir s =>
               forall year month,
                 (begin_year <= year <= this_year)%Z -> (1 <= month <= 12)%Z ->
                 let dd := OsPath.join (Py.split 47 date_dir) in
                 Fs.exists_ s (OsPath.join [dd; str_of_Z year]) = true /\
                 Fs.exists_ s (OsPath.join [dd; str_of_Z year; zfill 2 month])
                 = true)
            dirs date_dirs _ _ fs fs' H date_dir Hd year month Hy Hm).
  - intros s dd s' Hs y m Hy' Hm' d. unfold dirs in Hs.
    refine (for_each_all
              (fun y s =>
                 forall m, (1 <= m <= 12)%Z ->
                   Fs.exists_ s (OsPath.join [d; str_of_Z y]) = true /\
                   Fs.exists_ s (OsPath.join [d; str_of_Z y; zfill 2 m]) = true)
              (years d) _ _ _ s s' Hs y
              (in_zrange begin_year (this_year + 1) y ltac:(lia)) m Hm').
    + intros s0 y0 s0' Hs0 m0 Hm0. unfold years in Hs0.
      apply bind_ret in Hs0. destruct Hs0 as (s1 & H1 & Hs0).
      apply make_grows in H1. destruct H1 as [G1 E1].
      split.
      * apply exists_grows with s1; [|exact E1].
        apply (for_each_grows (months d y0) _ (Gm d y0) _ _ Hs0).
      * refine (for_each_all
                  (fun m s =>
                     Fs.exists_ s (OsPath.join [d; str_of_Z y0; zfill 2 m])
                     = true)
                  (months d y0) _ _ _ s1 s0' Hs0 m0
                  (in_zrange 1 13 m0 ltac:(lia))).
        -- intros s2 j s3 H3. now apply make_grows in H3.
        -- intros s2 j s3 x H3 Hx. apply exists_grows with s2; [|exact Hx].
           now apply (Gm d y0 s2 j).
    + intros s1 y1 s2 x H2 Hx m1 Hm1. destruct (Hx m1 Hm1) as [X1 X2].
      split; apply exists_grows with s1; try assumption;
        now apply (Gy d s1 y1).
  - intros s1 d1 s2 x H2 Hx y1 m1 Hy1 Hm1 dd.
    destruct (Hx y1 m1 Hy1 Hm1) as [X1 X2].
    split; apply exists_grows with s1; try assumption; now apply (Gd s1 d1).
Qed.

Lemma mk_date_dirs_makes_witness :
  exists fs',
    mk_date_dirs one_month _DATE_DIRS 2021 2022 = Ret fs' /\
    grows one_month fs' /\
    forall date_dir year month,
      In date_dir _DATE_DIRS ->
      (2021 <= year <= 2022)%Z -> (1 <= month <= 12)%Z ->
      let date_directory := OsPath.join (Py.split 47 date_dir) in
      Fs.exists_ fs' (OsPath.join [date_directory; str_of_Z year]) = true /\
      Fs.exists_ fs' (OsPath.join [date_directory; str_of_Z year;
                                   zfill 2 month]) = true.
Proof.
  eexists. split; [vm_compute; reflexivity|].
  exact (mk_date_dirs_makes one_month _ _DATE_DIRS 2021 2022
           ltac:(vm_compute; reflexivity)).
Defined.

Lemma shrinks_refl (fs : Fs.t) : shrinks fs fs.
Proof. repeat split; auto. apply incl_refl. Qed.

Lemma shrinks_trans (fs1 fs2 fs3 : Fs.t) :
  shrinks fs1 fs2 -> shrinks fs2 fs3 -> shrinks fs1 fs3.
Proof.
  intros (A1 & B1 & C1 & D1) (A2 & B2 & C2 & D2).
  split; [congruence|]. split; [congruence|].
  split; [now apply incl_tran with (Fs.dirs fs2)|].
  intros d Hd Hh. apply D2; [now apply D1|].
  unfold holds_file in *. now rewrite B1.
Qed.

Lemma remove_if_empty_shrinks (fs fs' : Fs.t) (directory : pystr) :
  remove_if_empty fs directory = Ret fs' -> shrinks fs fs'.
Proof.
  unfold remove_if_empty. intros H. apply bind_ret in H.
  destruct H as ([|e es] & _ & H); [|injection H as <-; apply shrinks_refl].
  apply rmdir_inv in H. destruct H as (A & B & C & D).
  split; [exact A|]. split; [exact B|]. rewrite D.
  split; [intros d Hd; now apply filter_In in Hd|].
  intros d Hd (q & c & Hq & Hdir & Hb). apply filter_In. split; [exact Hd|].
  destruct (str_eqb d (Fs.abspath fs directory)) eqn:E; [|reflexivity].
  apply str_eqb_eq in E. exfalso.
  assert (Hin : In q (Fs.children fs (Fs.abspath fs directory))).
  { unfold Fs.children. apply filter_In. split.
    - apply in_or_app. right. apply in_map_iff. now exists (q, c).
    - rewrite Hdir, <- E, str_eqb_refl, Hb. reflexivity. }
  now rewrite C in Hin.
Qed.

Lemma for_each_shrinks {A : Type} (body : Fs.t -> A -> result Fs.t)
  (l : list A) :
  (forall fs a fs', body fs a = Ret fs' -> shrinks fs fs') ->
  forall fs fs', for_each body l fs = Ret fs' -> shrinks fs fs'.
Proof.
  intros Hb fs fs' H.
  apply (for_each_inv (shrinks fs) body l) with (s := fs) (s' := fs');
    [|exact H|apply shrinks_refl].
  intros s a s' _ Hs G. apply shrinks_trans with s; [exact G|now apply (Hb s a)].
Qed.

Lemma rm_date_dirs_shrinks (fs fs' : Fs.t) (date_dirs : list pystr)
  (begin_year this_year : Z) :
  rm_date_dirs fs date_dirs begin_year this_year = Ret fs' -> shrinks fs fs'.
Proof.
  unfold rm_date_dirs. apply for_each_shrinks. clear fs fs'.
  intros fs date_dir fs' H. apply bind_ret in H. destruct H as (fs1 & H1 & H).
  apply shrinks_trans with fs1.
  - revert H1. apply for_each_shrinks. intros s i s'.
    apply for_each_shrinks. intros s1 j s2. apply remove_if_empty_shrinks.
  - revert H. apply for_each_shrinks. intros s i s'.
    apply remove_if_empty_shrinks.
Qed.

(** X15.  When [rm_date_dirs] returns, it has removed directories only:
    the files and the working directory are the same, no directory was
    added, and a directory that holds a file is still there. *)
Theorem rm_date_dirs_keeps :
  forall (fs fs' : Fs.t) (date_dirs : list pystr) (begin_year this_year : Z),
    rm_date_dirs fs date_dirs begin_year this_year = Ret fs' ->
    Fs.cwd fs' = Fs.cwd fs /\ Fs.files fs' = Fs.files fs /\
    incl (Fs.dirs fs') (Fs.dirs fs) /\
    forall q c,
      In (q, c) (Fs.files fs) -> truthy (OsPath.basename q) = true ->
      In (OsPath.dirname q) (Fs.dirs fs) ->
      In (OsPath.dirname q) (Fs.dirs fs').
Proof.
  intros fs fs' date_dirs begin_year this_year H.
  apply rm_date_dirs_shrinks in H. destruct H as (A & B & C & D).
  repeat (split; [assumption|]).
  intros q c Hq Hb Hd. apply D; [exact Hd|]. now exists q, c.
Qed.

Lemma rm_date_dirs_keeps_witness :
  exists fs',
    rm_date_dirs april_kept [lit "Photos_bydt"] 2022 2022 = Ret fs' /\
    Fs.cwd fs' = Fs.cwd april_kept /\ Fs.files fs' = Fs.files april_kept /\
    incl (Fs.dirs fs') (Fs.dirs april_kept) /\
    forall q c,
      In (q, c) (Fs.files april_kept) -> truthy (OsPath.basename q) = true ->
      In (OsPath.dirname q) (Fs.dirs april_kept) ->
      In (OsPath.dirname q) (Fs.dirs fs').
Proof.
  eexists. split; [vm_compute; reflexivity|].
  exact (rm_date_dirs_keeps april_kept _ [lit "Photos_bydt"] 2022 2022
           ltac:(vm_compute; reflexivity)).
Defined.

Lemma mk_category_dirs_grows (fs fs' : Fs.t)
  (file_category : list (pystr * pystr)) :
  mk_category_dirs fs file_category = Ret fs' -> grows fs fs'.
Proof.
  unfold mk_category_dirs. apply for_each_grows. intros s a s' H.
  now apply (make_grows s s' (OsPath.join (Py.split OsPath.slash a))).
Qed.

(** X16.  When [mk_category_dirs] returns, the directory of every
    category exists; no file and no directory was removed and the working
    directory is the same. *)
Theorem mk_category_dirs_makes :
  forall (fs fs' : Fs.t) (file_category : list (pystr * pystr)),
    mk_category_dirs fs file_category = Ret fs' ->
    grows fs fs' /\
    forall key category,
      In (key, category) file_category ->
      Fs.exists_ fs' (OsPath.join (Py.split 47 category)) = true.
Proof.
  intros fs fs' file_category H.
  split; [now apply mk_category_dirs_grows in H|].
  intros key category Hin. unfold mk_category_dirs in H.
  refine (for_each_all
            (fun category s =>
               Fs.exists_ s (OsPath.join (Py.split 47 category)) = true)
            _ _ _ _ fs fs' H category _).
  - intros s a s' Hs.
    now apply (make_grows s s' (OsPath.join (Py.split OsPath.slash a))).
  - intros s a s' x Hs Hx. apply exists_grows with s; [|exact Hx].
    now apply (make_grows s s' (OsPath.join (Py.split OsPath.slash a))).
  - apply in_map_iff. now exists (key, category).
Qed.

Lemma mk_category_dirs_makes_witness :
  exists fs',
    mk_category_dirs empty_nodt _FILE_CATEGORY = Ret fs' /\
    grows empty_nodt fs' /\
    forall key category,
      In (key, category) _FILE_CATEGORY ->
      Fs.exists_ fs' (OsPath.join (Py.split 47 category)) = true.
Proof.
  eexists. split; [vm_compute; reflexivity|].
  exact (mk_category_dirs_makes empty_nodt _ _FILE_CATEGORY
           ltac:(vm_compute; reflexivity)).
Defined.

(** X17.  Whatever its flag, when [main] returns no file that was there
    has disappeared, and the working directory is the one it started in
    (an absolute path). *)
Theorem main_keeps_files :
  forall (fs0 : Fs.t) (ledger : option dataframe) (answers : list pystr)
         (this_year : Z) (target_dir : pystr) (remove : bool) (st : state),
    main fs0 ledger answers this_year target_dir remove = Ret st ->
    (forall p, Fs.content p (Fs.files fs0) <> None ->
               Fs.content p (Fs.files (fs st)) <> None) /\
    (startswith [OsPath.slash] (Fs.cwd fs0) = true ->
     Fs.cwd (fs st) = Fs.cwd fs0).
Proof.
  intros fs0 ledger answers this_year target_dir remove st H.
  unfold main in H. apply bind_ret in H. destruct H as (fs1 & H1 & H).
  assert (E1 : Fs.cwd fs1 = Fs.cwd fs0 /\ Fs.files fs1 = Fs.files fs0).
  { destruct (negb (Fs.exists_ fs0 target_dir));
      [apply mkdir_inv in H1; tauto|injection H1 as <-; tauto]. }
  destruct E1 as [C1 F1].
  destruct ledger as [file_dataframe|]; [|discriminate].
  destruct (negb (chk_cols file_dataframe _COLS_SET)); [discriminate|].
  apply bind_ret in H. destruct H as ([[fs2 d_df] chked] & H2 & H).
  assert (E2 : Fs.cwd fs2 = Fs.cwd fs1 /\
               forall p, Fs.content p (Fs.files fs1) <> None ->
                         Fs.content p (Fs.files fs2) <> None).
  { unfold chk_duplicate in H2. apply bind_ret in H2.
    destruct H2 as (f & W & H2). apply bind_ret in H2.
    destruct H2 as (sel & _ & H2). apply write_inv in W.
    destruct W as (Wc & _ & _ & Wf).
    assert (f = fs2) as <-
      by (destruct (str_eqb sel (lit "YES"));
          [|destruct (str_eqb sel (lit "NO"))]; congruence).
    split; [exact Wc|]. intros p Hp. rewrite Wf. now destruct (str_eqb _ p). }
  destruct E2 as [C2 F2].
  apply bind_ret in H. destruct H as (fs3 & H3 & H).
  assert (E3 : Fs.files fs3 = Fs.files fs2).
  { unfold Fs.chdir in H3. destruct (Fs.isdir fs2 target_dir); [|discriminate].
    now injection H3 as <-. }
  apply bind_ret in H. destruct H as (fs4 & H4 & H).
  apply mk_category_dirs_grows in H4. destruct H4 as (_ & F4 & _).
  apply bind_ret in H. destruct H as (fs5 & H5 & H).
  apply mk_date_dirs_grows in H5. destruct H5 as (_ & F5 & _).
  apply bind_ret in H. destruct H as (st1 & H6 & H).
  unfold reorgnize_file in H6. apply bind_ret in H6.
  destruct H6 as (st0 & L & H6).
  apply loop_keeps in L; [|discriminate]. cbn [fs] in L.
  destruct L as (_ & _ & F6).
  apply side_tables_keep in H6. destruct H6 as (_ & _ & F6').
  apply bind_ret in H. destruct H as (fs6 & H7 & H).
  apply rm_date_dirs_shrinks in H7. destruct H7 as (_ & F7 & _).
  apply bind_ret in H. destruct H as (fs7 & H8 & H). injection H as <-.
  cbn [fs set_fs]. unfold Fs.chdir in H8.
  destruct (Fs.isdir fs6 (Fs.cwd fs2)); [|discriminate]. injection H8 as <-.
  cbn [Fs.files Fs.cwd]. split.
  - intros p Hp. rewrite F7. apply F6', F6; [reflexivity|].
    rewrite F5, F4, E3. apply F2. now rewrite F1.
  - intros Habs. unfold Fs.abspath, OsPath.join2. rewrite C2, C1, Habs.
    reflexivity.
Qed.

Lemma main_keeps_files_witness :
  exists st,
    main one_photo (Some one_photo_ledger) [lit "NO"] 2000 (lit "out") true
    = Ret st /\
    (forall p, Fs.content p (Fs.files one_photo) <> None ->
               Fs.content p (Fs.files (fs st)) <> None) /\
    (startswith [OsPath.slash] (Fs.cwd one_photo) = true ->
     Fs.cwd (fs st) = Fs.cwd one_photo).
Proof.
  eexists. split; [vm_compute; reflexivity|].
  exact (main_keeps_files one_photo (Some one_photo_ledger) [lit "NO"] 2000
           (lit "out") true _ ltac:(vm_compute; reflexivity)).
Defined.

(** ** tidy.py: what [drop_duplicates] leaves *)

Lemma same_key_sym (a b : row) : same_key a b = same_key b a.
Proof.
  destruct (same_key a b) eqn:E, (same_key b a) eqn:F; try reflexivity.
  - apply same_key_iff in E. symmetry in E. apply same_key_iff in E. congruence.
  - apply same_key_iff in F. symmetry in F. apply same_key_iff in F. congruence.
Qed.

Lemma same_key_refl (a : row) : same_key a a = true.
Proof. now apply same_key_iff. Qed.

Lemma existsb_false {A : Type} (p : A -> bool) (l : list A) :
  existsb p l = false <-> Forall (fun a => p a = false) l.
Proof.
  induction l as [|a l IH]; cbn [existsb].
  - split; [constructor|reflexivity].
  - rewrite orb_false_iff, IH. split.
    + intros [H1 H2]. now constructor.
    + intros H. inversion H; subst. tauto.
Qed.

(** The rows that stay have different keys, and keys that the rows seen
    before do not have. *)
Lemma drop_duplicates_from_distinct (df : list row) :
  forall seen,
    ForallOrdPairs (fun a b => same_key a b = false)
                   (drop_duplicates_from seen df) /\
    Forall (fun r => existsb (same_key r) seen = false)
           (drop_duplicates_from seen df).
Proof.
  induction df as [|r df IH]; intros seen; cbn [drop_duplicates_from].
  - split; constructor.
  - destruct (existsb (same_key r) seen) eqn:E; [apply IH|].
    destruct (IH (seen ++ [r])) as [P F]. split.
    + constructor; [|exact P].
      apply Forall_impl with (2 := F). intros x Hx.
      rewrite existsb_app in Hx. apply orb_false_iff in Hx.
      destruct Hx as [_ Hx]. cbn [existsb] in Hx. rewrite orb_false_r in Hx.
      now rewrite same_key_sym.
    + constructor; [exact E|].
      apply Forall_impl with (2 := F). intros x Hx.
      rewrite existsb_app in Hx. now apply orb_false_iff in Hx.
Qed.

Lemma duplicated_from_false (after : list row) :
  forall before,
    forallb negb (duplicated_from before after) = true <->
    ForallOrdPairs (fun a b => same_key a b = false) after /\
    Forall (fun r => existsb (same_key r) before = false) after.
Proof.
  induction after as [|r after IH]; intros before; cbn [duplicated_from forallb].
  - split; [split; constructor|reflexivity].
  - rewrite andb_true_iff, negb_true_iff, orb_false_iff, IH.
    split.
    + intros ((E1 & E2) & P & F). apply existsb_false in E2. split.
      * now constructor.
      * constructor; [exact E1|]. apply Forall_impl with (2 := F).
        intros x Hx. rewrite existsb_app in Hx. now apply orb_false_iff in Hx.
    + intros (P & F). inversion P as [|? ? Hr P']; subst.
      inversion F as [|? ? Er F']; subst.
      split; [split; [exact Er|now apply existsb_false]|]. split; [exact P'|].
      rewrite Forall_forall in *. intros x Hx. rewrite existsb_app.
      apply orb_false_iff. split; [now apply F'|].
      cbn [existsb]. rewrite orb_false_r, same_key_sym. now apply Hr.
Qed.

Lemma drop_duplicates_from_id (df : list row) :
  forall seen,
    ForallOrdPairs (fun a b => same_key a b = false) df ->
    Forall (fun r => existsb (same_key r) seen = false) df ->
    drop_duplicates_from seen df = df.
Proof.
  induction df as [|r df IH]; intros seen P F; [reflexivity|].
  cbn [drop_duplicates_from]. inversion P as [|? ? Hr P']; subst.
  inversion F as [|? ? Er F']; subst. rewrite Er. f_equal.
  apply IH; [exact P'|]. rewrite Forall_forall in *. intros x Hx.
  rewrite existsb_app. apply orb_false_iff. split; [now apply F'|].
  cbn [existsb]. rewrite orb_false_r, same_key_sym. now apply Hr.
Qed.

Lemma drop_duplicates_from_covers (df : list row) :
  forall seen r,
    In r df ->
    existsb (same_key r) seen = true \/
    exists r', In r' (drop_duplicates_from seen df) /\ same_key r r' = true.
Proof.
  induction df as [|x df IH]; intros seen r Hr; [contradiction|].
  cbn [drop_duplicates_from]. destruct Hr as [->|Hr].
  - destruct (existsb (same_key r) seen) eqn:E; [now left|].
    right. exists r. split; [now left|apply same_key_refl].
  - destruct (existsb (same_key x) seen) eqn:E; [now apply IH|].
    destruct (IH (seen ++ [x]) r Hr) as [H|(r' & Hin & Hk)].
    + rewrite existsb_app in H. apply orb_true_iff in H.
      destruct H as [H|H]; [now left|]. right. exists x.
      cbn [existsb] in H. rewrite orb_false_r in H. split; [now left|exact H].
    + right. exists r'. split; [now right|exact Hk].
Qed.

Lemma drop_duplicates_from_incl (df : list row) :
  forall seen, incl (drop_duplicates_from seen df) df.
Proof.
  induction df as [|x df IH]; intros seen; cbn [drop_duplicates_from].
  - apply incl_refl.
  - destruct (existsb (same_key x) seen).
    + apply incl_tl, IH.
    + apply incl_cons; [now left|]. apply incl_tl, IH.
Qed.

(** After [drop_duplicates] no two rows of the table are duplicate
    candidates, every row of the ledger has a row with its extension, size
    and hash in the table, and the table is made of rows of the ledger.
    Dropping again changes nothing, and a ledger without candidates is
    left as it is. *)
Lemma drop_duplicates_distinct :
  forall df : list row,
    forallb negb (duplicated (drop_duplicates df)) = true /\
    (forall r, In r df ->
       exists r', In r' (drop_duplicates df) /\ dup_key r' = dup_key r) /\
    incl (drop_duplicates df) df /\
    drop_duplicates (drop_duplicates df) = drop_duplicates df /\
    (forallb negb (duplicated df) = true -> drop_duplicates df = df).
Proof.
  intros df. unfold drop_duplicates, duplicated.
  destruct (drop_duplicates_from_distinct df []) as [P F].
  assert (N : forall l : list row,
              Forall (fun r => existsb (same_key r) [] = false) l).
  { intros l. apply Forall_forall. reflexivity. }
  split; [apply duplicated_from_false; split; [exact P|apply N]|].
  split.
  { intros r Hr.
    destruct (drop_duplicates_from_covers df [] r Hr) as [H|(r' & Hin & Hk)];
      [discriminate|].
    exists r'. split; [exact Hin|]. symmetry. now apply same_key_iff. }
  split; [apply drop_duplicates_from_incl|].
  split; [apply drop_duplicates_from_id; [exact P|apply N]|].
  intros H. apply duplicated_from_false in H.
  apply drop_duplicates_from_id; tauto.
Qed.

Lemma select_none (df : list row) :
  forall flags, forallb negb flags = true -> select df flags = [].
Proof.
  unfold select. induction df as [|r df IH]; intros [|b flags] H;
    try reflexivity.
  cbn [forallb] in H. apply andb_true_iff in H. destruct H as [Hb H].
  destruct b; [discriminate|]. cbn [combine filter snd]. now apply IH.
Qed.

(** X18.  Whatever the operator answers, the table that [chk_duplicate]
    hands on is made of rows of the ledger and has, for every row of the
    ledger, a row with its extension, size and hash.  After YES no two
    of its rows are duplicate candidates ([duplicated] flags none); after
    NO it is the ledger.  When the ledger has no candidates, the table of
    candidates is empty and the ledger goes on as it is, whatever the
    answer. *)
Theorem chk_duplicate_leaves :
  forall (fs fs' : Fs.t) (file_dataframe d_df chked : list row)
         (answers : list pystr),
    chk_duplicate fs file_dataframe answers = Ret (fs', d_df, chked) ->
    incl chked file_dataframe /\
    (forall r, In r file_dataframe ->
       exists r', In r' chked /\ dup_key r' = dup_key r) /\
    (ask answers = Ret (lit "YES") ->
     forallb negb (duplicated chked) = true) /\
    (ask answers = Ret (lit "NO") -> chked = file_dataframe) /\
    (forallb negb (duplicated file_dataframe) = true ->
     d_df = [] /\ chked = file_dataframe).
Proof.
  intros fs fs' file_dataframe d_df chked answers H.
  unfold chk_duplicate in H. cbv zeta in H.
  apply bind_ret in H. destruct H as (fs1 & _ & H).
  apply bind_ret in H. destruct H as (sel & Hs & H).
  destruct (drop_duplicates_distinct file_dataframe) as (D1 & D2 & D3 & _ & D5).
  rewrite Hs.
  destruct (str_eqb sel (lit "YES")) eqn:EY.
  - apply str_eqb_eq in EY. subst sel. injection H as <- <- <-.
    split; [exact D3|]. split; [exact D2|]. split; [intros _; exact D1|].
    split; [discriminate|].
    intros F. split; [now apply select_none|now apply D5].
  - destruct (str_eqb sel (lit "NO")) eqn:EN; [|discriminate].
    injection H as <- <- <-.
    split; [apply incl_refl|].
    split; [intros r Hr; now exists r|].
    split; [intros E; injection E as ->; discriminate|].
    split; [reflexivity|].
    intros F. split; [now apply select_none|reflexivity].
Qed.

Lemma chk_duplicate_leaves_witness :
  exists fs' d_df chked,
    chk_duplicate three_photos three_rows [lit "yes"; lit "YES"]
    = Ret (fs', d_df, chked) /\
    incl chked three_rows /\
    (forall r, In r three_rows ->
       exists r', In r' chked /\ dup_key r' = dup_key r) /\
    (ask [lit "yes"; lit "YES"] = Ret (lit "YES") ->
     forallb negb (duplicated chked) = true) /\
    (ask [lit "yes"; lit "YES"] = Ret (lit "NO") -> chked = three_rows) /\
    (forallb negb (duplicated three_rows) = true ->
     d_df = [] /\ chked = three_rows).
Proof.
  do 3 eexists. split; [vm_compute; reflexivity|].
  exact (chk_duplicate_leaves three_photos _ three_rows _ _
           [lit "yes"; lit "YES"] ltac:(vm_compute; reflexivity)).
Defined.

(** ** tidy.py: the fragment that [pick_num] keeps *)

Lemma sub_from_chars (r : regex) (repl s : pystr) :
  forall bos skip c,
    In c (sub_from bos r repl skip s) -> In c s \/ In c repl.
Proof.
  induction s as [|x s IH]; intros bos skip c H; [contradiction|].
  cbn [sub_from] in H. destruct skip as [|k].
  - destruct (rmatch bos r (x :: s)) as [|m ms].
    + destruct H as [<-|H]; [left; now left|].
      destruct (IH _ _ _ H); [left; now right|now right].
    + destruct (length (text m)) as [|k].
      * destruct H as [<-|H]; [left; now left|].
        destruct (IH _ _ _ H); [left; now right|now right].
      * apply in_app_or in H. destruct H as [H|H]; [now right|].
        destruct (IH _ _ _ H); [left; now right|now right].
  - destruct (IH _ _ _ H); [left; now right|now right].
Qed.

Lemma sub_no_match (r : regex) (repl s : pystr) (p : N -> bool) :
  (forall bos c t, p c = false -> rmatch bos r (c :: t) = []) ->
  forallb (fun c => negb (p c)) s = true ->
  forall bos, sub_from bos r repl 0 s = s.
Proof.
  intros Hr. induction s as [|c s IH]; intros Hs bos; [reflexivity|].
  cbn [forallb] in Hs. apply andb_true_iff in Hs. destruct Hs as [Hc Hs].
  apply negb_true_iff in Hc. cbn [sub_from]. rewrite (Hr bos c s Hc).
  f_equal. now apply IH.
Qed.

(** X19.  A name without Chinese or Latin letter and without underscore
    is its own fragment. *)
Theorem pick_num_keeps_plain_names :
  forall fname : pystr,
    forallb (fun c => negb (han_or_latin c || underscore c)) fname = true ->
    pick_num fname = fname.
Proof.
  intros fname H.
  assert (Hl : forallb (fun c => negb (han_or_latin c)) fname = true).
  { rewrite forallb_forall in *. intros c Hc. specialize (H c Hc).
    now destruct (han_or_latin c). }
  assert (Hu : forallb (fun c => negb (underscore c)) fname = true).
  { rewrite forallb_forall in *. intros c Hc. specialize (H c Hc).
    destruct (underscore c); [|reflexivity]. now rewrite orb_true_r in H. }
  unfold pick_num. rewrite sub_class, (filter_id _ _ Hl).
  unfold Re.sub.
  rewrite (sub_no_match (Cat Bol (plus underscore)) [] fname underscore);
    [|intros bos c t Hc; unfold plus; cbn [rmatch]; destruct bos;
      cbn [flat_map map app text rest truthy andb negb rmatch];
      rewrite ?Hc; reflexivity|exact Hu].
  rewrite (sub_no_match (Cat (plus underscore) Eol) [] fname underscore);
    [|intros bos c t Hc; unfold plus; cbn [rmatch];
      rewrite Hc; reflexivity|exact Hu].
  apply (sub_no_match _ _ fname underscore); [|exact Hu].
  intros bos c t Hc. cbn [cats rmatch]. rewrite Hc. reflexivity.
Qed.

Lemma pick_num_keeps_plain_names_witness :
  pick_num (lit "2022-04-01 15.25.38") = lit "2022-04-01 15.25.38".
Proof.
  exact (pick_num_keeps_plain_names (lit "2022-04-01 15.25.38")
           ltac:(vm_compute; reflexivity)).
Defined.

(** X20.  Whatever the name, its fragment holds no Chinese and no Latin
    letter, and each of its characters is a character of the name or the
    underscore that stands for a run of underscores. *)
Theorem pick_num_has_no_letter :
  forall (fname : pystr) (c : N),
    In c (pick_num fname) ->
    han_or_latin c = false /\ (In c fname \/ c = 95%N).
Proof.
  intros fname c H. unfold pick_num, Re.sub in H.
  assert (S : In c (filter (fun c => negb (han_or_latin c)) fname) \/ c = 95%N).
  { apply sub_from_chars in H. destruct H as [H|[<-|[]]]; [|now right].
    apply sub_from_chars in H. destruct H as [H|[]].
    apply sub_from_chars in H. destruct H as [H|[]].
    rewrite <- (sub_class han_or_latin fname). now left. }
  destruct S as [S| ->]; [|split; [reflexivity|now right]].
  apply filter_In in S. destruct S as [S1 S2].
  split; [now apply negb_true_iff|now left].
Qed.

Lemma pick_num_has_no_letter_witness :
  In 45%N (pick_num (lit "my-photo")) /\
  han_or_latin 45 = false /\ (In 45%N (lit "my-photo") \/ 45%N = 95%N).
Proof.
  split; [vm_compute; auto|].
  exact (pick_num_has_no_letter (lit "my-photo") 45%N ltac:(vm_compute; auto)).
Defined.

(** ** collect.py: sizes and hashes *)

Lemma round2_nearest (x d : Z) :
  (0 <= x)%Z -> (0 < d)%Z ->
  (0 <= Ledger.round2 x d)%Z /\
  (- d <= 2 * (d * Ledger.round2 x d - 100 * x) <= d)%Z.
Proof.
  intros Hx Hd. unfold Ledger.round2.
  pose proof (Z.div_mod (100 * x) d ltac:(lia)) as E.
  pose proof (Z.mod_pos_bound (100 * x) d Hd) as B.
  pose proof (Z.div_pos (100 * x) d ltac:(lia) Hd) as Q.
  set (q := (100 * x / d)%Z) in *. set (r := ((100 * x) mod d)%Z) in *.
  clearbody q r.
  destruct (2 * r <? d)%Z eqn:T1; [split; nia|].
  destruct (2 * r >? d)%Z eqn:T2; [split; nia|].
  destruct (Z.even q); split; nia.
Qed.

Lemma isfile_content (fs : Fs.t) (file : pystr) :
  Fs.isfile fs file = true <->
  exists bytes, Fs.content (Fs.abspath fs file) (Fs.files fs) = Some bytes.
Proof.
  unfold Fs.isfile, Fs.mem. generalize (Fs.abspath fs file) as a.
  intros a. induction (Fs.files fs) as [|[q c] l IH]; cbn [map existsb Fs.content fst].
  - split; [discriminate|intros [b Hb]; discriminate].
  - rewrite orb_true_iff, IH.
    destruct (str_eqb q a) eqn:E.
    + apply str_eqb_eq in E. subst q. rewrite str_eqb_refl.
      split; [eauto|now left].
    + destruct (str_eqb a q) eqn:F;
        [apply str_eqb_eq in F; subst; now rewrite str_eqb_refl in E|].
      split; [intros [H|H]; [discriminate|exact H]|now right].
Qed.

(** X21.  [get_file_size] gives nothing for a path that is not a regular
    file; for a regular file of [n] bytes it gives the number of KB (of MB
    when asked) to the nearest hundredth: the figure [h] in hundredths is
    at most half a hundredth away from [n / 1024]. *)
Theorem get_file_size_nearest_hundredth :
  forall (fs : Fs.t) (file unit : pystr),
    (Fs.isfile fs file = false -> Ledger.get_file_size fs file unit = None) /\
    (Fs.isfile fs file = true ->
     exists bytes h,
       Fs.content (Fs.abspath fs file) (Fs.files fs) = Some bytes /\
       Ledger.get_file_size fs file unit = Some h /\
       let n := Z.of_nat (length bytes) in
       let d := if str_eqb unit (lit "MB") then (1024 ^ 2)%Z else 1024%Z in
       (0 <= h)%Z /\ (- d <= 2 * (d * h - 100 * n) <= d)%Z).
Proof.
  intros fs file unit. unfold Ledger.get_file_size. split; intros H; rewrite H.
  - reflexivity.
  - apply isfile_content in H. destruct H as [bytes Hb]. rewrite Hb.
    cbn [negb]. exists bytes.
    destruct (str_eqb unit (lit "MB")); eexists;
      (split; [reflexivity|]); (split; [reflexivity|]);
      apply round2_nearest; lia.
Qed.

Lemma get_file_size_nearest_hundredth_witness :
  Ledger.get_file_size one_photo (lit "in/my-photo.jpg") (lit "KB") = Some 0%Z /\
  exists bytes h,
    Fs.content (Fs.abspath one_photo (lit "in/my-photo.jpg"))
               (Fs.files one_photo) = Some bytes /\
    Ledger.get_file_size one_photo (lit "in/my-photo.jpg") (lit "KB") = Some h /\
    let n := Z.of_nat (length bytes) in
    let d := if str_eqb (lit "KB") (lit "MB") then (1024 ^ 2)%Z else 1024%Z in
    (0 <= h)%Z /\ (- d <= 2 * (d * h - 100 * n) <= d)%Z.
Proof.
  split; [vm_compute; reflexivity|].
  exact (proj2 (get_file_size_nearest_hundredth one_photo
                  (lit "in/my-photo.jpg") (lit "KB"))
               ltac:(vm_compute; reflexivity)).
Defined.

Lemma read_size_pos : (1 <= Ledger.read_size)%nat.
Proof. unfold Ledger.read_size. lia. Qed.

(** With more fuel than bytes the loop feeds every byte, in order. *)
Lemma read_loop_all (fuel : nat) :
  forall unread fed,
    (length unread < fuel)%nat ->
    Ledger.read_loop fuel unread fed = fed ++ unread.
Proof.
  induction fuel as [|fuel IH]; intros unread fed H; [lia|].
  cbn [Ledger.read_loop]. pose proof read_size_pos as P.
  destruct unread as [|x unread].
  - rewrite firstn_nil. now rewrite app_nil_r.
  - destruct Ledger.read_size as [|n] eqn:E; [lia|].
    cbn [firstn skipn]. rewrite IH.
    + rewrite <- app_assoc. cbn [app]. now rewrite firstn_skipn.
    + rewrite length_skipn. cbn [length] in H. lia.
Qed.

(** X22.  [get_file_md5] gives nothing for a path that is not a regular
    file, and otherwise the digest of the whole content, whatever its
    length: the reads of 8096 bytes lose and repeat nothing. *)
Theorem get_file_md5_whole_content :
  forall (hexdigest : list N -> pystr) (fs : Fs.t) (file : pystr),
    (Fs.isfile fs file = false -> Ledger.get_file_md5 hexdigest fs file = None) /\
    (Fs.isfile fs file = true ->
     exists bytes,
       Fs.content (Fs.abspath fs file) (Fs.files fs) = Some bytes /\
       Ledger.get_file_md5 hexdigest fs file = Some (hexdigest bytes)).
Proof.
  intros hexdigest fs file. unfold Ledger.get_file_md5. split; intros H; rewrite H.
  - reflexivity.
  - apply isfile_content in H. destruct H as [bytes Hb]. rewrite Hb.
    cbn [negb]. exists bytes. split; [reflexivity|].
    rewrite read_loop_all by lia. reflexivity.
Qed.

(** ** collect.py: the rows of the ledger *)

Lemma getitem_dict_get (k : pystr) (d : list (pystr * pystr)) :
  getitem k d =
  match dict_get k d with Some v => Ret v | None => Raise KeyError end.
Proof.
  induction d as [|[k' v] d IH]; [reflexivity|].
  cbn [getitem dict_get]. now destruct (str_eqb k' k).
Qed.

Lemma dict_get_app (k : pystr) (d d' : list (pystr * pystr)) :
  dict_get k (d ++ d') =
  match dict_get k d with Some v => Some v | None => dict_get k d' end.
Proof.
  induction d as [|[k' v] d IH]; [reflexivity|].
  cbn [app dict_get]. now destruct (str_eqb k' k).
Qed.

Lemma ask_type_valid (lines lines' : list pystr) (ty : pystr) :
  Ledger.ask_type lines = Ret (ty, lines') ->
  In ty Ledger._FILE_TYPE /\ exists skipped, lines = skipped ++ ty :: lines'.
Proof.
  induction lines as [|a lines IH]; cbn [Ledger.ask_type]; [discriminate|].
  destruct (Fs.mem a Ledger._FILE_TYPE) eqn:E.
  - intros H. injection H as <- <-. split; [now apply mem_true|].
    now exists [].
  - intros H. destruct (IH H) as [H1 [skipped ->]]. split; [exact H1|].
    now exists (a :: skipped).
Qed.

Section Libraries.

Variable hexdigest : list N -> pystr.
Variable lower : pystr -> pystr.
Variable exifread : list N -> option exif_dict.
Variable hachoir : pystr -> list N -> option (list pystr).
Variable this_year : Z.

(** The extension that [process_files] looks up for a file. *)
Lemma process_file_other (fs : Fs.t) (root file ty : pystr) (v : Ledger.vars) :
  dict_get (lower (tl (Ledger.splitext_ext (OsPath.join2 root file))))
           (Ledger.ext_type_set v) = Some ty ->
  ty <> lit "image" -> ty <> lit "video" ->
  Ledger.process_file hexdigest lower exifread hachoir this_year fs root v file =
  match Ledger.dt_exif_key v, Ledger.dt_meta_key v with
  | Some exif_key, Some meta_key =>
      Ret {| Ledger.ext_type_set := Ledger.ext_type_set v;
             Ledger.answers := Ledger.answers v;
             Ledger.dt_exif_key := Ledger.dt_exif_key v;
             Ledger.dt_meta_key := Ledger.dt_meta_key v;
             Ledger.result_ :=
               Ledger.result_ v ++
               [ {| Ledger.d_path := OsPath.join2 root file;
                    Ledger.d_type := ty;
                    Ledger.d_ext :=
                      lower (tl (Ledger.splitext_ext (OsPath.join2 root file)));
                    Ledger.d_size :=
                      Ledger.get_file_size fs (OsPath.join2 root file) (lit "KB");
                    Ledger.d_md5 :=
                      Ledger.get_file_md5 hexdigest fs (OsPath.join2 root file);
                    Ledger.d_check := None;
                    Ledger.d_exif_key := exif_key; Ledger.d_exif_raw := None;
                    Ledger.d_exif_short := None; Ledger.d_exif_long := None;
                    Ledger.d_meta_key := meta_key; Ledger.d_meta_raw := None;
                    Ledger.d_meta_short := None; Ledger.d_meta_long := None |} ] |}
  | _, _ => Raise UnboundLocalError
  end.
Proof.
  intros Hd H1 H2. unfold Ledger.process_file. cbv zeta.
  unfold dict_in. rewrite Hd. cbn [negb bind fst snd].
  rewrite getitem_dict_get, Hd. cbn [bind].
  destruct (str_eqb ty (lit "image")) eqn:E1;
    [apply str_eqb_eq in E1; contradiction|].
  destruct (str_eqb ty (lit "video")) eqn:E2;
    [apply str_eqb_eq in E2; contradiction|].
  cbn [orb bind].
  destruct (Ledger.dt_exif_key v) as [ek|]; [|reflexivity].
  destruct (Ledger.dt_meta_key v) as [mk|]; reflexivity.
Qed.

(** X23.  [process_files] does not set [dt_exif_key] and [dt_meta_key]
    before it reads them: when the first file of a directory is not an
    image or a video (its extension is known with another type, or the
    operator answers other), building its row raises
    [UnboundLocalError], whatever follows. *)
Theorem first_file_not_media_raises :
  forall (fs : Fs.t) (root file : pystr) (rest : list pystr)
         (types : list (pystr * pystr)) (lines : list pystr),
    let file_ext := lower (tl (Ledger.splitext_ext (OsPath.join2 root file))) in
    (forall ty,
        dict_get file_ext types = Some ty ->
        ty <> lit "image" -> ty <> lit "video" ->
        Ledger.process_files hexdigest lower exifread hachoir this_year
          fs root (file :: rest) types lines = Raise UnboundLocalError) /\
    (forall lines',
        dict_get file_ext types = None ->
        Ledger.ask_type lines = Ret (lit "other", lines') ->
        Ledger.process_files hexdigest lower exifread hachoir this_year
          fs root (file :: rest) types lines = Raise UnboundLocalError).
Proof.
  intros fs root file rest types lines file_ext. split.
  - intros ty Hd H1 H2. unfold Ledger.process_files. cbn [for_each].
    rewrite (process_file_other fs root file ty
               {| Ledger.ext_type_set := types; Ledger.answers := lines;
                  Ledger.dt_exif_key := None; Ledger.dt_meta_key := None;
                  Ledger.result_ := [] |} Hd H1 H2).
    reflexivity.
  - intros lines' Hd Ha. unfold Ledger.process_files. cbn [for_each].
    unfold Ledger.process_file. cbv zeta. fold file_ext.
    cbn [Ledger.ext_type_set Ledger.answers Ledger.dt_exif_key
         Ledger.dt_meta_key].
    unfold dict_in. rewrite Hd, Ha. cbn [negb bind fst snd].
    rewrite getitem_dict_get, dict_get_app, Hd. cbn [dict_get].
    rewrite str_eqb_refl. reflexivity.
Qed.

(** After a file that is an image or a video, the files that are not
    repeat its keys. *)
Lemma others_repeat_keys (fs : Fs.t) (root : pystr) (others : list pystr) :
  forall (v : Ledger.vars) (exif_key meta_key : option pystr),
    Ledger.dt_exif_key v = Some exif_key ->
    Ledger.dt_meta_key v = Some meta_key ->
    (forall file, In file others ->
       exists ty,
         dict_get (lower (tl (Ledger.splitext_ext (OsPath.join2 root file))))
                  (Ledger.ext_type_set v) = Some ty /\
         ty <> lit "image" /\ ty <> lit "video") ->
    exists rows,
      for_each (Ledger.process_file hexdigest lower exifread hachoir this_year
                  fs root) others v =
      Ret {| Ledger.ext_type_set := Ledger.ext_type_set v;
             Ledger.answers := Ledger.answers v;
             Ledger.dt_exif_key := Some exif_key;
             Ledger.dt_meta_key := Some meta_key;
             Ledger.result_ := Ledger.result_ v ++ rows |} /\
      map Ledger.d_path rows = map (OsPath.join2 root) others /\
      Forall (fun r => Ledger.d_exif_key r = exif_key /\
                       Ledger.d_meta_key r = meta_key /\
                       Ledger.d_check r = None /\
                       Ledger.d_exif_raw r = None /\
                       Ledger.d_exif_short r = None /\
                       Ledger.d_exif_long r = None /\
                       Ledger.d_meta_raw r = None /\
                       Ledger.d_meta_short r = None /\
                       Ledger.d_meta_long r = None) rows.
Proof.
  induction others as [|file others IH]; intros v ek mk He Hm Hall.
  - exists []. cbn [for_each map]. rewrite app_nil_r. destruct v.
    cbn in *. subst. repeat split. constructor.
  - destruct (Hall file (or_introl eq_refl)) as (ty & Hd & H1 & H2).
    cbn [for_each]. rewrite (process_file_other fs root file ty v Hd H1 H2).
    rewrite He, Hm. cbn [bind].
    match goal with
    | |- context [for_each _ others ?v1] =>
        destruct (IH v1 ek mk eq_refl eq_refl) as (rows & E & P & F)
    end.
    { cbn [Ledger.ext_type_set]. intros f Hf. apply Hall. now right. }
    rewrite E. cbn [Ledger.ext_type_set Ledger.answers Ledger.result_].
    eexists (_ :: rows). rewrite <- app_assoc. cbn [app].
    split; [reflexivity|]. cbn [map Ledger.d_path]. split; [now rewrite P|].
    constructor; [cbn; tauto|exact F].
Qed.

(** X24.  The two variables keep the value of the last image or video:
    when the first file of a directory is an image or a video that
    [get_datetime] resolves and the files after it are of other types,
    [process_files] returns one row for each file, in order, and the rows
    of the other files carry the EXIF and META keys of the first file,
    their other date columns being empty. *)
Theorem later_rows_repeat_keys :
  forall (fs : Fs.t) (root file ty : pystr) (others : list pystr)
         (types : list (pystr * pystr)) (lines : list pystr) (m : file_msg),
    let file_path := OsPath.join2 root file in
    dict_get (lower (tl (Ledger.splitext_ext file_path))) types = Some ty ->
    In ty [lit "image"; lit "video"] ->
    get_datetime (Ledger.exif_tags exifread fs file_path)
                 (Ledger.meta_tags hachoir fs file_path) 2000 this_year = Ret m ->
    (forall other, In other others ->
       exists ty',
         dict_get (lower (tl (Ledger.splitext_ext (OsPath.join2 root other))))
                  types = Some ty' /\
         ty' <> lit "image" /\ ty' <> lit "video") ->
    exists first rows,
      Ledger.process_files hexdigest lower exifread hachoir this_year
        fs root (file :: others) types lines
      = Ret (first :: rows, types, lines) /\
      Ledger.d_path first = file_path /\
      Ledger.d_check first = check m /\
      Ledger.d_exif_key first = EXIF_K m /\
      Ledger.d_meta_key first = META_K m /\
      map Ledger.d_path rows = map (OsPath.join2 root) others /\
      Forall (fun r => Ledger.d_exif_key r = EXIF_K m /\
                       Ledger.d_meta_key r = META_K m /\
                       Ledger.d_check r = None /\
                       Ledger.d_exif_raw r = None /\
                       Ledger.d_exif_short r = None /\
                       Ledger.d_exif_long r = None /\
                       Ledger.d_meta_raw r = None /\
                       Ledger.d_meta_short r = None /\
                       Ledger.d_meta_long r = None) rows.
Proof.
  intros fs root file ty others types lines m file_path Hd Hty Hm Hall.
  unfold Ledger.process_files. cbn [for_each].
  unfold Ledger.process_file at 1. cbv zeta. fold file_path.
  cbn [Ledger.ext_type_set Ledger.answers Ledger.dt_exif_key
       Ledger.dt_meta_key Ledger.result_].
  unfold dict_in. rewrite Hd. cbn [negb bind fst snd].
  rewrite getitem_dict_get, Hd. cbn [bind].
  assert (T : str_eqb ty (lit "image") || str_eqb ty (lit "video") = true).
  { cbn [In] in Hty. destruct Hty as [<-|[<-|[]]]; reflexivity. }
  rewrite T, Hm. cbn [bind Ledger.load app].
  match goal with
  | |- context [for_each _ others ?v1] =>
      destruct (others_repeat_keys fs root others v1 (EXIF_K m) (META_K m)
                  eq_refl eq_refl Hall) as (rows & E & P & F)
  end.
  rewrite E. cbn [bind Ledger.result_ Ledger.ext_type_set Ledger.answers app].
  do 2 eexists. split; [reflexivity|]. cbn [Ledger.d_path Ledger.d_check
    Ledger.d_exif_key Ledger.d_meta_key]. repeat split; assumption.
Qed.

(** X25.  [main] computes the completion rate after every directory that
    [os.walk] yields: when the tree has directories and no file, the
    division by the number of files raises [ZeroDivisionError]; when
    [os.walk] yields nothing (the directory does not exist), an empty
    ledger is written. *)
Theorem empty_tree_divides_by_zero :
  forall (fs : Fs.t) (types : list (pystr * pystr)) (lines : list pystr),
    (forall root dirs walk,
        Forall (fun entry => snd entry = []) walk ->
        Ledger.main hexdigest lower exifread hachoir this_year fs
          ((root, dirs, []) :: walk) types lines = Ledger.ZeroDivisionError) /\
    (forall fs' fs'',
        Fs.chdir fs (Fs.cwd fs) = Ret fs' ->
        Fs.write fs' Ledger._XLSX_PATH [] = Ret fs'' ->
        Ledger.main hexdigest lower exifread hachoir this_year fs [] types lines
        = Ledger.Done (fs'', [], types)).
Proof.
  intros fs types lines. split.
  - intros root dirs walk Hw. unfold Ledger.main.
    assert (Z : forall n, fold_left
                  (fun (n : nat) (entry : pystr * list pystr * list pystr) =>
                     (n + length (snd entry))%nat) walk n = n).
    { induction Hw as [|e walk He _ IH]; intros n; [reflexivity|].
      cbn [fold_left]. rewrite He. cbn [length]. rewrite Nat.add_0_r.
      apply IH. }
    cbn [fold_left snd length]. rewrite Z. reflexivity.
  - intros fs' fs'' Hc W. unfold Ledger.main.
    cbn [fold_left Ledger.walk_loop]. now rewrite Hc, W.
Qed.

(** One turn of the loop adds one row, which describes its file. *)
Lemma process_file_row (fs : Fs.t) (root file : pystr) (v v' : Ledger.vars) :
  Ledger.process_file hexdigest lower exifread hachoir this_year fs root v file
  = Ret v' ->
  exists r added typed,
    Ledger.result_ v' = Ledger.result_ v ++ [r] /\
    Ledger.ext_type_set v' = Ledger.ext_type_set v ++ added /\
    Ledger.answers v = typed ++ Ledger.answers v' /\
    Forall (fun e => In (snd e) Ledger._FILE_TYPE /\
                     dict_get (fst e) (Ledger.ext_type_set v) = None) added /\
    describes hexdigest lower exifread hachoir this_year fs
              (Ledger.ext_type_set v') root file r.
Proof.
  unfold Ledger.process_file. cbv zeta.
  set (file_path := OsPath.join2 root file).
  set (file_ext := lower (tl (Ledger.splitext_ext file_path))).
  intros H. apply bind_ret in H. destruct H as ([types' lines'] & Ha & H).
  cbn [fst snd] in H.
  apply bind_ret in H. destruct H as (file_type & Hg & H).
  rewrite getitem_dict_get in Hg.
  destruct (dict_get file_ext types') as [ty|] eqn:Hd; [|discriminate].
  injection Hg as <-.
  apply bind_ret in H. destruct H as (file_dtl & Hm & H).
  apply bind_ret in H. destruct H as (exif_key & Hek & H).
  apply bind_ret in H. destruct H as (meta_key & Hmk & H).
  injection H as <-.
  cbn [Ledger.result_ Ledger.ext_type_set Ledger.answers].
  assert (Hs : exists added typed,
             types' = Ledger.ext_type_set v ++ added /\
             Ledger.answers v = typed ++ lines' /\
             Forall (fun e => In (snd e) Ledger._FILE_TYPE /\
                              dict_get (fst e) (Ledger.ext_type_set v) = None)
                    added).
  { unfold dict_in in Ha.
    destruct (dict_get file_ext (Ledger.ext_type_set v)) as [t|] eqn:Hk;
      cbn [negb] in Ha.
    - injection Ha as <- <-. exists [], []. rewrite app_nil_r.
      repeat split. constructor.
    - apply bind_ret in Ha. destruct Ha as ([t rest] & Hq & Ha).
      cbn [fst snd] in Ha. injection Ha as <- <-.
      apply ask_type_valid in Hq. destruct Hq as [Hv [skipped ->]].
      exists [(file_ext, t)], (skipped ++ [t]).
      split; [reflexivity|]. split; [now rewrite <- app_assoc|].
      constructor; [|constructor]. cbn [fst snd]. now split. }
  destruct Hs as (added & typed & -> & Hl & Hadd).
  eexists _, added, typed.
  split; [reflexivity|]. split; [reflexivity|]. split; [exact Hl|].
  split; [exact Hadd|].
  unfold describes. cbv zeta. fold file_path. fold file_ext.
  cbn [Ledger.d_path Ledger.d_ext Ledger.d_type Ledger.d_size Ledger.d_md5
       Ledger.d_check Ledger.d_exif_key Ledger.d_exif_raw Ledger.d_exif_short
       Ledger.d_exif_long Ledger.d_meta_key Ledger.d_meta_raw
       Ledger.d_meta_short Ledger.d_meta_long].
  repeat (split; [first [reflexivity | exact Hd]|]).
  destruct (str_eqb ty (lit "image") || str_eqb ty (lit "video")) eqn:E.
  - apply bind_ret in Hm. destruct Hm as (m & Hm & Hr). injection Hr as <-.
    cbn [Ledger.load] in Hek, Hmk. injection Hek as <-. injection Hmk as <-.
    assert (Hin : In ty [lit "image"; lit "video"]).
    { apply orb_true_iff in E. destruct E as [E|E]; apply str_eqb_eq in E;
        subst ty; cbn [In]; auto. }
    split; [intros _; exact Hin|]. intros _. exists m.
    split; [exact Hm|]. repeat split.
  - injection Hm as <-. split; [intros C; now contradiction C|].
    apply orb_false_iff in E. destruct E as [E1 E2].
    intros [<-|[<-|[]]]; [now rewrite str_eqb_refl in E1
                          |now rewrite str_eqb_refl in E2].
Qed.

Lemma describes_more (fs : Fs.t) (types added : list (pystr * pystr))
  (root file : pystr) (r : Ledger.datalist) :
  describes hexdigest lower exifread hachoir this_year fs types root file r ->
  describes hexdigest lower exifread hachoir this_year fs (types ++ added)
            root file r.
Proof.
  unfold describes. cbv zeta. intros (A & B & C & D).
  split; [exact A|]. split; [exact B|]. split; [|exact D].
  now rewrite dict_get_app, C.
Qed.

Lemma process_loop_rows (fs : Fs.t) (root : pystr) (files : list pystr) :
  forall v v',
    for_each (Ledger.process_file hexdigest lower exifread hachoir this_year
                fs root) files v = Ret v' ->
    exists rows added typed,
      Ledger.result_ v' = Ledger.result_ v ++ rows /\
      Ledger.ext_type_set v' = Ledger.ext_type_set v ++ added /\
      Ledger.answers v = typed ++ Ledger.answers v' /\
      Forall (fun e => In (snd e) Ledger._FILE_TYPE /\
                       dict_get (fst e) (Ledger.ext_type_set v) = None) added /\
      Forall2 (describes hexdigest lower exifread hachoir this_year fs
                         (Ledger.ext_type_set v') root) files rows.
Proof.
  induction files as [|file files IH]; intros v v' H; cbn [for_each] in H.
  - injection H as <-. exists [], [], []. rewrite !app_nil_r.
    repeat split; constructor.
  - apply bind_ret in H. destruct H as (v1 & H1 & H).
    apply process_file_row in H1.
    destruct H1 as (r & added1 & typed1 & R1 & T1 & L1 & A1 & D1).
    apply IH in H.
    destruct H as (rows & added & typed & R & T & L & A & D).
    exists (r :: rows), (added1 ++ added), (typed1 ++ typed).
    split; [now rewrite R, R1, <- app_assoc|].
    split; [now rewrite T, T1, <- app_assoc|].
    split; [now rewrite L1, L, <- app_assoc|].
    split.
    + apply Forall_app. split; [exact A1|].
      eapply Forall_impl; [|exact A]. intros e [He1 He2].
      split; [exact He1|]. rewrite T1, dict_get_app in He2.
      now destruct (dict_get (fst e) (Ledger.ext_type_set v)).
    + constructor; [|exact D]. rewrite T. now apply describes_more.
Qed.

(** X26.  When [process_files] returns, the rows are those of the files,
    one for each and in their order: each row has the path of its file
    under the directory, its extension in lower case, the type of the
    extension, the size and the hash of the file, and for an image or a
    video the dates of [get_datetime].  The dictionary of the types has
    only grown, by extensions it did not have and with valid types, and
    the lines that are left are a tail of the lines typed. *)
Theorem process_files_describes :
  forall (fs : Fs.t) (root : pystr) (files : list pystr)
         (types : list (pystr * pystr)) (lines : list pystr)
         (rows : list Ledger.datalist) (types' : list (pystr * pystr))
         (lines' : list pystr),
    Ledger.process_files hexdigest lower exifread hachoir this_year
      fs root files types lines = Ret (rows, types', lines') ->
    Forall2 (describes hexdigest lower exifread hachoir this_year fs types' root)
            files rows /\
    (exists added,
        types' = types ++ added /\
        Forall (fun e => In (snd e) Ledger._FILE_TYPE /\
                         dict_get (fst e) types = None) added) /\
    exists typed, lines = typed ++ lines'.
Proof.
  intros fs root files types lines rows types' lines' H.
  unfold Ledger.process_files in H.
  apply bind_ret in H. destruct H as (v & H & E). injection E as <- <- <-.
  apply process_loop_rows in H.
  cbn [Ledger.result_ Ledger.ext_type_set Ledger.answers app] in H.
  destruct H as (rows & added & typed & R & T & L & A & D).
  rewrite R. split; [exact D|]. split; [now exists added|now exists typed].
Qed.

End Libraries.

Lemma get_file_md5_whole_content_witness :
  Fs.isfile one_photo (lit "in/my-photo.jpg") = true /\
  exists bytes,
    Fs.content (Fs.abspath one_photo (lit "in/my-photo.jpg"))
               (Fs.files one_photo) = Some bytes /\
    Ledger.get_file_md5 (fun b => b) one_photo (lit "in/my-photo.jpg")
    = Some bytes.
Proof.
  split; [vm_compute; reflexivity|].
  exact (proj2 (get_file_md5_whole_content (fun b => b) one_photo
                  (lit "in/my-photo.jpg"))
               ltac:(vm_compute; reflexivity)).
Defined.

Lemma first_file_not_media_raises_witness :
  Ledger.process_files (fun b => b) (fun s => s) sample_exifread
    sample_hachoir 2022 photo_and_notes (lit "/home/in")
    [lit "notes.txt"; lit "a.jpg"] sample_types []
  = Raise UnboundLocalError.
Proof.
  exact (proj1 (first_file_not_media_raises (fun b => b) (fun s => s)
                  sample_exifread sample_hachoir 2022 photo_and_notes
                  (lit "/home/in") (lit "notes.txt") [lit "a.jpg"]
                  sample_types [])
               (lit "other") ltac:(vm_compute; reflexivity)
               ltac:(discriminate) ltac:(discriminate)).
Defined.

Lemma later_rows_repeat_keys_witness :
  exists first rows,
    Ledger.process_files (fun b => b) (fun s => s) sample_exifread
      sample_hachoir 2022 photo_and_notes (lit "/home/in")
      [lit "a.jpg"; lit "notes.txt"] sample_types []
    = Ret (first :: rows, sample_types, []) /\
    Ledger.d_path first = OsPath.join2 (lit "/home/in") (lit "a.jpg") /\
    Ledger.d_check first = check photo_msg /\
    Ledger.d_exif_key first = EXIF_K photo_msg /\
    Ledger.d_meta_key first = META_K photo_msg /\
    map Ledger.d_path rows = map (OsPath.join2 (lit "/home/in")) [lit "notes.txt"] /\
    Forall (fun r => Ledger.d_exif_key r = EXIF_K photo_msg /\
                     Ledger.d_meta_key r = META_K photo_msg /\
                     Ledger.d_check r = None /\
                     Ledger.d_exif_raw r = None /\
                     Ledger.d_exif_short r = None /\
                     Ledger.d_exif_long r = None /\
                     Ledger.d_meta_raw r = None /\
                     Ledger.d_meta_short r = None /\
                     Ledger.d_meta_long r = None) rows.
Proof.
  refine (later_rows_repeat_keys (fun b => b) (fun s => s) sample_exifread
            sample_hachoir 2022 photo_and_notes (lit "/home/in") (lit "a.jpg")
            (lit "image") [lit "notes.txt"] sample_types [] photo_msg
            _ _ _ _).
  - vm_compute. reflexivity.
  - cbn [In]. auto.
  - vm_compute. reflexivity.
  - intros other [<-|[]]. exists (lit "other").
    split; [vm_compute; reflexivity|]. split; discriminate.
Defined.

Lemma empty_tree_divides_by_zero_witness :
  Ledger.main (fun b => b) (fun s => s) sample_exifread sample_hachoir 2022
    photo_and_notes
    [(lit "empty", [lit "sub"], []); (lit "empty/sub", [], [])]
    sample_types []
  = Ledger.ZeroDivisionError.
Proof.
  exact (proj1 (empty_tree_divides_by_zero (fun b => b) (fun s => s)
                  sample_exifread sample_hachoir 2022 photo_and_notes
                  sample_types [])
               (lit "empty") [lit "sub"] [(lit "empty/sub", [], [])]
               ltac:(repeat constructor)).
Defined.

Lemma process_files_describes_witness :
  exists rows types',
    Ledger.process_files (fun b => b) (fun s => s) sample_exifread
      sample_hachoir 2022 photo_and_notes (lit "/home/in")
      [lit "a.jpg"; lit "notes.txt"] Ledger._EXT_TYPE_SET
      [lit "text"; lit "other"]
    = Ret (rows, types', []) /\
    Forall2 (describes (fun b => b) (fun s => s) sample_exifread
                       sample_hachoir 2022 photo_and_notes types'
                       (lit "/home/in"))
            [lit "a.jpg"; lit "notes.txt"] rows /\
    (exists added,
        types' = Ledger._EXT_TYPE_SET ++ added /\
        Forall (fun e => In (snd e) Ledger._FILE_TYPE /\
                         dict_get (fst e) Ledger._EXT_TYPE_SET = None) added) /\
    exists typed, [lit "text"; lit "other"] = typed ++ [].
Proof.
  do 2 eexists. split; [vm_compute; reflexivity|].
  exact (process_files_describes (fun b => b) (fun s => s) sample_exifread
           sample_hachoir 2022 photo_and_notes (lit "/home/in")
           [lit "a.jpg"; lit "notes.txt"] Ledger._EXT_TYPE_SET
           [lit "text"; lit "other"] _ _ [] ltac:(vm_compute; reflexivity)).
Defined.
